(** * NotionTimeBlock: the scheduling core

    A shallow embedding of [src/services/calendarService.ts] and
    [src/services/schedulingService.ts] (with the constants of
    [src/config/index.ts] and the data types of [src/types/index.ts]),
    followed by the properties of the slot generator, the conflict check,
    the slot scorer, the urgency computation and the selection policy.

    Modelling conventions.
    - A JavaScript [Date] is its epoch value in milliseconds, a [Z].
      Dates read from the clock, and the day bounds and work hours derived
      from them, are taken to lie inside the range of time values; the end
      of a slot, which depends on the unbounded duration, is checked
      against that range ([validDate]), beyond it it is an Invalid Date.
    - The local time zone has a fixed offset [utcOffset] (no daylight
      saving change inside the look-ahead horizon, nor between the clock
      and a due date), so the calendar-field setters are plain arithmetic
      on milliseconds and [moment]'s zone correction of a difference is
      zero.
    - A lookup in an object literal also finds the keys inherited from
      [Object.prototype]; [timeMapping] models them ([Inherited]);
      [FOCUS_TYPE_CONFIGS] is the table of the own keys.
    - Minute counts (durations, buffers) are integers, as the request
      schema of the webhook route demands; products with 60000 are exact.
    - The urgency score is an IEEE 754 binary64 number, as in JavaScript.
    - The system clock, the calendar API and the Notion API are oracles
      indexed by the number of interactions performed so far; every
      interaction advances that counter.
    - Logging is omitted. *)

From Stdlib Require Import ZArith List String Bool Lia Floats.
From Stdlib Require Import Sorting.Sorted Sorting.Permutation.
Import ListNotations.

Set Warnings "-inexact-float".

Open Scope string_scope.
Open Scope list_scope.
Open Scope Z_scope.

(** ** Data types ([src/types/index.ts]) *)

Inductive Quality := excellent | good | acceptable | poor.

Inductive Status := scheduled | conflict | no_slots | error.

Record TimeSlot := mkTimeSlot {
  start : Z;
  end_ : Z;
  duration : Z;
  quality : Quality;
  conflicts : bool
}.

Record CalendarEvent := mkCalendarEvent {
  ev_id : string;
  ev_summary : string;
  ev_start : Z;
  ev_end : Z;
  allDay : bool
}.

Record TaskData := mkTaskData {
  task_id : string;
  task_name : string;
  estimated_duration : Z;
  priority : string;
  focus_type : string;
  domain : option string;
  preferred_times : list string;
  due_date : Z;                      (* the instant [moment(due_date)] denotes *)
  buffer_before : Z;
  buffer_after : Z;
  flexible : bool;
  created_at : option Z;             (* [None]: the field is absent *)
  last_edited_time : option Z
}.

Record FocusTypeConfig := mkFocusTypeConfig {
  preferred_hours : list Z;
  min_duration : Z;
  max_duration : Z;
  preferred_duration : Z;
  requires_buffer : bool;
  cfg_buffer_before : Z;
  cfg_buffer_after : Z
}.

Record SchedulingResult := mkSchedulingResult {
  success : bool;
  scheduled_time : option (Z * Z);
  status : Status;
  message : string;
  alternative_slots : option (list TimeSlot)
}.

Record NotionTaskUpdate := mkNotionTaskUpdate {
  Time_Block_Start : option string;
  Time_Block_End : option string;
  Scheduling_Status : option string;
  Scheduling_Message : option string
}.

(** The [properties] object built by [formatPropertiesForNotion]. *)
Record NotionProperties := mkNotionProperties {
  Planned : option (string * string);
  Scheduling_Message_text : option string
}.

Record Validation := mkValidation {
  valid : bool;
  validation_message : option string
}.

(** ** The host: clock, time zone, configuration and remote services *)

Class Host := {
  (** value of the system clock at the n-th interaction *)
  clock : nat -> Z;
  (** local time = UTC + [utcOffset], in milliseconds *)
  utcOffset : Z;
  (** [DEFAULT_WORK_HOURS], read from the process environment *)
  WORK_START_HOUR : Z;
  WORK_END_HOUR : Z;
  (** [calendar.events.list], already mapped to [CalendarEvent]s;
      [inl msg] when the request is rejected *)
  events_list : nat -> Z -> Z -> string + list CalendarEvent;
  (** [notion.pages.update]; [false] when the request is rejected *)
  pages_update : nat -> string -> NotionProperties -> bool;
  (** [Date.prototype.toISOString] and [moment(d).format(pattern)] *)
  toISOString : Z -> string;
  moment_format : Z -> string -> string
}.

Record World := mkWorld {
  ticks : nat;
  notion_log : list (string * NotionProperties)
}.

Definition tick (w : World) : World :=
  mkWorld (S (ticks w)) (notion_log w).

(** ** A state and exception monad for the service methods *)

Inductive Res (A : Type) :=
| Ok (a : A)
| Throw (msg : string)
| OutOfFuel.
Arguments Ok {A} a.
Arguments Throw {A} msg.
Arguments OutOfFuel {A}.

Definition M (A : Type) := World -> Res A * World.

Definition ret {A} (a : A) : M A := fun w => (Ok a, w).

Definition bind {A B} (m : M A) (k : A -> M B) : M B :=
  fun w =>
    match m w with
    | (Ok a, w') => k a w'
    | (Throw e, w') => (Throw e, w')
    | (OutOfFuel, w') => (OutOfFuel, w')
    end.

Definition outOfFuel {A} : M A := fun w => (OutOfFuel, w).

Definition throw {A} (msg : string) : M A := fun w => (Throw msg, w).

(** The completion of a synchronous call inside an [async] method. *)
Definition fromResult {A} (r : string + A) : M A :=
  match r with
  | inl msg => throw msg
  | inr a => ret a
  end.

(** [try { m } catch (error) { h error.message }] *)
Definition try_catch {A} (m : M A) (h : string -> M A) : M A :=
  fun w =>
    match m w with
    | (Throw e, w') => h e w'
    | r => r
    end.

Declare Scope js_scope.
Delimit Scope js_scope with js.
Notation "x <- m ;; k" := (bind m (fun x => k))
  (at level 100, m at next level, right associativity) : js_scope.
Notation "' p <- m ;; k" := (bind m (fun x => let p := x in k))
  (at level 100, p pattern, m at next level, right associativity) : js_scope.
Open Scope js_scope.

Fixpoint mapM {A B} (f : A -> M B) (l : list A) : M (list B) :=
  match l with
  | [] => ret []
  | x :: xs => y <- f x ;; ys <- mapM f xs ;; ret (y :: ys)
  end.

(** ** Dates *)

Definition msPerMinute : Z := 60000.
Definition msPerHour : Z := 3600000.
Definition msPerDay : Z := 86400000.

(** The largest time value of a [Date]; [new Date(x)] is an Invalid Date
    when [x] is beyond it. *)
Definition maxTimeValue : Z := 8640000000000000.

Definition validDate (t : Z) : bool :=
  (- maxTimeValue <=? t) && (t <=? maxTimeValue).

Section Dates.
Context `{Host}.

(** [new Date()], [Date.now()], [moment()] *)
Definition newDate : M Z := fun w => (Ok (clock (ticks w)), tick w).

Definition localTime (t : Z) : Z := t + utcOffset.

Definition getHours (t : Z) : Z := (localTime t / msPerHour) mod 24.

(** [toDateString] names the local calendar day; the day number stands
    for the string. *)
Definition toDateString (t : Z) : Z := localTime t / msPerDay.

(** [d.setHours(h, m, s, ms)] *)
Definition setHours (t h m s ms : Z) : Z :=
  t - localTime t mod msPerDay + h * msPerHour + m * msPerMinute + s * 1000 + ms.

(** [d.setDate(d.getDate() + n)] *)
Definition addDays (t n : Z) : Z := t + n * msPerDay.

(** [d.setMinutes(d.getMinutes() + n)] *)
Definition addMinutes (t n : Z) : Z := t + n * msPerMinute.
End Dates.

(** ** Configuration ([src/config/index.ts]) *)

(** The property names every object literal inherits from
    [Object.prototype]. *)
Definition objectPrototypeKeys : list string :=
  ["constructor"; "__defineGetter__"; "__defineSetter__"; "hasOwnProperty";
   "__lookupGetter__"; "__lookupSetter__"; "isPrototypeOf";
   "propertyIsEnumerable"; "toString"; "valueOf"; "__proto__";
   "toLocaleString"].

Definition inheritedKey (k : string) : bool :=
  existsb (String.eqb k) objectPrototypeKeys.

(** The outcome of [table[k]] on an object literal. *)
Inductive Lookup (A : Type) :=
| Own (a : A)
| Inherited
| Missing.
Arguments Own {A} a.
Arguments Inherited {A}.
Arguments Missing {A}.

(** The own keys of [FOCUS_TYPE_CONFIGS]. *)
Definition FOCUS_TYPE_CONFIGS (k : string) : option FocusTypeConfig :=
  if (k =? "Deep Work")%string then
    Some (mkFocusTypeConfig [9; 10; 11; 12; 13; 14] 60 240 120 true 15 15)
  else if (k =? "Admin")%string then
    Some (mkFocusTypeConfig [9; 10; 11; 12; 13; 14; 15; 16] 15 90 30 false 5 5)
  else if (k =? "Calls")%string then
    Some (mkFocusTypeConfig [10; 11; 12; 13; 14; 15] 15 120 60 true 10 10)
  else if (k =? "Creative")%string then
    Some (mkFocusTypeConfig [9; 10; 11; 12; 13; 14; 15] 30 180 90 true 10 10)
  else None.

(** [PRIORITY_WEIGHTS[p]] as a number; a missing key gives [undefined],
    which arithmetic turns into NaN. *)
Definition PRIORITY_WEIGHTS (p : string) : float :=
  if (p =? "High")%string then 3%float
  else if (p =? "Medium")%string then 2%float
  else if (p =? "Low")%string then 1%float
  else nan.

Definition conflict_check_buffer : Z := 5.
Definition max_lookahead_days : Z := 14.

Definition qualityOrder (q : Quality) : Z :=
  match q with
  | excellent => 4
  | good => 3
  | acceptable => 2
  | poor => 1
  end.

(** The comparator shared by both [sort] calls. *)
Definition compareSlots (a b : TimeSlot) : Z :=
  let aQuality := qualityOrder (quality a) in
  let bQuality := qualityOrder (quality b) in
  if negb (aQuality =? bQuality) then bQuality - aQuality
  else start a - start b.

(** [Array.prototype.sort] is stable; stable insertion gives the same
    array under this comparator. *)
Fixpoint insertSlot (x : TimeSlot) (l : list TimeSlot) : list TimeSlot :=
  match l with
  | [] => [x]
  | y :: ys => if compareSlots x y <=? 0 then x :: y :: ys else y :: insertSlot x ys
  end.

Definition sortSlots (l : list TimeSlot) : list TimeSlot :=
  fold_right insertSlot [] l.

Definition includes (l : list Z) (x : Z) : bool := existsb (Z.eqb x) l.

Definition isExcellent (q : Quality) : bool :=
  match q with excellent => true | _ => false end.
Definition isGood (q : Quality) : bool :=
  match q with good => true | _ => false end.
Definition isAcceptable (q : Quality) : bool :=
  match q with acceptable => true | _ => false end.
Definition isPoor (q : Quality) : bool :=
  match q with poor => true | _ => false end.

(** ** [CalendarService] ([src/services/calendarService.ts]) *)

Module CalendarService.
Section Methods.
Context `{Host}.

(** [getEvents]: one request to the calendar API; a rejection is logged
    and re-thrown. *)
Definition getEvents (startTime endTime : Z) : M (list CalendarEvent) :=
  fun w =>
    (match events_list (ticks w) startTime endTime with
     | inl msg => Throw msg
     | inr events => Ok events
     end, tick w).

(** The predicate of the [filter] in [checkConflicts]. *)
Definition isConflicting (startTime endTime bufferStart bufferEnd : Z)
           (event : CalendarEvent) : bool :=
  if allDay event then false
  else
    let eventStart := ev_start event in
    let eventEnd := ev_end event in
    ((eventStart <? endTime) && (eventEnd >? startTime))
    || ((eventStart <? bufferEnd) && (eventEnd >? bufferStart)).

(** [checkConflicts]; the result is the pair
    [(hasConflicts, conflictingEvents)]. *)
Definition checkConflicts (startTime endTime bufferMinutes : Z)
  : M (bool * list CalendarEvent) :=
  let bufferStart := startTime - bufferMinutes * 60000 in
  let bufferEnd := endTime + bufferMinutes * 60000 in
  events <- getEvents bufferStart bufferEnd ;;
  let conflictingEvents :=
    filter (isConflicting startTime endTime bufferStart bufferEnd) events in
  ret (0 <? Z.of_nat (List.length conflictingEvents), conflictingEvents).

(** [calculateSlotQuality] of the calendar service. *)
Definition calculateSlotQuality (startTime : Z) (preferredHours : list Z)
           (duration : Z) : Quality :=
  let hour := getHours startTime in
  let quality :=
    if includes preferredHours hour then excellent
    else if existsb (fun h => Z.abs (h - hour) <=? 1) preferredHours then good
    else acceptable in
  if (duration >=? 120) && (hour >=? 9) && (hour <=? 14) then
    (if isExcellent quality then excellent else good)
  else if (duration <=? 30) && (hour >=? 15) then
    (if isPoor quality then poor else acceptable)
  else quality.

(** The [while (currentTime < workEnd)] loop of [findSlotsForDay]; each
    turn moves [currentTime] 30 minutes on.  When [slotEnd] is an Invalid
    Date, [slotEnd > workEnd] is false, [checkConflicts] pads it to
    another Invalid Date and [getEvents] throws the RangeError of
    [toISOString] before any request is made. *)
Fixpoint slotLoop (fuel : nat) (currentTime workEnd duration : Z)
         (preferredHours : list Z) (slots : list TimeSlot)
  : M (list TimeSlot) :=
  if currentTime <? workEnd then
    match fuel with
    | O => outOfFuel
    | S fuel' =>
      let slotEnd := currentTime + duration * 60000 in
      if negb (validDate slotEnd) then throw "Invalid time value"
      else if slotEnd >? workEnd then ret slots
      else
        '(hasConflicts, _) <- checkConflicts currentTime slotEnd conflict_check_buffer ;;
        let slots' :=
          if negb hasConflicts then
            slots ++ [mkTimeSlot currentTime slotEnd duration
                        (calculateSlotQuality currentTime preferredHours duration)
                        false]
          else slots in
        slotLoop fuel' (addMinutes currentTime 30) workEnd duration
                 preferredHours slots'
    end
  else ret slots.

Definition slotFuel (workStart workEnd : Z) : nat :=
  Z.to_nat ((workEnd - workStart) / (30 * msPerMinute) + 1).

Definition findSlotsForDay (date duration : Z) (preferredHours : list Z)
  : M (list TimeSlot) :=
  now <- newDate ;;
  if date <? now then ret []
  else
    let workStart := setHours date WORK_START_HOUR 0 0 0 in
    let workEnd := setHours date WORK_END_HOUR 0 0 0 in
    let isToday := toDateString date =? toDateString now in
    let workStart :=
      if isToday then
        let minStartTime := now + 60 * 60 * 1000 in
        if minStartTime >? workStart then minStartTime else workStart
      else workStart in
    let dayStart := setHours date 0 0 0 0 in
    let dayEnd := setHours date 23 59 59 999 in
    _ <- getEvents dayStart dayEnd ;;
    slotLoop (slotFuel workStart workEnd) workStart workEnd duration
             preferredHours [].

(** The [while (currentDate <= endDate)] loop of [findAvailableSlots]. *)
Fixpoint dayLoop (fuel : nat) (currentDate endDate duration : Z)
         (preferredHours : list Z) (slots : list TimeSlot)
  : M (list TimeSlot) :=
  if currentDate <=? endDate then
    match fuel with
    | O => outOfFuel
    | S fuel' =>
      daySlots <- findSlotsForDay currentDate duration preferredHours ;;
      dayLoop fuel' (addDays currentDate 1) endDate duration preferredHours
              (slots ++ daySlots)
    end
  else ret slots.

Definition dayFuel (startDate endDate : Z) : nat :=
  Z.to_nat ((endDate - startDate) / msPerDay + 1).

Definition findAvailableSlots (startDate endDate duration : Z)
           (preferredHours : list Z) : M (list TimeSlot) :=
  slots <- dayLoop (dayFuel startDate endDate) startDate endDate duration
                   preferredHours [] ;;
  ret (sortSlots slots).

(** [getNextAvailableSlot]: the first slot of the sorted search result,
    or [null]. *)
Definition getNextAvailableSlot (duration : Z) (preferredHours : list Z)
           (maxDays : Z) : M (option TimeSlot) :=
  startDate <- newDate ;;
  endDate <- newDate ;;
  let endDate := addDays endDate maxDays in
  slots <- findAvailableSlots startDate endDate duration preferredHours ;;
  ret (if Z.of_nat (List.length slots) >? 0 then hd_error slots else None).
End Methods.
End CalendarService.

(** ** [NotionService.updateTask] ([src/services/notionService.ts]) *)

Module NotionService.
Section Methods.
Context `{Host}.

(** JavaScript truthiness of an optional string property. *)
Definition truthy (o : option string) : bool :=
  match o with
  | Some s => negb (s =? "")%string
  | None => false
  end.

Definition formatPropertiesForNotion (updates : NotionTaskUpdate)
  : NotionProperties :=
  mkNotionProperties
    (if truthy (Time_Block_Start updates) && truthy (Time_Block_End updates)
     then match Time_Block_Start updates, Time_Block_End updates with
          | Some s, Some e => Some (s, e)
          | _, _ => None
          end
     else None)
    (if truthy (Scheduling_Message updates) then Scheduling_Message updates
     else None).

(** [updateTask] never throws: a rejected request yields [false]. *)
Definition updateTask (taskId : string) (updates : NotionTaskUpdate) : M bool :=
  fun w =>
    let properties := formatPropertiesForNotion updates in
    (Ok (pages_update (ticks w) taskId properties),
     mkWorld (S (ticks w)) (notion_log w ++ [(taskId, properties)])).

Definition requiredProperties : list string :=
  ["Planned"; "Estimates"; "Scheduling Message"].

(** [validateDatabase], as a function of the answer to
    [notion.databases.retrieve]: [inl msg] for a rejected request, else
    [Object.keys(response.properties)]. *)
Definition validateDatabase (response : string + list string) : bool :=
  match response with
  | inl _ => false
  | inr existingProperties =>
    let missingProperties :=
      filter (fun prop => negb (existsb (String.eqb prop) existingProperties))
             requiredProperties in
    if Z.of_nat (List.length missingProperties) >? 0 then false else true
  end.
End Methods.
End NotionService.

(** ** [SchedulingService] ([src/services/schedulingService.ts]) *)

Module SchedulingService.
Section Methods.
Context `{Host}.

(** [a || b] on an optional string. *)
Definition orElse (o : option string) (d : string) : string :=
  match o with
  | Some s => if (s =? "")%string then d else s
  | None => d
  end.

(** [Math.min] on two numbers. *)
Definition Math_min (a b : float) : float :=
  if PrimFloat.is_nan a || PrimFloat.is_nan b then nan
  else if (a <? b)%float then a
  else if (b <? a)%float then b
  else if PrimFloat.is_zero a && PrimFloat.get_sign a then a
  else b.

Definition validateTaskData (taskData : TaskData) : Validation :=
  if (task_id taskData =? "")%string then
    mkValidation false (Some "Task ID is required")
  else if estimated_duration taskData <=? 0 then
    mkValidation false (Some "Valid estimated duration is required")
  else if ((priority taskData =? "")%string)
          || negb (existsb (String.eqb (priority taskData))
                           ["High"; "Medium"; "Low"]) then
    mkValidation false (Some "Valid priority is required")
  else if ((focus_type taskData =? "")%string)
          || (match FOCUS_TYPE_CONFIGS (focus_type taskData) with
              | Some _ => false
              | None => true
              end) then
    mkValidation false (Some "Valid focus type is required")
  else mkValidation true None.

Definition validateScheduledTime (scheduledTime : Z) : M Validation :=
  now <- newDate ;;
  let minScheduledTime := now + 30 * 60 * 1000 in
  if scheduledTime <? minScheduledTime then
    ret (mkValidation false
           (Some (String.append "Scheduled time "
              (String.append (toISOString scheduledTime)
                 " is too soon. Minimum scheduling time is 30 minutes from now."))))
  else ret (mkValidation true None).

Definition getMaxSchedulingDate : M Z :=
  maxDate <- newDate ;;
  ret (addDays maxDate 14).

Definition formatTimeSlot (slot : TimeSlot) : string :=
  let start_ := moment_format (start slot) "MMM D, YYYY [at] h:mm A" in
  let end_s := moment_format (end_ slot) "h:mm A" in
  String.append start_ (String.append " - " end_s).

(** [timeMapping[time]]: the three own keys, and the members inherited
    from [Object.prototype], which are truthy. *)
Definition timeMapping (time : string) : Lookup (list Z) :=
  if (time =? "morning")%string then Own [9; 10; 11; 12]
  else if (time =? "afternoon")%string then Own [13; 14; 15; 16]
  else if (time =? "evening")%string then Own [17; 18; 19]
  else if inheritedKey time then Inherited
  else Missing.

(** The TypeError of spreading a value that is not iterable; its text is
    the engine's. *)
Definition notIterable : string :=
  "Spread syntax requires ...iterable[Symbol.iterator] to be a function".

(** The [forEach] of [convertPreferredTimesToHours]: an inherited member
    passes the truthiness test and [hours.push(...member)] throws. *)
Fixpoint collectHours (preferredTimes : list string) (hours : list Z)
  : string + list Z :=
  match preferredTimes with
  | [] => inr hours
  | time :: rest =>
    match timeMapping time with
    | Own hs => collectHours rest (hours ++ hs)
    | Inherited => inl notIterable
    | Missing => collectHours rest hours
    end
  end.

(** [convertPreferredTimesToHours]; [inl msg] when it throws. *)
Definition convertPreferredTimesToHours (preferredTimes : list string)
           (domain : option string) : string + list Z :=
  match collectHours preferredTimes [] with
  | inl msg => inl msg
  | inr hours =>
    inr (if (Z.of_nat (List.length hours) =? 0)
            || (match domain with
                | Some d => (d =? "Work")%string
                | None => false
                end) then
           [9; 10; 11; 12; 13; 14; 15; 16]
         else if Z.of_nat (List.length hours) >? 0 then hours
         else [9; 10; 11; 12; 13; 14; 15; 16; 17; 18; 19])
  end.

(** [calculateUrgency]; [dueDate.diff(now, 'days')] is the difference of
    the two instants, less [moment]'s zone correction (zero for a fixed
    offset), divided by the length of a day and truncated toward zero. *)
Definition calculateUrgency (taskData : TaskData) : M float :=
  now <- newDate ;;
  let dueDate := due_date taskData in
  let daysUntilDue := Z.quot (dueDate - now) msPerDay in
  let urgency := 0%float in
  let urgency := (urgency + PRIORITY_WEIGHTS (priority taskData) * 0.3)%float in
  let urgency :=
    if daysUntilDue <=? 0 then (urgency + 1.0)%float
    else if daysUntilDue <=? 1 then (urgency + 0.8)%float
    else if daysUntilDue <=? 3 then (urgency + 0.6)%float
    else if daysUntilDue <=? 7 then (urgency + 0.4)%float
    else urgency in
  ret (Math_min urgency 1.0%float).

(** [hoursSince < 1] where [hoursSince = (Date.now() - t) / (1000 * 60 * 60)]. *)
Definition withinLastHour (now t : Z) : bool := now - t <? 1000 * 60 * 60.

(** [calculateSlotQuality] of the scheduling service. *)
Definition calculateSlotQuality (slot : TimeSlot) (taskData : TaskData)
           (focusConfig : FocusTypeConfig) : M Quality :=
  let quality := acceptable in
  let slotHour := getHours (start slot) in
  let isPreferredHour := includes (preferred_hours focusConfig) slotHour in
  let quality :=
    if isPreferredHour then excellent
    else if existsb (fun h => Z.abs (h - slotHour) <=? 1)
                    (preferred_hours focusConfig) then good
    else quality in
  let quality :=
    if ((focus_type taskData =? "Deep Work")%string) && (duration slot >=? 120)
    then (if isExcellent quality then excellent else good)
    else quality in
  let quality :=
    if (priority taskData =? "High")%string then
      (if isPoor quality then acceptable else quality)
    else quality in
  quality <-
    match created_at taskData with
    | Some createdTime =>
      now <- newDate ;;
      if withinLastHour now createdTime then
        ret (if isAcceptable quality then good
             else if isGood quality then excellent
             else quality)
      else ret quality
    | None => ret quality
    end ;;
  match last_edited_time taskData with
  | Some editedTime =>
    now <- newDate ;;
    if withinLastHour now editedTime then
      ret (if isAcceptable quality then good else quality)
    else ret quality
  | None => ret quality
  end.

(** The predicate of the [filter] in [filterAndScoreSlots]. *)
Definition keepSlot (taskData : TaskData) (focusConfig : FocusTypeConfig)
           (slot : TimeSlot) : bool :=
  if duration slot <? min_duration focusConfig then false
  else if duration slot >? max_duration focusConfig then false
  else
    let slotHour := getHours (start slot) in
    let isPreferredHour := includes (preferred_hours focusConfig) slotHour in
    if (priority taskData =? "High")%string then true
    else isPreferredHour || flexible taskData.

Definition filterAndScoreSlots (slots : list TimeSlot) (taskData : TaskData)
           (focusConfig : FocusTypeConfig) : M (list TimeSlot) :=
  scored <-
    mapM (fun slot =>
            q <- calculateSlotQuality slot taskData focusConfig ;;
            ret (mkTimeSlot (start slot) (end_ slot) (duration slot) q
                            (conflicts slot)))
         (filter (keepSlot taskData focusConfig) slots) ;;
  ret (sortSlots scored).

Definition findOptimalTimeSlots (taskData : TaskData)
           (focusConfig : FocusTypeConfig) : M (list TimeSlot) :=
  let duration := Z.max (estimated_duration taskData) (min_duration focusConfig) in
  preferredHours <-
    fromResult (convertPreferredTimesToHours (preferred_times taskData)
                                             (domain taskData)) ;;
  startDate <- newDate ;;
  endDate <- getMaxSchedulingDate ;;
  slots <- CalendarService.findAvailableSlots startDate endDate duration
                                              preferredHours ;;
  filterAndScoreSlots slots taskData focusConfig.

Definition selectBestSlot (slots : list TimeSlot) (taskData : TaskData)
           (urgency : float) : option TimeSlot :=
  match slots with
  | [] => None
  | slot0 :: _ =>
    if (0.8 <? urgency)%float then
      let goodSlots :=
        filter (fun s => isExcellent (quality s) || isGood (quality s)) slots in
      match goodSlots with
      | g :: _ => Some g
      | [] => Some slot0
      end
    else Some slot0
  end.

(** The object literal [{ success: false, status, message,
    alternative_slots }] of the failing returns. *)
Definition failure (st : Status) (msg : string)
           (alternatives : option (list TimeSlot)) : SchedulingResult :=
  mkSchedulingResult false None st msg alternatives.

Definition scheduleTask (taskData : TaskData) : M SchedulingResult :=
  try_catch
    (let validation := validateTaskData taskData in
     if negb (valid validation) then
       ret (failure error
              (orElse (validation_message validation) "Task validation failed")
              None)
     else
       match FOCUS_TYPE_CONFIGS (focus_type taskData) with
       | None =>
         ret (failure error
                (String.append "Unknown focus type: " (focus_type taskData))
                None)
       | Some focusConfig =>
         urgency <- calculateUrgency taskData ;;
         timeSlots <- findOptimalTimeSlots taskData focusConfig ;;
         if Z.of_nat (List.length timeSlots) =? 0 then
           ret (failure no_slots "No available time slots found for this task"
                        None)
         else
           match selectBestSlot timeSlots taskData urgency with
           | None =>
             ret (failure no_slots "No suitable time slots found for this task"
                          (Some (firstn 3 timeSlots)))
           | Some bestSlot =>
             timeValidation <- validateScheduledTime (start bestSlot) ;;
             if negb (valid timeValidation) then
               ret (failure error
                      (orElse (validation_message timeValidation)
                              "Scheduled time validation failed")
                      None)
             else
               updateSuccess <-
                 NotionService.updateTask (task_id taskData)
                   (mkNotionTaskUpdate
                      (Some (toISOString (start bestSlot)))
                      (Some (toISOString (end_ bestSlot)))
                      (Some "Scheduled")
                      (Some (String.append "Scheduled for "
                                           (formatTimeSlot bestSlot)))) ;;
               if negb updateSuccess then
                 ret (failure error
                        "Failed to update Notion task with scheduled time" None)
               else
                 ret (mkSchedulingResult true
                        (Some (start bestSlot, end_ bestSlot))
                        scheduled
                        (String.append "Task scheduled for "
                                       (formatTimeSlot bestSlot))
                        None)
           end
       end)
    (fun msg => ret (failure error (String.append "Scheduling error: " msg) None)).
End Methods.
End SchedulingService.

(** ** The [/schedule] route ([src/routes/webhook.ts]) *)

Module Webhook.
Section Route.
Context `{Host}.

(** The status code and the JSON body of a response. *)
Record Response := mkResponse {
  statusCode : Z;
  res_success : bool;
  res_error : option string;
  res_message : option string;
  res_details : option (list string);
  res_scheduled_time : option (Z * Z);
  res_status : option Status;
  res_alternative_slots : option (list TimeSlot)
}.

(** The handler of [POST /schedule]. [serviceAvailable] tells whether
    the router was given a scheduling service; [validation] is the
    answer of [taskDataSchema.validate(req.body)]: the messages of the
    error, or the validated task. *)
Definition schedule (serviceAvailable : bool)
           (validation : list string + TaskData) : M Response :=
  try_catch
    (if negb serviceAvailable then
       ret (mkResponse 503 false (Some "Service unavailable")
              (Some "Scheduling service is not properly initialized. Please check environment variables.")
              None None None None)
     else
       match validation with
       | inl details =>
         ret (mkResponse 400 false (Some "Invalid request payload") None
                (Some details) None None None)
       | inr taskData =>
         result <- SchedulingService.scheduleTask taskData ;;
         if success result then
           ret (mkResponse 200 true None (Some (message result)) None
                  (scheduled_time result) (Some (status result)) None)
         else
           ret (mkResponse 400 false None (Some (message result)) None None
                  (Some (status result)) (alternative_slots result))
       end)
    (fun _ =>
       ret (mkResponse 500 false (Some "Internal server error")
              (Some "An unexpected error occurred while processing the request")
              None None None None)).
End Route.
End Webhook.

(** ** Reference definitions, written from the specification *)

Module Spec.
(** Two intervals overlap iff [aStart < bEnd && aEnd > bStart]. *)
Definition overlaps (aStart aEnd bStart bEnd : Z) : Prop :=
  aStart < bEnd /\ aEnd > bStart.

(** priorityWeight: High = 3, Medium = 2, Low = 1. *)
Definition priorityWeight (p : string) : float :=
  if (p =? "High")%string then 3%float
  else if (p =? "Medium")%string then 2%float
  else 1%float.

(** timeUrgency: 1.0 for daysUntilDue <= 0, 0.8 for <= 1, 0.6 for <= 3,
    0.4 for <= 7, and 0.0 otherwise. *)
Definition timeUrgency (daysUntilDue : Z) : float :=
  if daysUntilDue <=? 0 then 1.0%float
  else if daysUntilDue <=? 1 then 0.8%float
  else if daysUntilDue <=? 3 then 0.6%float
  else if daysUntilDue <=? 7 then 0.4%float
  else 0.0%float.

(** The sum clamped above at 1.0. *)
Definition urgency (p : string) (daysUntilDue : Z) : float :=
  let sum := (priorityWeight p * 0.3 + timeUrgency daysUntilDue)%float in
  if (1.0 <? sum)%float then 1.0%float else sum.

(** The earliest slot of a list by start time (the first one on ties). *)
Fixpoint earliest (l : list TimeSlot) : option TimeSlot :=
  match l with
  | [] => None
  | s :: rest =>
    match earliest rest with
    | Some r => if start r <? start s then Some r else Some s
    | None => Some s
    end
  end.

(** High urgency: the earliest slot whose tier is excellent or good,
    falling back to the globally earliest candidate. *)
Definition selectUrgent (l : list TimeSlot) : option TimeSlot :=
  match earliest (filter (fun s => isExcellent (quality s) || isGood (quality s)) l) with
  | Some s => Some s
  | None => earliest l
  end.
End Spec.

(** ** Concrete hosts and inputs used to run the model *)

Module Scenario.
(** A host whose clock stands still at [now], in UTC, with an empty
    calendar and a Notion API that accepts every update. *)
Definition quietHost (now workStart workEnd : Z) : Host :=
  {| clock := fun _ => now;
     utcOffset := 0;
     WORK_START_HOUR := workStart;
     WORK_END_HOUR := workEnd;
     events_list := fun _ _ _ => inr [];
     pages_update := fun _ _ _ => true;
     toISOString := fun _ => "<iso>";
     moment_format := fun _ _ => "<time>" |}.

(** The same host with one meeting in the calendar. *)
Definition busyHost (now : Z) (meeting : CalendarEvent) : Host :=
  {| clock := fun _ => now;
     utcOffset := 0;
     WORK_START_HOUR := 9;
     WORK_END_HOUR := 17;
     events_list := fun _ _ _ => inr [meeting];
     pages_update := fun _ _ _ => true;
     toISOString := fun _ => "<iso>";
     moment_format := fun _ _ => "<time>" |}.

(** A host whose calendar rejects every request. *)
Definition downHost (now : Z) : Host :=
  {| clock := fun _ => now;
     utcOffset := 0;
     WORK_START_HOUR := 9;
     WORK_END_HOUR := 17;
     events_list := fun _ _ _ => inl "quota exceeded";
     pages_update := fun _ _ _ => true;
     toISOString := fun _ => "<iso>";
     moment_format := fun _ _ => "<time>" |}.

(** A host whose Notion API rejects every update. *)
Definition readOnlyHost (now : Z) : Host :=
  {| clock := fun _ => now;
     utcOffset := 0;
     WORK_START_HOUR := 9;
     WORK_END_HOUR := 17;
     events_list := fun _ _ _ => inr [];
     pages_update := fun _ _ _ => false;
     toISOString := fun _ => "<iso>";
     moment_format := fun _ _ => "<time>" |}.

Definition w0 : World := mkWorld 0 [].

(** Midnight (UTC) of day 20000 after the epoch. *)
Definition day0 : Z := 20000 * msPerDay.
Definition at_ (day hour minute : Z) : Z :=
  day0 + day * msPerDay + hour * msPerHour + minute * msPerMinute.

Definition deepWork (dur : Z) (prio : string) (due : Z) : TaskData :=
  mkTaskData "task-1" "Write the report" dur prio "Deep Work" None
             ["morning"] due 15 15 true None None.

Definition admin (dur : Z) (prio : string) (due : Z) : TaskData :=
  mkTaskData "task-2" "File expenses" dur prio "Admin" None
             ["afternoon"] due 5 5 true None None.

(** A one-hour meeting from 10:00 to 11:00 on day 0. *)
Definition meeting : CalendarEvent :=
  mkCalendarEvent "ev-1" "Stand-up" (at_ 0 10 0) (at_ 0 11 0) false.

(** An all-day event on day 0. *)
Definition holiday : CalendarEvent :=
  mkCalendarEvent "ev-2" "Bank holiday" (at_ 0 0 0) (at_ 1 0 0) true.

(** A Medium-priority task that may not be moved out of its hours. *)
Definition rigidCalls (dur : Z) (due : Z) : TaskData :=
  mkTaskData "task-3" "Call the supplier" dur "Medium" "Calls" None
             ["afternoon"] due 10 10 false None None.

Definition callsConfig : FocusTypeConfig :=
  mkFocusTypeConfig [10; 11; 12; 13; 14; 15] 15 120 60 true 10 10.

(** The result and the final world of a run from the initial world. *)
Definition slotsOf (m : M (list TimeSlot)) : list TimeSlot :=
  match fst (m (mkWorld 0 [])) with
  | Ok l => l
  | _ => []
  end.
Definition worldOf {A} (m : M A) : World := snd (m (mkWorld 0 [])).

Definition deepWorkConfig : FocusTypeConfig :=
  mkFocusTypeConfig [9; 10; 11; 12; 13; 14] 60 240 120 true 15 15.

End Scenario.

(** ** Predicates used in the statements *)

(** A run settles when it ends with a value or with an exception; the
    exception is excused only if the conditions [up] under which the run
    must return are not met. A run that exhausts its fuel does not
    settle. *)
Definition settles {A} (up : Prop) (r : Res A * World) : Prop :=
  match fst r with
  | Ok _ => True
  | Throw _ => ~ up
  | OutOfFuel => False
  end.

(** Every request to the calendar API is answered with a list. *)
Definition calendarUp `{Host} : Prop :=
  forall n a b, exists events, events_list n a b = inr events.

(** The ends of the slots tried inside the work hours of the day of
    [date] are valid dates. *)
Definition slotEndsInRange `{Host} (date dur : Z) : Prop :=
  - maxTimeValue <= setHours date WORK_START_HOUR 0 0 0 + dur * 60000
  /\ setHours date WORK_END_HOUR 0 0 0 + dur * 60000 <= maxTimeValue.

(** The clock, the time zone and the work hours are those of a running
    system: far from the ends of the range of time values. *)
Definition ordinaryTimes `{Host} : Prop :=
  (forall n, 0 <= clock n <= 4000000000000000)
  /\ - msPerDay <= utcOffset <= msPerDay
  /\ 0 <= WORK_START_HOUR <= 24
  /\ 0 <= WORK_END_HOUR <= 24.

(** No name of the list is a member inherited from [Object.prototype]. *)
Definition plainNames (names : list string) : Prop :=
  forall name, In name names -> inheritedKey name = false.

(** Shape of a slot made by the generator for a day whose walk starts at
    [base] and whose working window ends at [workEnd]. *)
Definition generated (base workEnd dur : Z) (s : TimeSlot) : Prop :=
  end_ s - start s = dur * 60000
  /\ duration s = dur
  /\ conflicts s = false
  /\ (exists k, 0 <= k /\ start s = base + k * (30 * 60000))
  /\ end_ s <= workEnd.

(** A computation is quiet when it leaves the log of Notion updates as
    it found it. *)
Definition quiet {A} (m : M A) : Prop :=
  forall w, notion_log (snd (m w)) = notion_log w.

(** The three ways [scheduleTask] can end. *)
Definition outcome_shape (r : SchedulingResult) : Prop :=
  alternative_slots r = None
  /\ (status r = scheduled
      \/ (status r = no_slots
          /\ message r = "No available time slots found for this task")
      \/ status r = error).

(** The message of a slot rejected for starting too soon. *)
Definition tooSoonMessage `{Host} (scheduledTime : Z) : string :=
  String.append "Scheduled time "
    (String.append (toISOString scheduledTime)
       " is too soon. Minimum scheduling time is 30 minutes from now.").

(** The head of a list has the highest tier of the list. *)
Definition topFirst (l : list TimeSlot) : Prop :=
  match l with
  | [] => True
  | h :: t =>
    Forall (fun x => qualityOrder (quality x) <= qualityOrder (quality h)) t
  end.

(** The order induced by the comparator of the two [sort] calls. *)
Definition slotLe (a b : TimeSlot) : Prop := compareSlots a b <= 0.

(** A calendar that gives the same answer [cal a b] to the request for
    the range [a, b] whenever it is asked. *)
Definition steadyCalendar `{Host} (cal : Z -> Z -> list CalendarEvent) : Prop :=
  forall n a b, events_list n a b = inr (cal a b).

(** No event of the calendar other than an all-day event overlaps the
    window [s, e] padded by the conflict buffer. *)
Definition freeOf (cal : Z -> Z -> list CalendarEvent) (s e : Z) : Prop :=
  forall ev,
    In ev (cal (s - conflict_check_buffer * 60000)
               (e + conflict_check_buffer * 60000)) ->
    allDay ev = false ->
    ~ Spec.overlaps (ev_start ev) (ev_end ev)
        (s - conflict_check_buffer * 60000) (e + conflict_check_buffer * 60000).

(** The slot the generator makes at [t]. *)
Definition slotAt `{Host} (t dur : Z) (ph : list Z) : TimeSlot :=
  mkTimeSlot t (t + dur * 60000) dur
             (CalendarService.calculateSlotQuality t ph dur) false.

(** [s] is the slot of a free position of the 30-minute grid from [cur]
    that fits before [workEnd]. *)
Definition offered `{Host} (cal : Z -> Z -> list CalendarEvent)
           (cur workEnd dur : Z) (ph : list Z) (s : TimeSlot) : Prop :=
  exists k, 0 <= k
            /\ start s = cur + k * (30 * 60000)
            /\ start s < workEnd
            /\ start s + dur * 60000 <= workEnd
            /\ freeOf cal (start s) (start s + dur * 60000)
            /\ s = slotAt (start s) dur ph.

(** A slot without its tier. *)
Definition window (s : TimeSlot) : Z * Z * Z * bool :=
  (start s, end_ s, duration s, conflicts s).

(** [a] is at least as good a tier as [b]. *)
Definition tierAtLeast (a b : Quality) : Prop := qualityOrder b <= qualityOrder a.

(** [a] may come before [b] in a sorted result: a better tier, or the
    same tier and not a later start. *)
Definition rankedBefore (a b : TimeSlot) : Prop :=
  qualityOrder (quality b) < qualityOrder (quality a)
  \/ (quality a = quality b /\ start a <= start b).

(** The update [scheduleTask] sends to Notion for the slot it books. *)
Definition bookingUpdate `{Host} (bestSlot : TimeSlot) : NotionTaskUpdate :=
  mkNotionTaskUpdate
    (Some (toISOString (start bestSlot)))
    (Some (toISOString (end_ bestSlot)))
    (Some "Scheduled")
    (Some (String.append "Scheduled for "
                         (SchedulingService.formatTimeSlot bestSlot))).

(** The outcome of a booked slot. *)
Definition booked `{Host} (bestSlot : TimeSlot) : SchedulingResult :=
  mkSchedulingResult true (Some (start bestSlot, end_ bestSlot)) scheduled
    (String.append "Task scheduled for "
                   (SchedulingService.formatTimeSlot bestSlot))
    None.

(** * Properties *)

(** ** Running monadic code *)

Section MonadFacts.
Context {A B : Type}.

Lemma bind_Ok (m : M A) (k : A -> M B) w b w' :
  bind m k w = (Ok b, w') ->
  exists a w1, m w = (Ok a, w1) /\ k a w1 = (Ok b, w').
Proof.
  unfold bind. destruct (m w) as [[a | e | ] w1]; intros E; try discriminate.
  exists a, w1. split; [reflexivity | exact E].
Qed.

Lemma bind_run (m : M A) (k : A -> M B) w a w1 :
  m w = (Ok a, w1) -> bind m k w = k a w1.
Proof. unfold bind. intros ->. reflexivity. Qed.

Lemma bind_throw (m : M A) (k : A -> M B) w e w1 :
  m w = (Throw e, w1) -> bind m k w = (Throw e, w1).
Proof. unfold bind. intros ->. reflexivity. Qed.
End MonadFacts.

Lemma settles_ret {A} up (a : A) w : settles up (ret a w).
Proof. exact I. Qed.

Lemma settles_bind {A B} up (m : M A) (k : A -> M B) w :
  settles up (m w) ->
  (forall a w1, m w = (Ok a, w1) -> settles up (k a w1)) ->
  settles up (bind m k w).
Proof.
  unfold settles, bind. destruct (m w) as [[a | e | ] w1]; simpl; intros Hm Hk.
  - apply (Hk a w1). reflexivity.
  - exact Hm.
  - exact Hm.
Qed.

Lemma settles_throw {A} (up : Prop) msg w :
  ~ up -> settles up (@throw A msg w).
Proof. intros Hup. exact Hup. Qed.

Lemma settles_up {A} (up : Prop) (r : Res A * World) :
  settles up r -> up -> exists a w', r = (Ok a, w').
Proof.
  unfold settles. destruct r as [[a | e | ] w']; simpl; intros Hs Hup.
  - exists a, w'. reflexivity.
  - contradiction.
  - contradiction.
Qed.

(** ** The conflict check *)

Section ConflictCheck.
Context `{Host}.

Lemma getEvents_settles (up : Prop) a b w :
  (up -> calendarUp) ->
  settles up (CalendarService.getEvents a b w).
Proof.
  intros Hcal. unfold settles, CalendarService.getEvents. simpl.
  destruct (events_list (ticks w) a b) as [msg | events] eqn:E; [| exact I].
  intros Hup. destruct (Hcal Hup (ticks w) a b) as [events E']. congruence.
Qed.

Lemma checkConflicts_settles (up : Prop) s e buf w :
  (up -> calendarUp) ->
  settles up (CalendarService.checkConflicts s e buf w).
Proof.
  intros Hcal. unfold CalendarService.checkConflicts.
  apply settles_bind; [apply getEvents_settles, Hcal | intros; apply settles_ret].
Qed.

(** The filter of [checkConflicts] keeps an event exactly when it is not
    an all-day event and overlaps the window or the padded window. *)
Lemma isConflicting_spec s e bs be ev :
  CalendarService.isConflicting s e bs be ev = true <->
  allDay ev = false /\
  (Spec.overlaps (ev_start ev) (ev_end ev) s e
   \/ Spec.overlaps (ev_start ev) (ev_end ev) bs be).
Proof.
  unfold CalendarService.isConflicting, Spec.overlaps.
  destruct (allDay ev).
  - split; [discriminate | intros [E _]; discriminate].
  - rewrite orb_true_iff, !andb_true_iff, !Z.ltb_lt, !Z.gtb_gt. tauto.
Qed.

Lemma nonempty_filter {X} (f : X -> bool) (l : list X) :
  (0 <? Z.of_nat (List.length (filter f l))) = true <->
  exists x, In x l /\ f x = true.
Proof.
  rewrite Z.ltb_lt. split.
  - destruct (filter f l) as [| x rest] eqn:E; simpl; [lia |].
    intros _. exists x. apply filter_In. rewrite E. left. reflexivity.
  - intros [x Hx]. apply filter_In in Hx.
    destruct (filter f l); simpl in *; [contradiction | lia].
Qed.

(** What [checkConflicts] reports, for any buffer. *)
Lemma checkConflicts_run startTime endTime bufferMinutes busy w :
  events_list (ticks w) (startTime - bufferMinutes * 60000)
              (endTime + bufferMinutes * 60000) = inr busy ->
  CalendarService.checkConflicts startTime endTime bufferMinutes w =
  (Ok (0 <? Z.of_nat (List.length
           (filter (CalendarService.isConflicting startTime endTime
                      (startTime - bufferMinutes * 60000)
                      (endTime + bufferMinutes * 60000)) busy)),
       filter (CalendarService.isConflicting startTime endTime
                 (startTime - bufferMinutes * 60000)
                 (endTime + bufferMinutes * 60000)) busy),
   tick w).
Proof.
  intros E. unfold CalendarService.checkConflicts, bind,
    CalendarService.getEvents.
  rewrite E. reflexivity.
Qed.

(** C2. [checkConflicts] asks the calendar for the window padded outward
    by [bufferMinutes] on both sides and keeps the events that are not
    all-day events and overlap the window or the padded window. For a
    buffer of zero or more minutes this means: a conflict is reported
    exactly when some such busy interval overlaps the padded window
    ([evStart < paddedEnd] and [evEnd > paddedStart]). With a zero buffer
    every literal overlap is reported, and busy intervals that only touch
    the window at a boundary instant are not. *)
Theorem checkConflicts_padded_overlap
        (startTime endTime bufferMinutes : Z) (busy : list CalendarEvent)
        (w : World) :
  events_list (ticks w) (startTime - bufferMinutes * 60000)
              (endTime + bufferMinutes * 60000) = inr busy ->
  exists hasConflicts conflictingEvents,
    CalendarService.checkConflicts startTime endTime bufferMinutes w =
    (Ok (hasConflicts, conflictingEvents), tick w)
    /\ (hasConflicts = true <->
        exists ev, In ev busy /\ allDay ev = false /\
                   (Spec.overlaps (ev_start ev) (ev_end ev) startTime endTime
                    \/ Spec.overlaps (ev_start ev) (ev_end ev)
                                     (startTime - bufferMinutes * 60000)
                                     (endTime + bufferMinutes * 60000)))
    /\ (0 <= bufferMinutes ->
        (hasConflicts = true <->
         exists ev, In ev busy /\ allDay ev = false /\
                    Spec.overlaps (ev_start ev) (ev_end ev)
                                  (startTime - bufferMinutes * 60000)
                                  (endTime + bufferMinutes * 60000)))
    /\ (bufferMinutes = 0 ->
        (forall ev, In ev busy -> allDay ev = false ->
                    Spec.overlaps (ev_start ev) (ev_end ev) startTime endTime ->
                    hasConflicts = true)
        /\ ((forall ev, In ev busy ->
                        ev_end ev = startTime \/ ev_start ev = endTime) ->
            hasConflicts = false)).
Proof.
  intros E.
  eexists; eexists. split; [apply (checkConflicts_run _ _ _ _ _ E) |].
  assert (Hany : (0 <? Z.of_nat (List.length
                     (filter (CalendarService.isConflicting startTime endTime
                                (startTime - bufferMinutes * 60000)
                                (endTime + bufferMinutes * 60000)) busy))) = true <->
                 exists ev, In ev busy /\ allDay ev = false /\
                   (Spec.overlaps (ev_start ev) (ev_end ev) startTime endTime
                    \/ Spec.overlaps (ev_start ev) (ev_end ev)
                                     (startTime - bufferMinutes * 60000)
                                     (endTime + bufferMinutes * 60000))).
  { rewrite nonempty_filter. split.
    - intros [ev [Hin Hc]]. apply isConflicting_spec in Hc. exists ev. tauto.
    - intros [ev [Hin Hc]]. exists ev. split; [exact Hin |].
      apply isConflicting_spec. exact Hc. }
  split; [exact Hany |]. split.
  - intros Hbuf. rewrite Hany. unfold Spec.overlaps.
    split; intros [ev [Hin [Hday Hov]]]; exists ev;
      (split; [exact Hin |]); (split; [exact Hday |]).
    + destruct Hov as [[H1 H2] | Hov]; [lia | exact Hov].
    + right. exact Hov.
  - intros ->. replace (startTime - 0 * 60000) with startTime in * by lia.
    replace (endTime + 0 * 60000) with endTime in * by lia. split.
    + intros ev Hin Hday Hov. apply Hany. exists ev. tauto.
    + intros Htouch. apply not_true_is_false. intros Hc.
      apply Hany in Hc. destruct Hc as [ev [Hin [_ Hov]]].
      unfold Spec.overlaps in Hov. destruct (Htouch ev Hin); lia.
Qed.
End ConflictCheck.

(** ** The day slot generator *)

Section Generator.
Context `{Host}.

Lemma slotLoop_step fuel cur workEnd dur ph acc w :
  CalendarService.slotLoop (S fuel) cur workEnd dur ph acc w =
  (if cur <? workEnd then
     if negb (validDate (cur + dur * 60000)) then throw "Invalid time value"
     else if cur + dur * 60000 >? workEnd then ret acc
     else
       bind (CalendarService.checkConflicts cur (cur + dur * 60000)
                                            conflict_check_buffer)
            (fun r =>
               CalendarService.slotLoop fuel (addMinutes cur 30) workEnd dur ph
                 (if negb (fst r) then
                    acc ++ [mkTimeSlot cur (cur + dur * 60000) dur
                              (CalendarService.calculateSlotQuality cur ph dur)
                              false]
                  else acc))
   else ret acc) w.
Proof.
  simpl. destruct (cur <? workEnd); [| reflexivity].
  destruct (negb (validDate (cur + dur * 60000))); [reflexivity |].
  destruct (cur + dur * 60000 >? workEnd); [reflexivity |].
  unfold bind.
  destruct (CalendarService.checkConflicts cur (cur + dur * 60000)
              conflict_check_buffer w) as [[[b cs] | e | ] w1]; reflexivity.
Qed.

(** Partial correctness of the walk: every slot it returns has the
    generator's shape. *)
Lemma slotLoop_generated base workEnd dur ph fuel :
  forall cur acc w slots w',
    (exists j, 0 <= j /\ cur = base + j * (30 * 60000)) ->
    Forall (generated base workEnd dur) acc ->
    CalendarService.slotLoop fuel cur workEnd dur ph acc w = (Ok slots, w') ->
    Forall (generated base workEnd dur) slots.
Proof.
  induction fuel as [| fuel IH]; intros cur acc w slots w' Hcur Hacc Hrun.
  - simpl in Hrun. destruct (cur <? workEnd); inversion Hrun. subst. exact Hacc.
  - rewrite slotLoop_step in Hrun.
    destruct (cur <? workEnd); [| inversion Hrun; subst; exact Hacc].
    destruct (negb (validDate (cur + dur * 60000))); [discriminate Hrun |].
    destruct (cur + dur * 60000 >? workEnd) eqn:Hfit;
      [inversion Hrun; subst; exact Hacc |].
    apply bind_Ok in Hrun. destruct Hrun as [r [w1 [_ Hrun]]].
    apply IH in Hrun; [exact Hrun | |].
    + destruct Hcur as [j [Hj ->]]. exists (j + 1). unfold addMinutes, msPerMinute.
      split; lia.
    + destruct (negb (fst r)); [| exact Hacc].
      apply Forall_app. split; [exact Hacc |].
      constructor; [| constructor].
      unfold generated. simpl.
      split; [lia |]. split; [reflexivity |]. split; [reflexivity |]. split.
      * destruct Hcur as [j [Hj ->]]. exists j. split; lia.
      * rewrite Z.gtb_ltb in Hfit. apply Z.ltb_ge in Hfit. exact Hfit.
Qed.

(** The walk terminates within its fuel; it returns when the calendar
    answers and the slot ends tried from [lo] on are valid dates. *)
Lemma slotLoop_settles (up : Prop) lo workEnd dur ph fuel :
  (up -> calendarUp) ->
  (up -> - maxTimeValue <= lo + dur * 60000
         /\ workEnd + dur * 60000 <= maxTimeValue) ->
  forall cur acc w,
    lo <= cur ->
    workEnd - cur < Z.of_nat fuel * (30 * msPerMinute) ->
    settles up (CalendarService.slotLoop fuel cur workEnd dur ph acc w).
Proof.
  intros Hcal Hrange.
  induction fuel as [| fuel IH]; intros cur acc w Hlo Hfuel.
  - simpl. destruct (cur <? workEnd) eqn:E; [| exact I].
    apply Z.ltb_lt in E. simpl in Hfuel. lia.
  - rewrite slotLoop_step.
    destruct (cur <? workEnd) eqn:Hin; [| exact I].
    destruct (negb (validDate (cur + dur * 60000))) eqn:Hvalid.
    + apply settles_throw. intros Hup. destruct (Hrange Hup) as [Hlow Hhigh].
      apply Z.ltb_lt in Hin. apply negb_true_iff in Hvalid.
      unfold validDate in Hvalid. apply andb_false_iff in Hvalid.
      destruct Hvalid as [V | V]; apply Z.leb_gt in V; lia.
    + destruct (cur + dur * 60000 >? workEnd); [exact I |].
      apply settles_bind; [apply checkConflicts_settles, Hcal |].
      intros r w1 _. apply IH; unfold addMinutes, msPerMinute in *; lia.
Qed.

Lemma slotFuel_enough workStart workEnd :
  workEnd - workStart <
  Z.of_nat (CalendarService.slotFuel workStart workEnd) * (30 * msPerMinute).
Proof.
  unfold CalendarService.slotFuel, msPerMinute.
  pose proof (Z.div_mod (workEnd - workStart) (30 * 60000) ltac:(lia)) as D.
  pose proof (Z.mod_pos_bound (workEnd - workStart) (30 * 60000) ltac:(lia)) as B.
  generalize dependent ((workEnd - workStart) / (30 * 60000)).
  generalize dependent ((workEnd - workStart) mod (30 * 60000)).
  intros r Hr q Hq. lia.
Qed.

(** The instant at which the walk of [findSlotsForDay] starts. *)
Lemma findSlotsForDay_Ok date dur ph w slots w' :
  CalendarService.findSlotsForDay date dur ph w = (Ok slots, w') ->
  let now := clock (ticks w) in
  let workStart := setHours date WORK_START_HOUR 0 0 0 in
  let workEnd := setHours date WORK_END_HOUR 0 0 0 in
  slots = [] \/
  (date >= now
   /\ exists base,
      base = (if toDateString date =? toDateString now
              then Z.max workStart (now + 60 * 60 * 1000) else workStart)
      /\ Forall (generated base workEnd dur) slots).
Proof.
  unfold CalendarService.findSlotsForDay. intros Hrun. cbv zeta.
  apply bind_Ok in Hrun. destruct Hrun as [now [w1 [Hnow Hrun]]].
  unfold newDate in Hnow. inversion Hnow; subst now w1; clear Hnow.
  destruct (date <? clock (ticks w)) eqn:Hpast.
  - left. inversion Hrun. reflexivity.
  - right. apply Z.ltb_ge in Hpast. split; [lia |].
    apply bind_Ok in Hrun. destruct Hrun as [evs [w2 [_ Hrun]]].
    eexists. split; [reflexivity |].
    destruct (toDateString date =? toDateString (clock (ticks w))).
    + destruct (clock (ticks w) + 60 * 60 * 1000 >? setHours date WORK_START_HOUR 0 0 0) eqn:G.
      * apply Z.gtb_gt in G. rewrite Z.max_r by lia.
        eapply slotLoop_generated; [| constructor | exact Hrun].
        exists 0. split; lia.
      * rewrite Z.gtb_ltb in G. apply Z.ltb_ge in G. rewrite Z.max_l by lia.
        eapply slotLoop_generated; [| constructor | exact Hrun].
        exists 0. split; lia.
    + eapply slotLoop_generated; [| constructor | exact Hrun].
      exists 0. split; lia.
Qed.

Lemma findSlotsForDay_settles (up : Prop) date dur ph w :
  (up -> calendarUp) ->
  (up -> slotEndsInRange date dur) ->
  settles up (CalendarService.findSlotsForDay date dur ph w).
Proof.
  intros Hcal Hrange. unfold CalendarService.findSlotsForDay.
  apply settles_bind; [exact I |]. intros now w1 _.
  destruct (date <? now); [exact I |].
  apply settles_bind; [apply getEvents_settles, Hcal |]. intros evs w2 _.
  apply (slotLoop_settles up (setHours date WORK_START_HOUR 0 0 0));
    [exact Hcal | exact Hrange | | apply slotFuel_enough].
  destruct (toDateString date =? toDateString now); [| lia].
  destruct (now + 60 * 60 * 1000 >? setHours date WORK_START_HOUR 0 0 0) eqn:G;
    [apply Z.gtb_gt in G; lia | lia].
Qed.


(** C8. Every slot returned by [findSlotsForDay] ends exactly
    [duration] minutes after it starts, records that duration, and has
    its conflict flag cleared. *)
Theorem generated_slot_shape date dur ph w slots w' s :
  CalendarService.findSlotsForDay date dur ph w = (Ok slots, w') ->
  In s slots ->
  end_ s - start s = dur * msPerMinute
  /\ duration s = dur
  /\ conflicts s = false.
Proof.
  intros Hrun Hin. apply findSlotsForDay_Ok in Hrun. cbv zeta in Hrun.
  destruct Hrun as [-> | [_ [base [_ Hall]]]]; [contradiction |].
  rewrite Forall_forall in Hall. destruct (Hall s Hin) as [E [D [C _]]].
  unfold msPerMinute. auto.
Qed.

(** C4. When [findSlotsForDay] is called for the current date, the walk
    starts at the later of the configured work start and now + 60
    minutes, so every slot of the day lies on the 30-minute grid from
    that instant and starts no earlier than now + 60 minutes. *)
Theorem same_day_slots_after_one_hour date dur ph w slots w' s :
  CalendarService.findSlotsForDay date dur ph w = (Ok slots, w') ->
  toDateString date = toDateString (clock (ticks w)) ->
  In s slots ->
  let now := clock (ticks w) in
  let effectiveStart :=
    Z.max (setHours date WORK_START_HOUR 0 0 0) (now + 60 * msPerMinute) in
  (exists k, 0 <= k /\ start s = effectiveStart + k * (30 * msPerMinute))
  /\ now + 60 * msPerMinute <= start s.
Proof.
  intros Hrun Htoday Hin. apply findSlotsForDay_Ok in Hrun. cbv zeta in *.
  destruct Hrun as [-> | [_ [base [Hbase Hall]]]]; [contradiction |].
  rewrite Htoday, Z.eqb_refl in Hbase.
  rewrite Forall_forall in Hall. destruct (Hall s Hin) as [_ [_ [_ [[k [Hk Hs]] _]]]].
  unfold msPerMinute. subst base.
  replace (60 * 60000) with (60 * 60 * 1000) by lia.
  split; [exists k; split; [exact Hk | exact Hs] | lia].
Qed.

(** *** The look-ahead loop *)

Lemma dayLoop_step fuel cur endDate dur ph acc w :
  CalendarService.dayLoop (S fuel) cur endDate dur ph acc w =
  (if cur <=? endDate then
     bind (CalendarService.findSlotsForDay cur dur ph)
          (fun daySlots =>
             CalendarService.dayLoop fuel (addDays cur 1) endDate dur ph
                                     (acc ++ daySlots))
   else ret acc) w.
Proof. reflexivity. Qed.


Lemma dayLoop_settles (up : Prop) startDate endDate dur ph fuel :
  (up -> calendarUp) ->
  (up -> forall date, startDate <= date <= endDate -> slotEndsInRange date dur) ->
  forall cur acc w,
    startDate <= cur ->
    endDate - cur < Z.of_nat fuel * msPerDay ->
    settles up (CalendarService.dayLoop fuel cur endDate dur ph acc w).
Proof.
  intros Hcal Hrange.
  induction fuel as [| fuel IH]; intros cur acc w Hlo Hfuel.
  - simpl. destruct (cur <=? endDate) eqn:E; [| exact I].
    apply Z.leb_le in E. simpl in Hfuel. lia.
  - rewrite dayLoop_step.
    destruct (cur <=? endDate) eqn:E; [| exact I].
    apply Z.leb_le in E.
    apply settles_bind.
    + apply findSlotsForDay_settles; [exact Hcal |].
      intros Hup. apply (Hrange Hup). lia.
    + intros r w1 _. apply IH; unfold addDays, msPerDay in *; lia.
Qed.

Lemma dayFuel_enough startDate endDate :
  endDate - startDate <
  Z.of_nat (CalendarService.dayFuel startDate endDate) * msPerDay.
Proof.
  unfold CalendarService.dayFuel, msPerDay.
  pose proof (Z.div_mod (endDate - startDate) 86400000 ltac:(lia)) as D.
  pose proof (Z.mod_pos_bound (endDate - startDate) 86400000 ltac:(lia)) as B.
  generalize dependent ((endDate - startDate) / 86400000).
  generalize dependent ((endDate - startDate) mod 86400000).
  intros r Hr q Hq. lia.
Qed.
End Generator.

(** ** The slot scorer *)

Section Scorer.
Context `{Host}.

Ltac split_ifs :=
  repeat match goal with
         | |- context [if ?c then _ else _] => destruct c
         end.

(** The scheduling service's scorer always returns, and never with the
    bottom tier: it starts from [acceptable] and only raises. *)
Lemma calculateSlotQuality_not_poor slot task cfg w :
  exists q w',
    SchedulingService.calculateSlotQuality slot task cfg w = (Ok q, w')
    /\ q <> poor.
Proof.
  unfold SchedulingService.calculateSlotQuality, bind, newDate, ret.
  destruct (created_at task), (last_edited_time task);
    split_ifs; simpl; eexists; eexists; (split; [reflexivity | intros E; discriminate E]).
Qed.

Lemma generator_quality_not_poor t ph dur :
  CalendarService.calculateSlotQuality t ph dur <> poor.
Proof.
  unfold CalendarService.calculateSlotQuality. cbv zeta.
  set (q0 := if includes ph (getHours t) then excellent
             else if existsb _ ph then good else acceptable).
  assert (Hq0 : q0 <> poor) by (subst q0; split_ifs; discriminate).
  clearbody q0. destruct q0; try contradiction; simpl; split_ifs; discriminate.
Qed.

(** C7. For a task of priority High the scorer never assigns the tier
    [poor]: the tier it returns is at least [acceptable]. The same holds
    for the initial tier given by the generator. *)
Theorem high_priority_never_poor slot task cfg w :
  priority task = "High" ->
  (exists q w',
      SchedulingService.calculateSlotQuality slot task cfg w = (Ok q, w')
      /\ q <> poor
      /\ qualityOrder acceptable <= qualityOrder q)
  /\ (forall ph, CalendarService.calculateSlotQuality
                   (start slot) ph (duration slot) <> poor).
Proof.
  intros _. split.
  - destruct (calculateSlotQuality_not_poor slot task cfg w) as [q [w' [E N]]].
    exists q, w'. split; [exact E |]. split; [exact N |].
    destruct q; simpl; try lia. contradiction.
  - intros ph. apply generator_quality_not_poor.
Qed.
End Scorer.

(** ** The urgency score *)

Section Urgency.
Context `{Host}.

Lemma calculateUrgency_run task w :
  exists u, SchedulingService.calculateUrgency task w = (Ok u, tick w).
Proof.
  unfold SchedulingService.calculateUrgency, bind, newDate, ret.
  eexists. reflexivity.
Qed.

(** C6. For a task with a valid priority, [calculateUrgency] returns
    priorityWeight * 0.3 + timeUrgency(daysUntilDue) clamped above at
    1.0, in binary64 arithmetic, and the result lies in [0, 1]. *)
Theorem calculateUrgency_formula task w :
  In (priority task) ["High"; "Medium"; "Low"] ->
  let daysUntilDue := Z.quot (due_date task - clock (ticks w)) msPerDay in
  exists u,
    SchedulingService.calculateUrgency task w = (Ok u, tick w)
    /\ u = Spec.urgency (priority task) daysUntilDue
    /\ (0 <=? u)%float = true
    /\ (u <=? 1)%float = true.
Proof.
  intros Hp. cbv zeta.
  unfold SchedulingService.calculateUrgency, bind, newDate, ret.
  eexists. split; [reflexivity |].
  unfold Spec.urgency, Spec.timeUrgency.
  set (d := Z.quot (due_date task - clock (ticks w)) msPerDay).
  destruct Hp as [<- | [<- | [<- | []]]];
    destruct (d <=? 0); try destruct (d <=? 1); try destruct (d <=? 3);
      try destruct (d <=? 7); vm_compute; repeat split.
Qed.
End Urgency.

(** ** Selection *)

Section Selection.
Lemma selectBestSlot_some slots task u :
  slots <> [] ->
  exists s, SchedulingService.selectBestSlot slots task u = Some s /\ In s slots.
Proof.
  destruct slots as [| slot0 rest]; [congruence |]. intros _.
  unfold SchedulingService.selectBestSlot.
  destruct (0.8 <? u)%float; [| exists slot0; split; [reflexivity | left; reflexivity]].
  destruct (filter _ (slot0 :: rest)) as [| g gs] eqn:E.
  - exists slot0. split; [reflexivity | left; reflexivity].
  - exists g. split; [reflexivity |].
    assert (Hin : In g (g :: gs)) by (left; reflexivity).
    rewrite <- E in Hin. apply filter_In in Hin. tauto.
Qed.

(** Below the urgency threshold the choice is the top of the list. *)
Lemma selectBestSlot_calm slots task u :
  (0.8 <? u)%float = false ->
  SchedulingService.selectBestSlot slots task u = hd_error slots.
Proof.
  intros E. unfold SchedulingService.selectBestSlot.
  destruct slots; [reflexivity |]. rewrite E. reflexivity.
Qed.
End Selection.

(** ** Sorting *)

Section Sorting.
Lemma insertSlot_In x y l : In x (insertSlot y l) <-> x = y \/ In x l.
Proof.
  induction l as [| z l IH]; simpl.
  - intuition congruence.
  - destruct (compareSlots y z <=? 0); simpl; [intuition congruence |].
    rewrite IH. intuition congruence.
Qed.

Lemma sortSlots_In x l : In x (sortSlots l) <-> In x l.
Proof.
  induction l as [| y l IH]; simpl; [tauto |].
  rewrite insertSlot_In, IH. intuition congruence.
Qed.

Lemma sortSlots_Forall (P : TimeSlot -> Prop) l :
  Forall P l -> Forall P (sortSlots l).
Proof.
  rewrite !Forall_forall. intros Hl x Hx. apply Hl, sortSlots_In, Hx.
Qed.

End Sorting.

(** ** Filtering and the search over the horizon *)

Section Pipeline.
Context `{Host}.

Lemma mapM_total {A B} (f : A -> M B) :
  (forall x w, exists y w', f x w = (Ok y, w')) ->
  forall l w, exists ys w', mapM f l w = (Ok ys, w').
Proof.
  intros Hf. induction l as [| x l IH]; intros w; simpl.
  - exists [], w. reflexivity.
  - destruct (Hf x w) as [y [w1 Ey]]. destruct (IH w1) as [ys [w2 Eys]].
    exists (y :: ys), w2. unfold bind. rewrite Ey, Eys. reflexivity.
Qed.

Lemma filterAndScoreSlots_total slots task cfg w :
  exists scored w',
    SchedulingService.filterAndScoreSlots slots task cfg w = (Ok scored, w').
Proof.
  unfold SchedulingService.filterAndScoreSlots.
  destruct (mapM_total
              (fun slot =>
                 bind (SchedulingService.calculateSlotQuality slot task cfg)
                      (fun q => ret (mkTimeSlot (start slot) (end_ slot)
                                                (duration slot) q (conflicts slot))))
              ltac:(intros x w0;
                    destruct (calculateSlotQuality_not_poor x task cfg w0)
                      as [q [w1 [E _]]];
                    unfold bind; rewrite E; eexists; eexists; reflexivity)
              (filter (SchedulingService.keepSlot task cfg) slots) w)
    as [ys [w' E]].
  exists (sortSlots ys), w'. rewrite (bind_run _ _ _ _ _ E). reflexivity.
Qed.


Lemma findAvailableSlots_settles (up : Prop) startDate endDate dur ph w :
  (up -> calendarUp) ->
  (up -> forall date, startDate <= date <= endDate -> slotEndsInRange date dur) ->
  settles up (CalendarService.findAvailableSlots startDate endDate dur ph w).
Proof.
  intros Hcal Hrange. unfold CalendarService.findAvailableSlots.
  apply settles_bind; [| intros; apply settles_ret].
  apply (dayLoop_settles up startDate);
    [exact Hcal | exact Hrange | lia | apply dayFuel_enough].
Qed.

(** The search always ends, with a list or with an exception. *)
Lemma findAvailableSlots_ends startDate endDate dur ph w :
  (exists slots w',
      CalendarService.findAvailableSlots startDate endDate dur ph w
      = (Ok slots, w'))
  \/ (exists e w',
         CalendarService.findAvailableSlots startDate endDate dur ph w
         = (Throw e, w')).
Proof.
  pose proof (findAvailableSlots_settles False startDate endDate dur ph w
                ltac:(contradiction) ltac:(contradiction)) as Hs.
  unfold settles in Hs.
  destruct (CalendarService.findAvailableSlots startDate endDate dur ph w)
    as [[slots | e | ] w']; simpl in Hs.
  - left. exists slots, w'. reflexivity.
  - right. exists e, w'. reflexivity.
  - contradiction.
Qed.

(** Inside ordinary times, the slot ends of a duration of up to
    4 * 10^15 ms are valid dates on every day that is itself far from
    the ends of the range. *)
Lemma bounded_slot_ends dur date :
  ordinaryTimes ->
  0 <= dur * 60000 <= 4000000000000000 ->
  - 4000000000000000 <= date <= 4000000000000000 + 14 * msPerDay ->
  slotEndsInRange date dur.
Proof.
  intros [_ [Hoff [Hws Hwe]]] Hdur Hdate.
  unfold slotEndsInRange, setHours, localTime, maxTimeValue,
    msPerDay, msPerHour, msPerMinute in *.
  pose proof (Z.mod_pos_bound (date + utcOffset) 86400000 ltac:(lia)) as B.
  split; lia.
Qed.


Lemma collectHours_plain names :
  plainNames names ->
  forall acc, exists hours, SchedulingService.collectHours names acc = inr hours.
Proof.
  induction names as [| name rest IH]; intros Hplain acc; simpl.
  - exists acc. reflexivity.
  - assert (Hrest : plainNames rest)
      by (intros x Hx; apply Hplain; right; exact Hx).
    assert (Hname : inheritedKey name = false)
      by (apply Hplain; left; reflexivity).
    unfold SchedulingService.timeMapping. rewrite Hname.
    destruct (name =? "morning")%string; [apply (IH Hrest) |].
    destruct (name =? "afternoon")%string; [apply (IH Hrest) |].
    destruct (name =? "evening")%string; apply (IH Hrest).
Qed.

Lemma convertPreferredTimesToHours_plain names dom :
  plainNames names ->
  exists hours,
    SchedulingService.convertPreferredTimesToHours names dom = inr hours.
Proof.
  intros Hplain. unfold SchedulingService.convertPreferredTimesToHours.
  destruct (collectHours_plain names Hplain []) as [hours ->].
  eexists. reflexivity.
Qed.


Lemma findOptimalTimeSlots_settles (up : Prop) task cfg w :
  (up -> calendarUp) ->
  (up -> plainNames (preferred_times task)) ->
  (up -> forall date,
      clock (ticks w) <= date <= addDays (clock (S (ticks w))) 14 ->
      slotEndsInRange date
        (Z.max (estimated_duration task) (min_duration cfg))) ->
  settles up (SchedulingService.findOptimalTimeSlots task cfg w).
Proof.
  intros Hcal Hnames Hrange. unfold SchedulingService.findOptimalTimeSlots.
  apply settles_bind.
  { destruct (SchedulingService.convertPreferredTimesToHours
                (preferred_times task) (domain task)) as [msg | hours] eqn:E;
      [| exact I].
    apply settles_throw. intros Hup.
    destruct (convertPreferredTimesToHours_plain _ (domain task) (Hnames Hup))
      as [hours E'].
    congruence. }
  intros preferredHours w0 Hconv.
  assert (w0 = w) as ->.
  { destruct (SchedulingService.convertPreferredTimesToHours
                (preferred_times task) (domain task));
      inversion Hconv; reflexivity. }
  apply settles_bind; [exact I |]. intros startDate w1 Hstart.
  unfold newDate in Hstart. inversion Hstart; subst startDate w1; clear Hstart.
  apply settles_bind; [exact I |]. intros endDate w2 Hend.
  unfold SchedulingService.getMaxSchedulingDate, bind, newDate, ret in Hend.
  inversion Hend; subst endDate w2; clear Hend.
  apply settles_bind;
    [apply findAvailableSlots_settles; [exact Hcal | exact Hrange] |].
  intros slots w3 _.
  destruct (filterAndScoreSlots_total slots task cfg w3) as [scored [w4 E]].
  unfold settles. rewrite E. exact I.
Qed.

(** [findOptimalTimeSlots] always ends, with a list or with an
    exception. *)
Lemma findOptimalTimeSlots_ends task cfg w :
  (exists slots w',
      SchedulingService.findOptimalTimeSlots task cfg w = (Ok slots, w'))
  \/ (exists e w',
         SchedulingService.findOptimalTimeSlots task cfg w = (Throw e, w')).
Proof.
  pose proof (findOptimalTimeSlots_settles False task cfg w
                ltac:(contradiction) ltac:(contradiction) ltac:(contradiction))
    as Hs.
  unfold settles in Hs.
  destruct (SchedulingService.findOptimalTimeSlots task cfg w)
    as [[slots | e | ] w']; simpl in Hs.
  - left. exists slots, w'. reflexivity.
  - right. exists e, w'. reflexivity.
  - contradiction.
Qed.


Lemma filter_none {X} (f : X -> bool) l :
  Forall (fun x => f x = false) l -> filter f l = [].
Proof.
  induction 1 as [| x l Hx _ IH]; simpl; [reflexivity |]. rewrite Hx. exact IH.
Qed.
End Pipeline.

(** ** Nothing but [updateTask] writes to Notion *)

Section Quiet.
Context `{Host}.

Lemma quiet_ret {A} (a : A) : quiet (ret a).
Proof. intros w. reflexivity. Qed.

Lemma quiet_bind {A B} (m : M A) (k : A -> M B) :
  quiet m -> (forall a, quiet (k a)) -> quiet (bind m k).
Proof.
  intros Hm Hk w. unfold bind. specialize (Hm w).
  destruct (m w) as [[a | e | ] w1]; simpl in *; [| exact Hm | exact Hm].
  rewrite (Hk a w1). exact Hm.
Qed.

Lemma quiet_newDate : quiet newDate.
Proof. intros w. reflexivity. Qed.

Lemma quiet_fromResult {A} (r : string + A) : quiet (fromResult r).
Proof. intros w. destruct r; reflexivity. Qed.

Lemma quiet_getEvents a b : quiet (CalendarService.getEvents a b).
Proof. intros w. reflexivity. Qed.

Lemma quiet_checkConflicts s e buf :
  quiet (CalendarService.checkConflicts s e buf).
Proof.
  apply quiet_bind; [apply quiet_getEvents | intros; apply quiet_ret].
Qed.

Lemma quiet_slotLoop workEnd dur ph fuel :
  forall cur acc, quiet (CalendarService.slotLoop fuel cur workEnd dur ph acc).
Proof.
  induction fuel as [| fuel IH]; intros cur acc w.
  - simpl. destruct (cur <? workEnd); reflexivity.
  - rewrite slotLoop_step.
    destruct (cur <? workEnd); [| reflexivity].
    destruct (negb (validDate (cur + dur * 60000))); [reflexivity |].
    destruct (cur + dur * 60000 >? workEnd); [reflexivity |].
    apply quiet_bind; [apply quiet_checkConflicts | intros; apply IH].
Qed.

Lemma quiet_findSlotsForDay date dur ph :
  quiet (CalendarService.findSlotsForDay date dur ph).
Proof.
  apply quiet_bind; [apply quiet_newDate |]. intros now.
  destruct (date <? now); [apply quiet_ret |].
  apply quiet_bind; [apply quiet_getEvents | intros; apply quiet_slotLoop].
Qed.

Lemma quiet_dayLoop endDate dur ph fuel :
  forall cur acc, quiet (CalendarService.dayLoop fuel cur endDate dur ph acc).
Proof.
  induction fuel as [| fuel IH]; intros cur acc w.
  - simpl. destruct (cur <=? endDate); reflexivity.
  - rewrite dayLoop_step. destruct (cur <=? endDate); [| reflexivity].
    apply quiet_bind; [apply quiet_findSlotsForDay | intros; apply IH].
Qed.

Lemma quiet_mapM {A B} (f : A -> M B) :
  (forall x, quiet (f x)) -> forall l, quiet (mapM f l).
Proof.
  intros Hf. induction l as [| x l IH]; simpl; [apply quiet_ret |].
  apply quiet_bind; [apply Hf |]. intros y.
  apply quiet_bind; [apply IH | intros; apply quiet_ret].
Qed.

Lemma quiet_calculateSlotQuality slot task cfg :
  quiet (SchedulingService.calculateSlotQuality slot task cfg).
Proof.
  unfold SchedulingService.calculateSlotQuality. cbv zeta.
  apply quiet_bind.
  - destruct (created_at task); [| apply quiet_ret].
    apply quiet_bind; [apply quiet_newDate |]. intros now.
    destruct (SchedulingService.withinLastHour now z); apply quiet_ret.
  - intros q. destruct (last_edited_time task); [| apply quiet_ret].
    apply quiet_bind; [apply quiet_newDate |]. intros now.
    destruct (SchedulingService.withinLastHour now z); apply quiet_ret.
Qed.

Lemma quiet_findOptimalTimeSlots task cfg :
  quiet (SchedulingService.findOptimalTimeSlots task cfg).
Proof.
  unfold SchedulingService.findOptimalTimeSlots. cbv zeta.
  apply quiet_bind; [apply quiet_fromResult |]. intros preferredHours.
  apply quiet_bind; [apply quiet_newDate |]. intros startDate.
  apply quiet_bind.
  { apply quiet_bind; [apply quiet_newDate | intros; apply quiet_ret]. }
  intros endDate. apply quiet_bind.
  { apply quiet_bind; [apply quiet_dayLoop | intros; apply quiet_ret]. }
  intros slots. apply quiet_bind; [| intros; apply quiet_ret].
  apply quiet_mapM. intros slot.
  apply quiet_bind; [apply quiet_calculateSlotQuality | intros; apply quiet_ret].
Qed.
End Quiet.

(** ** [scheduleTask] *)

Section ScheduleTask.
Context `{Host}.

Lemma calculateUrgency_world task w u w1 :
  SchedulingService.calculateUrgency task w = (Ok u, w1) -> w1 = tick w.
Proof.
  unfold SchedulingService.calculateUrgency, bind, newDate, ret.
  intros E. inversion E. reflexivity.
Qed.

Lemma validateScheduledTime_run t w :
  SchedulingService.validateScheduledTime t w =
  (Ok (if t <? clock (ticks w) + 30 * 60 * 1000
       then mkValidation false (Some (tooSoonMessage t))
       else mkValidation true None),
   tick w).
Proof.
  unfold SchedulingService.validateScheduledTime, bind, newDate, tooSoonMessage.
  destruct (t <? clock (ticks w) + 30 * 60 * 1000); reflexivity.
Qed.

Lemma updateTask_run taskId updates w :
  NotionService.updateTask taskId updates w =
  (Ok (pages_update (ticks w) taskId
                    (NotionService.formatPropertiesForNotion updates)),
   mkWorld (S (ticks w))
           (notion_log w
            ++ [(taskId, NotionService.formatPropertiesForNotion updates)])).
Proof. reflexivity. Qed.

(** [scheduleTask] always returns an outcome, of one of three shapes. *)
Lemma scheduleTask_outcome task w :
  exists r w',
    SchedulingService.scheduleTask task w = (Ok r, w') /\ outcome_shape r.
Proof.
  unfold SchedulingService.scheduleTask, try_catch, outcome_shape. cbv zeta.
  destruct (valid (SchedulingService.validateTaskData task)); cbn [negb].
  2: { eexists; eexists. split; [reflexivity |]. simpl. auto. }
  destruct (FOCUS_TYPE_CONFIGS (focus_type task)) as [cfg |].
  2: { eexists; eexists. split; [reflexivity |]. simpl. auto. }
  destruct (calculateUrgency_run task w) as [u Eu].
  rewrite (bind_run _ _ _ _ _ Eu).
  destruct (findOptimalTimeSlots_ends task cfg (tick w))
    as [[slots [w2 Ef]] | [e [w2 Ef]]].
  - rewrite (bind_run _ _ _ _ _ Ef).
    destruct slots as [| slot0 rest].
    + simpl. eexists; eexists. split; [reflexivity |]. simpl. auto.
    + replace (Z.of_nat (List.length (slot0 :: rest)) =? 0) with false
        by (symmetry; apply Z.eqb_neq; simpl List.length; lia).
      destruct (selectBestSlot_some (slot0 :: rest) task u ltac:(discriminate))
        as [best [Eb _]].
      rewrite Eb.
      rewrite (bind_run _ _ _ _ _ (validateScheduledTime_run _ _)).
      destruct (start best <? clock (ticks w2) + 30 * 60 * 1000); cbn [valid negb].
      * eexists; eexists. split; [reflexivity |]. simpl. auto.
      * rewrite (bind_run _ _ _ _ _ (updateTask_run _ _ _)).
        destruct (pages_update _ _ _); cbn [negb];
          eexists; eexists; (split; [reflexivity |]); simpl; auto.
  - rewrite (bind_throw _ _ _ _ _ Ef).
    eexists; eexists. split; [reflexivity |]. simpl. auto.
Qed.

(** C9. [scheduleTask] returns an outcome for every task, and its
    status is never [conflict]: it is [scheduled], [no_slots] or
    [error]. *)
Theorem scheduleTask_never_conflict task w :
  exists r w',
    SchedulingService.scheduleTask task w = (Ok r, w')
    /\ status r <> conflict
    /\ (status r = scheduled \/ status r = no_slots \/ status r = error).
Proof.
  destruct (scheduleTask_outcome task w) as [r [w' [E [_ Hs]]]].
  exists r, w'. split; [exact E |].
  destruct Hs as [S | [[S _] | S]]; rewrite S; split; auto; discriminate.
Qed.

(** C10. [selectBestSlot] returns a slot for every non-empty list, so
    the branch of [scheduleTask] that attaches alternatives is never
    taken: an outcome with status [no_slots] carries no alternative
    slots and the message of the empty-list branch. *)
Theorem no_slots_has_no_alternatives :
  (forall slots task u,
      slots <> [] ->
      exists s, SchedulingService.selectBestSlot slots task u = Some s)
  /\ (forall task w r w',
         SchedulingService.scheduleTask task w = (Ok r, w') ->
         status r = no_slots ->
         alternative_slots r = None
         /\ message r = "No available time slots found for this task").
Proof.
  split.
  - intros slots task u Hne.
    destruct (selectBestSlot_some slots task u Hne) as [s [E _]].
    exists s. exact E.
  - intros task w r w' E Hst.
    destruct (scheduleTask_outcome task w) as [r0 [w0 [E0 [Halt Hs]]]].
    rewrite E in E0. inversion E0; subst r0 w0.
    split; [exact Halt |].
    destruct Hs as [S | [[_ Msg] | S]]; [congruence | exact Msg | congruence].
Qed.

(** C5. When the selected slot starts earlier than 30 minutes after the
    clock reading of [validateScheduledTime], [scheduleTask] returns an
    [error] outcome carrying the too-soon message, which is not a
    [no_slots] outcome, and no update has been sent to Notion. *)
Theorem too_soon_slot_is_error task cfg w u w1 slots w2 bestSlot :
  valid (SchedulingService.validateTaskData task) = true ->
  FOCUS_TYPE_CONFIGS (focus_type task) = Some cfg ->
  SchedulingService.calculateUrgency task w = (Ok u, w1) ->
  SchedulingService.findOptimalTimeSlots task cfg w1 = (Ok slots, w2) ->
  SchedulingService.selectBestSlot slots task u = Some bestSlot ->
  start bestSlot < clock (ticks w2) + 30 * msPerMinute ->
  exists r w',
    SchedulingService.scheduleTask task w = (Ok r, w')
    /\ status r = error
    /\ status r <> no_slots
    /\ success r = false
    /\ message r = tooSoonMessage (start bestSlot)
    /\ notion_log w' = notion_log w.
Proof.
  intros Hvalid Hcfg Hu Hfind Hbest Hsoon.
  pose proof (calculateUrgency_world _ _ _ _ Hu) as ->.
  assert (Hlog : notion_log w2 = notion_log w).
  { pose proof (quiet_findOptimalTimeSlots task cfg (tick w)) as Q.
    rewrite Hfind in Q. exact Q. }
  unfold SchedulingService.scheduleTask, try_catch. cbv zeta.
  rewrite Hvalid, Hcfg. cbn [negb].
  rewrite (bind_run _ _ _ _ _ Hu), (bind_run _ _ _ _ _ Hfind).
  destruct slots as [| slot0 rest]; [discriminate Hbest |].
  replace (Z.of_nat (List.length (slot0 :: rest)) =? 0) with false
    by (symmetry; apply Z.eqb_neq; simpl List.length; lia).
  rewrite Hbest.
  rewrite (bind_run _ _ _ _ _ (validateScheduledTime_run _ _)).
  assert (E : (start bestSlot <? clock (ticks w2) + 30 * 60 * 1000) = true)
    by (apply Z.ltb_lt; unfold msPerMinute in Hsoon; lia).
  rewrite E. cbn [valid negb validation_message].
  eexists; eexists. split; [reflexivity |]. simpl.
  repeat split; try discriminate. exact Hlog.
Qed.

Lemma getMaxSchedulingDate_run w :
  SchedulingService.getMaxSchedulingDate w =
  (Ok (addDays (clock (ticks w)) 14), tick w).
Proof. reflexivity. Qed.

(** The steps of a run of [findOptimalTimeSlots] that returns. *)
Lemma findOptimalTimeSlots_Ok task cfg w slots w' :
  SchedulingService.findOptimalTimeSlots task cfg w = (Ok slots, w') ->
  exists preferredHours raw w1,
    SchedulingService.convertPreferredTimesToHours (preferred_times task)
                                                   (domain task)
    = inr preferredHours
    /\ CalendarService.findAvailableSlots
         (clock (ticks w)) (addDays (clock (S (ticks w))) 14)
         (Z.max (estimated_duration task) (min_duration cfg))
         preferredHours (tick (tick w))
       = (Ok raw, w1)
    /\ SchedulingService.filterAndScoreSlots raw task cfg w1 = (Ok slots, w').
Proof.
  unfold SchedulingService.findOptimalTimeSlots. cbv zeta. intros Hrun.
  destruct (SchedulingService.convertPreferredTimesToHours
              (preferred_times task) (domain task)) as [msg | preferredHours];
    [discriminate Hrun |].
  rewrite (bind_run _ _ _ _ _ (eq_refl : fromResult (inr preferredHours) w = _))
    in Hrun.
  rewrite (bind_run _ _ _ _ _ (eq_refl : newDate w = _)) in Hrun.
  rewrite (bind_run _ _ _ _ _ (getMaxSchedulingDate_run _)) in Hrun.
  apply bind_Ok in Hrun. destruct Hrun as [raw [w1 [Hraw Hscore]]].
  exists preferredHours, raw, w1. auto.
Qed.



End ScheduleTask.

(** ** The selection policy on a sorted list *)

Section SortedSelection.
Context `{Host}.

Lemma compareSlots_le_quality a b :
  compareSlots a b <= 0 ->
  qualityOrder (quality b) <= qualityOrder (quality a).
Proof.
  unfold compareSlots. cbv zeta.
  destruct (qualityOrder (quality a) =? qualityOrder (quality b)) eqn:E; simpl.
  - apply Z.eqb_eq in E. lia.
  - lia.
Qed.

Lemma compareSlots_gt_quality a b :
  compareSlots a b > 0 ->
  qualityOrder (quality a) <= qualityOrder (quality b).
Proof.
  unfold compareSlots. cbv zeta.
  destruct (qualityOrder (quality a) =? qualityOrder (quality b)) eqn:E; simpl.
  - apply Z.eqb_eq in E. lia.
  - lia.
Qed.

Lemma insertSlot_topFirst x l : topFirst l -> topFirst (insertSlot x l).
Proof.
  destruct l as [| y ys]; simpl; [constructor |].
  intros Htop. destruct (compareSlots x y <=? 0) eqn:E; simpl.
  - apply Z.leb_le, compareSlots_le_quality in E.
    constructor; [exact E |].
    eapply Forall_impl; [| exact Htop]. simpl. intros z Hz. lia.
  - apply Z.leb_gt in E.
    assert (Hx : qualityOrder (quality x) <= qualityOrder (quality y))
      by (apply compareSlots_gt_quality; lia).
    apply Forall_forall. intros z Hz. apply insertSlot_In in Hz.
    destruct Hz as [-> | Hz]; [exact Hx |].
    rewrite Forall_forall in Htop. apply Htop, Hz.
Qed.

Lemma sortSlots_topFirst l : topFirst (sortSlots l).
Proof.
  induction l as [| x l IH]; simpl; [exact I | apply insertSlot_topFirst, IH].
Qed.

(** On a list whose head has the highest tier, both branches of
    [selectBestSlot] return the head, whatever the urgency. *)
Lemma selectBestSlot_topFirst slots task u :
  topFirst slots ->
  SchedulingService.selectBestSlot slots task u = hd_error slots.
Proof.
  destruct slots as [| h t]; [reflexivity |]. simpl. intros Htop.
  destruct (0.8 <? u)%float; [| reflexivity].
  destruct (isExcellent (quality h) || isGood (quality h)) eqn:Eh;
    [reflexivity |].
  replace (filter (fun s => isExcellent (quality s) || isGood (quality s)) t)
    with (@nil TimeSlot); [reflexivity |].
  symmetry. apply filter_none.
  eapply Forall_impl; [| exact Htop]. simpl. intros z Hz.
  destruct (quality h), (quality z); simpl in *; try discriminate; try reflexivity; lia.
Qed.

Lemma filterAndScoreSlots_topFirst slots task cfg w sorted w' :
  SchedulingService.filterAndScoreSlots slots task cfg w = (Ok sorted, w') ->
  topFirst sorted.
Proof.
  unfold SchedulingService.filterAndScoreSlots. intros Hrun.
  apply bind_Ok in Hrun. destruct Hrun as [scored [w1 [_ Hret]]].
  inversion Hret. apply sortSlots_topFirst.
Qed.

(** After [filterAndScoreSlots] the urgency does not influence the
    choice: [selectBestSlot] returns the first slot of the sorted
    list. *)
Lemma selectBestSlot_ignores_urgency slots task cfg w sorted w' u :
  SchedulingService.filterAndScoreSlots slots task cfg w = (Ok sorted, w') ->
  SchedulingService.selectBestSlot sorted task u = hd_error sorted.
Proof.
  intros Hrun. apply selectBestSlot_topFirst.
  apply (filterAndScoreSlots_topFirst _ _ _ _ _ _ Hrun).
Qed.
(** *** What the sorted order gives *)

Lemma slotLe_trans a b c : slotLe a b -> slotLe b c -> slotLe a c.
Proof.
  unfold slotLe, compareSlots. cbv zeta.
  destruct (qualityOrder (quality a) =? qualityOrder (quality b)) eqn:Eab,
           (qualityOrder (quality b) =? qualityOrder (quality c)) eqn:Ebc,
           (qualityOrder (quality a) =? qualityOrder (quality c)) eqn:Eac;
    simpl;
    repeat match goal with
           | E : (_ =? _) = true |- _ => apply Z.eqb_eq in E
           | E : (_ =? _) = false |- _ => apply Z.eqb_neq in E
           end; lia.
Qed.

Lemma slotLe_flip a b : ~ slotLe a b -> slotLe b a.
Proof.
  unfold slotLe, compareSlots. cbv zeta.
  destruct (qualityOrder (quality a) =? qualityOrder (quality b)) eqn:Eab,
           (qualityOrder (quality b) =? qualityOrder (quality a)) eqn:Eba;
    simpl;
    repeat match goal with
           | E : (_ =? _) = true |- _ => apply Z.eqb_eq in E
           | E : (_ =? _) = false |- _ => apply Z.eqb_neq in E
           end; lia.
Qed.

Lemma insertSlot_sorted x l :
  StronglySorted slotLe l -> StronglySorted slotLe (insertSlot x l).
Proof.
  induction 1 as [| y ys Hsorted IH Hy]; simpl.
  - constructor; constructor.
  - destruct (compareSlots x y <=? 0) eqn:E.
    + apply Z.leb_le in E. constructor; [constructor; assumption |].
      constructor; [exact E |].
      eapply Forall_impl; [| exact Hy]. intros z Hz.
      apply (slotLe_trans x y z); assumption.
    + apply Z.leb_gt in E. constructor; [exact IH |].
      apply Forall_forall. intros z Hz. apply insertSlot_In in Hz.
      destruct Hz as [-> | Hz].
      * apply slotLe_flip. unfold slotLe. lia.
      * rewrite Forall_forall in Hy. apply Hy, Hz.
Qed.

Lemma sortSlots_sorted l : StronglySorted slotLe (sortSlots l).
Proof.
  induction l as [| x l IH]; simpl; [constructor | apply insertSlot_sorted, IH].
Qed.

Lemma earliest_In l r : Spec.earliest l = Some r -> In r l.
Proof.
  revert r. induction l as [| s l IH]; simpl; intros r E; [discriminate |].
  destruct (Spec.earliest l) as [r0 |].
  - destruct (start r0 <? start s); inversion E; subst; auto.
  - inversion E. auto.
Qed.

Lemma earliest_head h t :
  Forall (fun x => start h <= start x) t -> Spec.earliest (h :: t) = Some h.
Proof.
  intros Hmin. simpl. destruct (Spec.earliest t) as [r |] eqn:E; [| reflexivity].
  apply earliest_In in E. rewrite Forall_forall in Hmin.
  specialize (Hmin r E).
  replace (start r <? start h) with false by (symmetry; apply Z.ltb_ge; lia).
  reflexivity.
Qed.

Lemma mapM_Forall {A B} (f : A -> M B) (P : B -> Prop) :
  (forall x w y w', f x w = (Ok y, w') -> P y) ->
  forall l w ys w', mapM f l w = (Ok ys, w') -> Forall P ys.
Proof.
  intros Hf. induction l as [| x l IH]; simpl; intros w ys w' E.
  - inversion E. constructor.
  - apply bind_Ok in E. destruct E as [y [w1 [Ey E]]].
    apply bind_Ok in E. destruct E as [ys0 [w2 [Eys E]]].
    inversion E; subst. constructor; [eapply Hf, Ey | eapply IH, Eys].
Qed.

Lemma filterAndScoreSlots_not_poor slots task cfg w sorted w' :
  SchedulingService.filterAndScoreSlots slots task cfg w = (Ok sorted, w') ->
  Forall (fun s => quality s <> poor) sorted.
Proof.
  unfold SchedulingService.filterAndScoreSlots. intros Hrun.
  apply bind_Ok in Hrun. destruct Hrun as [scored [w1 [Hmap Hret]]].
  inversion Hret. apply sortSlots_Forall.
  eapply mapM_Forall; [| exact Hmap].
  intros x w0 y w0' E. apply bind_Ok in E. destruct E as [q [w2 [Eq E]]].
  inversion E; subst. simpl.
  destruct (calculateSlotQuality_not_poor x task cfg w0) as [q0 [w3 [E0 N]]].
  congruence.
Qed.

(** The fallback of the urgent branch: when no slot of the scored list is
    excellent or good, the slot returned is the earliest one. *)
Lemma urgent_fallback_is_earliest slots task cfg w sorted w' u :
  SchedulingService.filterAndScoreSlots slots task cfg w = (Ok sorted, w') ->
  filter (fun s => isExcellent (quality s) || isGood (quality s)) sorted = [] ->
  SchedulingService.selectBestSlot sorted task u = Spec.earliest sorted
  /\ Spec.selectUrgent sorted = Spec.earliest sorted.
Proof.
  intros Hrun Hnone.
  split; [| unfold Spec.selectUrgent; rewrite Hnone; reflexivity].
  rewrite (selectBestSlot_ignores_urgency _ _ _ _ _ _ u Hrun).
  pose proof (filterAndScoreSlots_not_poor _ _ _ _ _ _ Hrun) as Hnp.
  assert (Hacc : Forall (fun s => quality s = acceptable) sorted).
  { apply Forall_forall. intros s Hs.
    rewrite Forall_forall in Hnp. specialize (Hnp s Hs).
    assert (Hf : In s (filter (fun s => isExcellent (quality s) || isGood (quality s))
                              sorted) -> False) by (rewrite Hnone; auto).
    rewrite filter_In in Hf.
    destruct (quality s); simpl in Hf; try tauto; congruence. }
  assert (Hsorted : StronglySorted slotLe sorted).
  { unfold SchedulingService.filterAndScoreSlots in Hrun.
    apply bind_Ok in Hrun. destruct Hrun as [scored [w1 [_ Hret]]].
    inversion Hret. apply sortSlots_sorted. }
  destruct sorted as [| h t]; [reflexivity |].
  simpl hd_error. symmetry. apply earliest_head.
  inversion Hsorted as [| ? ? _ Hh]; subst.
  inversion Hacc as [| ? ? Qh Qt]; subst.
  rewrite Forall_forall in *. intros x Hx.
  specialize (Hh x Hx). specialize (Qt x Hx).
  unfold slotLe, compareSlots in Hh. cbv zeta in Hh.
  rewrite Qh, Qt in Hh. simpl in Hh. lia.
Qed.
End SortedSelection.

(** ** Concrete runs *)

Section Runs.
Import Scenario.

(** C1. A High-priority Deep Work task of 60 minutes, due now, is
    scheduled at 14:40 with an empty calendar and work hours 9 to 17.
    Its urgency is 1.0, above the 0.8 threshold. The candidates include
    a [good] slot today at 15:40 and an [excellent] slot tomorrow at
    9:00. The earliest slot of tier excellent or good is today's, yet
    [selectBestSlot] returns tomorrow's, and [scheduleTask] books it.
    The same is seen on these two slots alone. *)
Theorem urgent_task_skips_earlier_good_slot :
  let host := quietHost (at_ 0 14 40) 9 17 in
  let task := deepWork 60 "High" (at_ 0 14 40) in
  let today := mkTimeSlot (at_ 0 15 40) (at_ 0 16 40) 60 good false in
  let tomorrow := mkTimeSlot (at_ 1 9 0) (at_ 1 10 0) 60 excellent false in
  let raw := [mkTimeSlot (at_ 0 15 40) (at_ 0 16 40) 60 acceptable false;
              mkTimeSlot (at_ 1 9 0) (at_ 1 10 0) 60 excellent false] in
  let search := @SchedulingService.findOptimalTimeSlots host task deepWorkConfig
                  (tick w0) in
  (@SchedulingService.filterAndScoreSlots host raw task deepWorkConfig w0
   = (Ok [tomorrow; today], w0)
   /\ SchedulingService.selectBestSlot [tomorrow; today] task 1.0%float
      = Some tomorrow
   /\ Spec.selectUrgent [tomorrow; today] = Some today
   /\ start today < start tomorrow)
  /\ exists slots,
      fst search = Ok slots
      /\ @SchedulingService.calculateUrgency host task w0 = (Ok 1.0%float, tick w0)
      /\ (0.8 <? 1.0)%float = true
      /\ In today slots
      /\ Spec.selectUrgent slots = Some today
      /\ SchedulingService.selectBestSlot slots task 1.0%float = Some tomorrow
      /\ exists r w',
          @SchedulingService.scheduleTask host task w0 = (Ok r, w')
          /\ status r = scheduled
          /\ scheduled_time r = Some (start tomorrow, end_ tomorrow).
Proof.
  cbv zeta. split.
  { repeat split; vm_compute; reflexivity. }
  set (search := @SchedulingService.findOptimalTimeSlots
                   (quietHost (at_ 0 14 40) 9 17)
                   (deepWork 60 "High" (at_ 0 14 40)) deepWorkConfig (tick w0)).
  exists (match fst search with Ok l => l | _ => [] end).
  split; [vm_compute; reflexivity |].
  split; [vm_compute; reflexivity |].
  split; [vm_compute; reflexivity |].
  split.
  { apply (nth_error_In _ 168). vm_compute. reflexivity. }
  split; [vm_compute; reflexivity |].
  split; [vm_compute; reflexivity |].
  eexists; eexists.
  split; [vm_compute; reflexivity |].
  split; vm_compute; reflexivity.
Qed.

Lemma checkConflicts_padded_overlap_witness :
  0 <= 5
  /\ exists hasConflicts conflictingEvents,
      @CalendarService.checkConflicts (busyHost (at_ 0 8 0) meeting)
        (at_ 0 11 0) (at_ 0 12 0) 5 w0
      = (Ok (hasConflicts, conflictingEvents), tick w0)
      /\ hasConflicts = true.
Proof.
  split; [lia |].
  destruct (@checkConflicts_padded_overlap (busyHost (at_ 0 8 0) meeting)
              (at_ 0 11 0) (at_ 0 12 0) 5 [meeting] w0 eq_refl)
    as [b [cs [E [_ [Hpad _]]]]].
  exists b, cs. split; [exact E |]. apply Hpad; [lia |].
  exists meeting. split; [left; reflexivity |]. split; [reflexivity |].
  unfold Spec.overlaps. vm_compute. split; reflexivity.
Defined.



Lemma same_day_slots_after_one_hour_witness :
  let s := mkTimeSlot (at_ 0 15 40) (at_ 0 16 40) 60 acceptable false in
  at_ 0 14 40 + 60 * msPerMinute <= start s.
Proof.
  cbv zeta.
  apply (@same_day_slots_after_one_hour (quietHost (at_ 0 14 40) 9 17)
           (at_ 0 14 40) 60 [9; 10; 11; 12] w0
           [mkTimeSlot (at_ 0 15 40) (at_ 0 16 40) 60 acceptable false]
           (mkWorld 3 [])).
  - vm_compute. reflexivity.
  - reflexivity.
  - left. reflexivity.
Defined.

Lemma generated_slot_shape_witness :
  let s := mkTimeSlot (at_ 1 9 0) (at_ 1 11 0) 120 excellent false in
  end_ s - start s = 120 * msPerMinute /\ duration s = 120 /\ conflicts s = false.
Proof.
  cbv zeta.
  apply (@generated_slot_shape (quietHost (at_ 0 14 40) 9 17)
           (at_ 1 14 40) 120 [9; 10; 11; 12] w0
           (match fst (@CalendarService.findSlotsForDay
                         (quietHost (at_ 0 14 40) 9 17)
                         (at_ 1 14 40) 120 [9; 10; 11; 12] w0) with
            | Ok l => l
            | _ => []
            end)
           (snd (@CalendarService.findSlotsForDay
                   (quietHost (at_ 0 14 40) 9 17)
                   (at_ 1 14 40) 120 [9; 10; 11; 12] w0))).
  - vm_compute. reflexivity.
  - vm_compute. left. reflexivity.
Defined.

Lemma calculateUrgency_formula_witness :
  exists u,
    @SchedulingService.calculateUrgency (quietHost (at_ 0 14 40) 9 17)
      (deepWork 60 "Medium" (at_ 5 0 0)) w0 = (Ok u, tick w0)
    /\ u = Spec.urgency "Medium" 4
    /\ (0 <=? u)%float = true /\ (u <=? 1)%float = true.
Proof.
  apply (@calculateUrgency_formula (quietHost (at_ 0 14 40) 9 17)
           (deepWork 60 "Medium" (at_ 5 0 0)) w0).
  simpl. right. left. reflexivity.
Defined.

Lemma high_priority_never_poor_witness :
  exists q w',
    @SchedulingService.calculateSlotQuality (quietHost (at_ 0 14 40) 9 17)
      (mkTimeSlot (at_ 0 16 0) (at_ 0 17 0) 60 acceptable false)
      (deepWork 60 "High" (at_ 5 0 0)) deepWorkConfig w0 = (Ok q, w')
    /\ q <> poor
    /\ qualityOrder acceptable <= qualityOrder q.
Proof.
  apply (@high_priority_never_poor (quietHost (at_ 0 14 40) 9 17)
           (mkTimeSlot (at_ 0 16 0) (at_ 0 17 0) 60 acceptable false)
           (deepWork 60 "High" (at_ 5 0 0)) deepWorkConfig w0 eq_refl).
Defined.

Lemma too_soon_slot_is_error_witness :
  exists r w',
    @SchedulingService.scheduleTask (quietHost (at_ 0 23 45) 0 2)
      (deepWork 60 "High" (at_ 0 23 45)) w0 = (Ok r, w')
    /\ status r = error
    /\ status r <> no_slots
    /\ success r = false
    /\ message r = @tooSoonMessage (quietHost (at_ 0 23 45) 0 2) (at_ 1 0 0)
    /\ notion_log w' = [].
Proof.
  set (host := quietHost (at_ 0 23 45) 0 2).
  set (task := deepWork 60 "High" (at_ 0 23 45)).
  set (search := @SchedulingService.findOptimalTimeSlots host task deepWorkConfig
                   (tick w0)).
  apply (@too_soon_slot_is_error host task deepWorkConfig w0 1.0%float (tick w0)
           (match fst search with Ok l => l | _ => [] end) (snd search)
           (mkTimeSlot (at_ 1 0 0) (at_ 1 1 0) 60 acceptable false)).
  - reflexivity.
  - reflexivity.
  - vm_compute. reflexivity.
  - vm_compute. reflexivity.
  - vm_compute. reflexivity.
  - vm_compute. reflexivity.
Defined.

Lemma no_slots_has_no_alternatives_witness :
  (exists s,
      SchedulingService.selectBestSlot
        [mkTimeSlot (at_ 1 9 0) (at_ 1 10 0) 60 acceptable false]
        (deepWork 60 "High" (at_ 0 23 45)) 1.0%float = Some s)
  /\ alternative_slots
       (SchedulingService.failure no_slots
          "No available time slots found for this task" None) = None.
Proof.
  destruct (@no_slots_has_no_alternatives (quietHost (at_ 0 14 40) 9 17))
    as [Hsel Hout].
  split.
  - apply Hsel. discriminate.
  - apply (Hout (admin 600 "Low" (at_ 3 0 0)) w0 _ (mkWorld 33 [])).
    + vm_compute. reflexivity.
    + reflexivity.
Defined.
End Runs.

(** * Further properties of the services *)

(** ** More on the day slot generator *)

Section GeneratorWindow.
Context `{Host}.

Lemma setHours_span date h1 h2 :
  setHours date h2 0 0 0 - setHours date h1 0 0 0 = (h2 - h1) * msPerHour.
Proof. unfold setHours, msPerHour, msPerMinute. lia. Qed.

(** A date that is not in the past and falls on another local day than
    [now] has its local midnight after [now]. *)
Lemma later_day_midnight date now :
  now <= date ->
  toDateString date <> toDateString now ->
  now < date - localTime date mod msPerDay.
Proof.
  unfold toDateString, localTime, msPerDay. intros Hle Hday.
  pose proof (Z.div_mod (date + utcOffset) 86400000 ltac:(lia)) as D1.
  pose proof (Z.div_mod (now + utcOffset) 86400000 ltac:(lia)) as D2.
  pose proof (Z.mod_pos_bound (date + utcOffset) 86400000 ltac:(lia)) as B1.
  pose proof (Z.mod_pos_bound (now + utcOffset) 86400000 ltac:(lia)) as B2.
  assert (Hq : (now + utcOffset) / 86400000 <= (date + utcOffset) / 86400000)
    by (apply Z.div_le_mono; lia).
  lia.
Qed.

(** X1. Every slot of a day lies inside that day's working window, so a
    duration longer than the working day yields no slot. *)
Theorem slots_inside_work_window date dur ph w slots w' s :
  CalendarService.findSlotsForDay date dur ph w = (Ok slots, w') ->
  In s slots ->
  setHours date WORK_START_HOUR 0 0 0 <= start s
  /\ end_ s <= setHours date WORK_END_HOUR 0 0 0
  /\ dur * msPerMinute <= (WORK_END_HOUR - WORK_START_HOUR) * msPerHour.
Proof.
  intros Hrun Hin. apply findSlotsForDay_Ok in Hrun. cbv zeta in Hrun.
  destruct Hrun as [-> | [_ [base [Hbase Hall]]]]; [contradiction |].
  rewrite Forall_forall in Hall.
  destruct (Hall s Hin) as [E [_ [_ [[k [Hk Hs]] Hend]]]].
  assert (Hb : setHours date WORK_START_HOUR 0 0 0 <= base).
  { subst base. destruct (toDateString date =? _); lia. }
  pose proof (setHours_span date WORK_START_HOUR WORK_END_HOUR) as Hspan.
  unfold msPerMinute in *. repeat split; lia.
Qed.

(** X2. With a work day that starts at midnight or later, no slot starts at
    or before the instant at which the generator read the clock. *)
Theorem slots_start_in_the_future date dur ph w slots w' s :
  0 <= WORK_START_HOUR ->
  CalendarService.findSlotsForDay date dur ph w = (Ok slots, w') ->
  In s slots ->
  clock (ticks w) < start s.
Proof.
  intros Hws Hrun Hin. apply findSlotsForDay_Ok in Hrun. cbv zeta in Hrun.
  destruct Hrun as [-> | [Hdate [base [Hbase Hall]]]]; [contradiction |].
  rewrite Forall_forall in Hall.
  destruct (Hall s Hin) as [_ [_ [_ [[k [Hk Hs]] _]]]].
  destruct (toDateString date =? toDateString (clock (ticks w))) eqn:Eday.
  - subst base. lia.
  - apply Z.eqb_neq in Eday.
    assert (Hle : clock (ticks w) <= date) by lia.
    pose proof (later_day_midnight date (clock (ticks w)) Hle Eday) as Hmid.
    subst base. unfold setHours, msPerHour, msPerMinute in *. lia.
Qed.

Lemma StronglySorted_snoc {X} (R : X -> X -> Prop) l x :
  StronglySorted R l -> Forall (fun y => R y x) l -> StronglySorted R (l ++ [x]).
Proof.
  induction 1 as [| y l Hs IH Hy]; simpl; intros Hall.
  - constructor; constructor.
  - inversion Hall; subst. constructor; [apply IH; assumption |].
    apply Forall_app. split; [exact Hy | constructor; [assumption | constructor]].
Qed.

Lemma slotLoop_ordered workEnd dur ph fuel :
  forall cur acc w slots w',
    StronglySorted (fun a b => start a < start b) acc ->
    Forall (fun a => start a < cur) acc ->
    CalendarService.slotLoop fuel cur workEnd dur ph acc w = (Ok slots, w') ->
    StronglySorted (fun a b => start a < start b) slots.
Proof.
  induction fuel as [| fuel IH]; intros cur acc w slots w' Hs Hlt Hrun.
  - simpl in Hrun. destruct (cur <? workEnd); inversion Hrun. subst. exact Hs.
  - rewrite slotLoop_step in Hrun.
    destruct (cur <? workEnd); [| inversion Hrun; subst; exact Hs].
    destruct (negb (validDate (cur + dur * 60000))); [discriminate Hrun |].
    destruct (cur + dur * 60000 >? workEnd);
      [inversion Hrun; subst; exact Hs |].
    apply bind_Ok in Hrun. destruct Hrun as [r [w1 [_ Hrun]]].
    apply IH in Hrun; [exact Hrun | |].
    + destruct (negb (fst r)); [| exact Hs].
      apply StronglySorted_snoc; [exact Hs | exact Hlt].
    + unfold addMinutes, msPerMinute.
      destruct (negb (fst r)).
      * apply Forall_app. split.
        -- eapply Forall_impl; [| exact Hlt]. simpl. intros a Ha. lia.
        -- constructor; [simpl; lia | constructor].
      * eapply Forall_impl; [| exact Hlt]. simpl. intros a Ha. lia.
Qed.

(** X3. The slots of a day come in strictly increasing order of start time;
    no position is returned twice. *)
Theorem slots_in_start_order date dur ph w slots w' :
  CalendarService.findSlotsForDay date dur ph w = (Ok slots, w') ->
  StronglySorted (fun a b => start a < start b) slots.
Proof.
  unfold CalendarService.findSlotsForDay. intros Hrun.
  apply bind_Ok in Hrun. destruct Hrun as [now [w1 [_ Hrun]]].
  destruct (date <? now); [inversion Hrun; constructor |].
  apply bind_Ok in Hrun. destruct Hrun as [evs [w2 [_ Hrun]]].
  eapply slotLoop_ordered; [| | exact Hrun]; constructor.
Qed.
End GeneratorWindow.

Section GeneratorCalendar.
Context `{Host}.
Variable cal : Z -> Z -> list CalendarEvent.
Hypothesis Hsteady : steadyCalendar cal.

Lemma checkConflicts_free t e w :
  exists b cs,
    CalendarService.checkConflicts t e conflict_check_buffer w
    = (Ok (b, cs), tick w)
    /\ (b = false <-> freeOf cal t e).
Proof.
  eexists; eexists. split; [apply checkConflicts_run, Hsteady |].
  unfold freeOf. split.
  - intros Hb ev Hin Hday Hov.
    apply not_true_iff_false in Hb. apply Hb. apply nonempty_filter.
    exists ev. split; [exact Hin |]. apply isConflicting_spec. tauto.
  - intros Hfree. apply not_true_is_false. intros Hb.
    apply nonempty_filter in Hb. destruct Hb as [ev [Hin Hc]].
    apply isConflicting_spec in Hc. destruct Hc as [Hday Hov].
    apply (Hfree ev Hin Hday).
    destruct Hov as [[H1 H2] | Hov]; [| exact Hov].
    unfold Spec.overlaps, conflict_check_buffer. lia.
Qed.

Lemma offered_unfold cur workEnd dur ph s :
  offered cal cur workEnd dur ph s <->
  (cur < workEnd /\ cur + dur * 60000 <= workEnd
   /\ freeOf cal cur (cur + dur * 60000) /\ s = slotAt cur dur ph)
  \/ offered cal (cur + 30 * 60000) workEnd dur ph s.
Proof.
  unfold offered. split.
  - intros [k [Hk [Hs [Hlt [Hfit [Hfree Heq]]]]]].
    destruct (Z.eq_dec k 0) as [-> | Hpos].
    + left. replace (start s) with cur in * by lia. tauto.
    + right. exists (k - 1). repeat split; try assumption; lia.
  - intros [[Hlt [Hfit [Hfree Heq]]] | [k [Hk [Hs [Hlt [Hfit [Hfree Heq]]]]]]].
    + exists 0. subst s. simpl. repeat split; try assumption; try lia.
    + exists (k + 1). repeat split; try assumption; lia.
Qed.

Lemma offered_bounds cur workEnd dur ph s :
  offered cal cur workEnd dur ph s ->
  cur < workEnd /\ cur + dur * 60000 <= workEnd.
Proof. intros [k [Hk [Hs [Hlt [Hfit _]]]]]. lia. Qed.

Lemma slotLoop_offered workEnd dur ph fuel :
  forall cur acc w slots w',
    CalendarService.slotLoop fuel cur workEnd dur ph acc w = (Ok slots, w') ->
    forall s, In s slots <-> In s acc \/ offered cal cur workEnd dur ph s.
Proof.
  induction fuel as [| fuel IH]; intros cur acc w slots w' Hrun s.
  - simpl in Hrun. destruct (cur <? workEnd) eqn:Hlt; inversion Hrun; subst.
    apply Z.ltb_ge in Hlt. split; [auto |].
    intros [Hin | Hoff]; [exact Hin |]. apply offered_bounds in Hoff. lia.
  - rewrite slotLoop_step in Hrun.
    destruct (cur <? workEnd) eqn:Hlt.
    2: { inversion Hrun; subst. apply Z.ltb_ge in Hlt. split; [auto |].
         intros [Hin | Hoff]; [exact Hin |]. apply offered_bounds in Hoff. lia. }
    destruct (negb (validDate (cur + dur * 60000))); [discriminate Hrun |].
    destruct (cur + dur * 60000 >? workEnd) eqn:Hfit.
    { inversion Hrun; subst. apply Z.gtb_gt in Hfit. split; [auto |].
      intros [Hin | Hoff]; [exact Hin |]. apply offered_bounds in Hoff. lia. }
    apply Z.ltb_lt in Hlt. rewrite Z.gtb_ltb in Hfit. apply Z.ltb_ge in Hfit.
    destruct (checkConflicts_free cur (cur + dur * 60000) w) as [b [cs [Ec Hb]]].
    rewrite (bind_run _ _ _ _ _ Ec) in Hrun. simpl fst in Hrun.
    rewrite (IH _ _ _ _ _ Hrun s), (offered_unfold cur).
    unfold addMinutes, msPerMinute.
    destruct b; simpl.
    + assert (Hbusy : ~ freeOf cal cur (cur + dur * 60000))
        by (intros F; apply Hb in F; discriminate).
      tauto.
    + assert (Hfree : freeOf cal cur (cur + dur * 60000)) by (apply Hb; reflexivity).
      rewrite in_app_iff. simpl. unfold slotAt.
      split.
      * intros [[Hin | [Heq | []]] | Hoff].
        -- left. exact Hin.
        -- right. left. repeat split; [lia | lia | exact Hfree | symmetry; exact Heq].
        -- right. right. exact Hoff.
      * intros [Hin | [[_ [_ [_ Heq]]] | Hoff]].
        -- left. left. exact Hin.
        -- left. right. left. symmetry. exact Heq.
        -- right. exact Hoff.
Qed.

(** X4. With a calendar that answers consistently, the slots of a day that is
    not in the past are exactly the free positions of the 30-minute grid
    laid from the effective start that fit before the end of work. *)
Theorem day_slots_are_the_free_positions date dur ph w slots w' s :
  clock (ticks w) <= date ->
  CalendarService.findSlotsForDay date dur ph w = (Ok slots, w') ->
  let now := clock (ticks w) in
  let workStart := setHours date WORK_START_HOUR 0 0 0 in
  let effectiveStart :=
    if toDateString date =? toDateString now
    then Z.max workStart (now + 60 * msPerMinute) else workStart in
  In s slots <->
  offered cal effectiveStart (setHours date WORK_END_HOUR 0 0 0) dur ph s.
Proof.
  intros Hdate Hrun. cbv zeta.
  unfold CalendarService.findSlotsForDay in Hrun.
  rewrite (bind_run _ _ _ _ _ (eq_refl : newDate w = _)) in Hrun.
  replace (date <? clock (ticks w)) with false in Hrun
    by (symmetry; apply Z.ltb_ge; lia).
  cbv zeta in Hrun.
  apply bind_Ok in Hrun. destruct Hrun as [evs [w2 [_ Hrun]]].
  rewrite (slotLoop_offered _ _ _ _ _ _ _ _ _ Hrun s). simpl In.
  assert (Hbase :
            (if toDateString date =? toDateString (clock (ticks w))
             then if clock (ticks w) + 60 * 60 * 1000
                     >? setHours date WORK_START_HOUR 0 0 0
                  then clock (ticks w) + 60 * 60 * 1000
                  else setHours date WORK_START_HOUR 0 0 0
             else setHours date WORK_START_HOUR 0 0 0)
            = (if toDateString date =? toDateString (clock (ticks w))
               then Z.max (setHours date WORK_START_HOUR 0 0 0)
                          (clock (ticks w) + 60 * msPerMinute)
               else setHours date WORK_START_HOUR 0 0 0)).
  { destruct (toDateString date =? _); [| reflexivity]. unfold msPerMinute.
    destruct (_ >? _) eqn:G.
    - apply Z.gtb_gt in G. lia.
    - rewrite Z.gtb_ltb in G. apply Z.ltb_ge in G. lia. }
  rewrite Hbase. tauto.
Qed.
End GeneratorCalendar.

(** ** The search over the horizon *)

Section Horizon.
Context `{Host}.

Lemma slotLe_ranked a b : slotLe a b <-> rankedBefore a b.
Proof.
  unfold slotLe, rankedBefore, compareSlots. cbv zeta.
  destruct (qualityOrder (quality a) =? qualityOrder (quality b)) eqn:E; simpl.
  - apply Z.eqb_eq in E.
    assert (Hq : quality a = quality b)
      by (destruct (quality a), (quality b); simpl in E; try reflexivity; lia).
    split; [intros Hs; right; split; [exact Hq | lia] |].
    intros [Hlt | [_ Hs]]; lia.
  - apply Z.eqb_neq in E. split; [intros Hs; left; lia |].
    intros [Hlt | [Hq _]]; [lia | rewrite Hq in E; lia].
Qed.

Lemma sortSlots_ranked l : StronglySorted rankedBefore (sortSlots l).
Proof.
  pose proof (sortSlots_sorted l) as Hs.
  induction Hs as [| x xs Hs IH Hx]; constructor; [exact IH |].
  eapply Forall_impl; [| exact Hx]. intros y. apply slotLe_ranked.
Qed.

Lemma insertSlot_perm x l : Permutation (insertSlot x l) (x :: l).
Proof.
  induction l as [| y l IH]; simpl; [reflexivity |].
  destruct (compareSlots x y <=? 0); [reflexivity |].
  rewrite IH. apply perm_swap.
Qed.

Lemma sortSlots_perm l : Permutation (sortSlots l) l.
Proof.
  induction l as [| x l IH]; simpl; [reflexivity |].
  rewrite insertSlot_perm. constructor. exact IH.
Qed.

(** Every slot gathered by the look-ahead loop was returned by
    [findSlotsForDay] for a date [k] days after the current one and not
    after [endDate]. *)
Lemma dayLoop_from_days endDate dur ph fuel :
  forall cur acc w slots w',
    CalendarService.dayLoop fuel cur endDate dur ph acc w = (Ok slots, w') ->
    forall s, In s slots ->
      In s acc
      \/ exists k w1 daySlots w2,
          0 <= k /\ addDays cur k <= endDate
          /\ CalendarService.findSlotsForDay (addDays cur k) dur ph w1
             = (Ok daySlots, w2)
          /\ In s daySlots.
Proof.
  induction fuel as [| fuel IH]; intros cur acc w slots w' Hrun s Hin.
  - simpl in Hrun. destruct (cur <=? endDate); inversion Hrun. subst. auto.
  - rewrite dayLoop_step in Hrun.
    destruct (cur <=? endDate) eqn:Hle; [| inversion Hrun; subst; auto].
    apply Z.leb_le in Hle.
    apply bind_Ok in Hrun. destruct Hrun as [daySlots [w1 [Hday Hrun]]].
    destruct (IH _ _ _ _ _ Hrun s Hin) as [Hacc | [k [w2 [ds [w3 [Hk [Hend [Hd Hs]]]]]]]].
    + apply in_app_iff in Hacc. destruct Hacc as [Hacc | Hnew]; [auto |].
      right. exists 0, w, daySlots, w1.
      replace (addDays cur 0) with cur by (unfold addDays; lia).
      repeat split; try assumption; lia.
    + right. exists (k + 1), w2, ds, w3.
      replace (addDays cur (k + 1)) with (addDays (addDays cur 1) k)
        by (unfold addDays; lia).
      repeat split; try assumption; lia.
Qed.

(** X5. Every slot found by [findAvailableSlots] lies in the working window
    of a day that is a whole number of days after [startDate] and not
    after [endDate]: nothing is offered beyond the horizon. *)
Theorem search_stays_within_horizon startDate endDate dur ph w slots w' s :
  CalendarService.findAvailableSlots startDate endDate dur ph w = (Ok slots, w') ->
  In s slots ->
  exists k,
    0 <= k
    /\ addDays startDate k <= endDate
    /\ setHours (addDays startDate k) WORK_START_HOUR 0 0 0 <= start s
    /\ end_ s <= setHours (addDays startDate k) WORK_END_HOUR 0 0 0.
Proof.
  unfold CalendarService.findAvailableSlots. intros Hrun Hin.
  apply bind_Ok in Hrun. destruct Hrun as [raw [w1 [Hraw Hret]]].
  inversion Hret; subst. apply (proj1 (sortSlots_In _ _)) in Hin.
  destruct (dayLoop_from_days _ _ _ _ _ _ _ _ _ Hraw s Hin)
    as [[] | [k [w2 [ds [w3 [Hk [Hend [Hd Hs]]]]]]]].
  exists k. split; [exact Hk |]. split; [exact Hend |].
  apply findSlotsForDay_Ok in Hd. cbv zeta in Hd.
  destruct Hd as [-> | [_ [base [Hbase Hall]]]]; [contradiction |].
  rewrite Forall_forall in Hall.
  destruct (Hall s Hs) as [_ [_ [_ [[j [Hj Hst]] Hfit]]]].
  split; [| exact Hfit].
  subst base. destruct (toDateString _ =? _); lia.
Qed.

(** X6. [findAvailableSlots] returns its slots best tier first and, within a
    tier, earliest first. *)
Theorem search_result_is_ranked startDate endDate dur ph w slots w' :
  CalendarService.findAvailableSlots startDate endDate dur ph w = (Ok slots, w') ->
  StronglySorted rankedBefore slots.
Proof.
  unfold CalendarService.findAvailableSlots. intros Hrun.
  apply bind_Ok in Hrun. destruct Hrun as [raw [w1 [_ Hret]]].
  inversion Hret. apply sortSlots_ranked.
Qed.

(** X7. The search ends for every range and duration, with the list of
    slots or with an exception: both loops finish. It ends with the list
    when the calendar answers every request, the clock, the time zone
    and the work hours are ordinary, the range lies within 4 * 10^15 ms
    of the epoch (14 days more for its end) and the duration is between
    0 and 4 * 10^15 ms. *)
Theorem search_terminates startDate endDate dur ph w :
  ((exists slots w',
       CalendarService.findAvailableSlots startDate endDate dur ph w
       = (Ok slots, w'))
   \/ (exists e w',
          CalendarService.findAvailableSlots startDate endDate dur ph w
          = (Throw e, w')))
  /\ (calendarUp ->
      ordinaryTimes ->
      - 4000000000000000 <= startDate ->
      endDate <= 4000000000000000 + 14 * msPerDay ->
      0 <= dur * 60000 <= 4000000000000000 ->
      exists slots w',
        CalendarService.findAvailableSlots startDate endDate dur ph w
        = (Ok slots, w')).
Proof.
  split; [apply findAvailableSlots_ends |].
  intros Hup Htimes Hstart Hend Hdur.
  apply (settles_up (calendarUp /\ ordinaryTimes)); [| tauto].
  apply findAvailableSlots_settles; [tauto |].
  intros _ date Hdate. apply bounded_slot_ends; [exact Htimes | exact Hdur | lia].
Qed.

Lemma search_result_ranked_head l :
  match l with
  | [] => True
  | h :: t =>
    StronglySorted rankedBefore (h :: t) ->
    forall s', In s' (h :: t) -> rankedBefore h s'
  end.
Proof.
  destruct l as [| h t]; [exact I |]. intros Hs s' [<- | Hin].
  - right. split; [reflexivity | lia].
  - inversion Hs as [| ? ? _ Hh]; subst. rewrite Forall_forall in Hh. auto.
Qed.

(** X8. [getNextAvailableSlot] returns [null] exactly when the search over
    [maxDays] days finds nothing, and otherwise a slot no other found
    slot is ranked before: of the best tier present and, in that tier,
    of the earliest start. *)
Theorem next_slot_is_best dur ph maxDays w r w' :
  CalendarService.getNextAvailableSlot dur ph maxDays w = (Ok r, w') ->
  exists slots,
    CalendarService.findAvailableSlots
      (clock (ticks w)) (addDays (clock (S (ticks w))) maxDays) dur ph
      (tick (tick w)) = (Ok slots, w')
    /\ match r with
       | None => slots = []
       | Some s => In s slots /\ forall s', In s' slots -> rankedBefore s s'
       end.
Proof.
  unfold CalendarService.getNextAvailableSlot. intros Hrun.
  rewrite (bind_run _ _ _ _ _ (eq_refl : newDate w = _)) in Hrun.
  rewrite (bind_run _ _ _ _ _ (eq_refl : newDate (tick w) = _)) in Hrun.
  cbv zeta in Hrun. apply bind_Ok in Hrun.
  destruct Hrun as [slots [w1 [Hfind Hret]]].
  inversion Hret; subst. exists slots. split; [exact Hfind |].
  pose proof (search_result_ranked_head slots) as Hhead.
  destruct slots as [| h t]; [reflexivity |].
  replace (Z.of_nat (List.length (h :: t)) >? 0) with true
    by (symmetry; apply Z.gtb_gt; simpl List.length; lia).
  simpl. split; [left; reflexivity |].
  apply Hhead. unfold CalendarService.findAvailableSlots in Hfind.
  apply bind_Ok in Hfind. destruct Hfind as [raw [w2 [_ Hr]]].
  inversion Hr. apply sortSlots_ranked.
Qed.
End Horizon.

(** ** More on the two scorers *)

Section Scorers.
Context `{Host}.

Ltac case_ifs :=
  repeat match goal with
         | |- context [if ?c then _ else _] => destruct c eqn:?
         end.

(** X9. The generator's tier is [excellent] only at a preferred hour, and a
    slot of at most 30 minutes that starts at 15:00 or later is
    [acceptable] whatever the preferred hours are. *)
Theorem generator_tier_facts t ph dur :
  (CalendarService.calculateSlotQuality t ph dur = excellent ->
   includes ph (getHours t) = true)
  /\ (dur <= 30 -> 15 <= getHours t ->
      CalendarService.calculateSlotQuality t ph dur = acceptable)
  /\ (120 <= dur -> 9 <= getHours t <= 14 ->
      tierAtLeast (CalendarService.calculateSlotQuality t ph dur) good).
Proof.
  unfold CalendarService.calculateSlotQuality, tierAtLeast. cbv zeta.
  split; [| split].
  - destruct (includes ph (getHours t)); [reflexivity |].
    destruct (existsb _ ph); simpl; case_ifs; discriminate.
  - intros Hd Hh.
    replace (dur >=? 120) with false
      by (symmetry; rewrite Z.geb_leb; apply Z.leb_gt; lia).
    replace (dur <=? 30) with true by (symmetry; apply Z.leb_le; lia).
    replace (getHours t >=? 15) with true
      by (symmetry; rewrite Z.geb_leb; apply Z.leb_le; lia).
    simpl. destruct (includes ph (getHours t)); [reflexivity |].
    destruct (existsb _ ph); reflexivity.
  - intros Hd [Hlo Hhi].
    replace (dur >=? 120) with true
      by (symmetry; rewrite Z.geb_leb; apply Z.leb_le; lia).
    replace (getHours t >=? 9) with true
      by (symmetry; rewrite Z.geb_leb; apply Z.leb_le; lia).
    replace (getHours t <=? 14) with true by (symmetry; apply Z.leb_le; lia).
    simpl. destruct (includes ph (getHours t)); [simpl; lia |].
    destruct (existsb _ ph); simpl; lia.
Qed.

(** X11. The scheduling service's tier: a slot at a preferred hour of the
    profile is [excellent]; a Deep Work slot of two hours or more is at
    least [good]; so is every slot of a task created within the hour
    before the clock is read. *)
Theorem scorer_tier_facts slot task cfg w :
  exists q w',
    SchedulingService.calculateSlotQuality slot task cfg w = (Ok q, w')
    /\ (includes (preferred_hours cfg) (getHours (start slot)) = true ->
        q = excellent)
    /\ (focus_type task = "Deep Work" -> 120 <= duration slot ->
        tierAtLeast q good)
    /\ (forall createdTime,
           created_at task = Some createdTime ->
           clock (ticks w) - createdTime < msPerHour ->
           tierAtLeast q good).
Proof.
  unfold SchedulingService.calculateSlotQuality, bind, newDate, ret,
    SchedulingService.withinLastHour, tierAtLeast.
  cbv zeta.
  destruct (includes (preferred_hours cfg) (getHours (start slot))) eqn:Einc;
    try destruct (existsb _ (preferred_hours cfg));
    destruct ((focus_type task =? "Deep Work")%string) eqn:Efocus;
    destruct (duration slot >=? 120) eqn:Edur;
    destruct ((priority task =? "High")%string);
    destruct (created_at task) as [c |] eqn:Ec;
    destruct (last_edited_time task) as [e |];
    simpl;
    repeat (match goal with
            | |- context [if ?a <? ?b then _ else _] => destruct (a <? b) eqn:?
            end; simpl);
    eexists; eexists; (split; [reflexivity |]);
      (split; [intros Hinc; first [reflexivity | discriminate] |]);
      (split;
       [ intros Hf Hd;
         try (apply String.eqb_neq in Efocus; contradiction);
         try (rewrite Z.geb_leb in Edur; apply Z.leb_gt in Edur; lia);
         simpl; lia
       | intros c0 Hc Hfresh; try discriminate;
         inversion Hc; subst c0; unfold msPerHour in Hfresh;
         try (match goal with
              | E : (_ <? _) = false |- _ => apply Z.ltb_ge in E; lia
              end);
         simpl; lia ]).
Qed.
End Scorers.

(** ** Filtering and re-scoring *)

Section Filtering.
Context `{Host}.

Lemma mapM_provenance {A B} (f : A -> M B) :
  forall l w ys w',
    mapM f l w = (Ok ys, w') ->
    Forall2 (fun x y => exists w0 w1, f x w0 = (Ok y, w1)) l ys.
Proof.
  induction l as [| x l IH]; simpl; intros w ys w' E.
  - inversion E. constructor.
  - apply bind_Ok in E. destruct E as [y [w1 [Ey E]]].
    apply bind_Ok in E. destruct E as [ys0 [w2 [Eys E]]].
    inversion E; subst. constructor; [exists w, w1; exact Ey | eapply IH, Eys].
Qed.

(** What [filterAndScoreSlots] does to one kept slot. *)
Lemma rescored_slot x task cfg w0 y w1 :
  bind (SchedulingService.calculateSlotQuality x task cfg)
       (fun q => ret (mkTimeSlot (start x) (end_ x) (duration x) q (conflicts x)))
       w0 = (Ok y, w1) ->
  window y = window x
  /\ exists w2, SchedulingService.calculateSlotQuality x task cfg w0
                = (Ok (quality y), w2).
Proof.
  intros E. apply bind_Ok in E. destruct E as [q [w2 [Eq E]]].
  inversion E; subst. split; [reflexivity |]. exists w1. exact Eq.
Qed.

Lemma filterAndScoreSlots_provenance slots task cfg w scored w' :
  SchedulingService.filterAndScoreSlots slots task cfg w = (Ok scored, w') ->
  exists rescored,
    scored = sortSlots rescored
    /\ Forall2 (fun x y =>
                  window y = window x
                  /\ exists w0 w2,
                      SchedulingService.calculateSlotQuality x task cfg w0
                      = (Ok (quality y), w2))
               (filter (SchedulingService.keepSlot task cfg) slots) rescored.
Proof.
  unfold SchedulingService.filterAndScoreSlots. intros Hrun.
  apply bind_Ok in Hrun. destruct Hrun as [rescored [w1 [Hmap Hret]]].
  inversion Hret; subst. exists rescored. split; [reflexivity |].
  apply mapM_provenance in Hmap.
  eapply Forall2_impl; [| exact Hmap]. simpl.
  intros x y [w0 [w2 E]]. apply rescored_slot in E.
  destruct E as [Hw [w3 Eq]]. split; [exact Hw |]. exists w0, w3. exact Eq.
Qed.

Lemma Forall2_map_eq {A B C} (f : A -> C) (g : B -> C) l l' :
  Forall2 (fun x y => g y = f x) l l' -> map g l' = map f l.
Proof. induction 1; simpl; congruence. Qed.

Lemma Forall2_right_In {A B} (R : A -> B -> Prop) l l' y :
  Forall2 R l l' -> In y l' -> exists x, In x l /\ R x y.
Proof.
  induction 1 as [| x0 y0 l l' Hxy _ IH]; simpl; [contradiction |].
  intros [<- | Hin]; [exists x0; auto |].
  destruct (IH Hin) as [x [Hx Hr]]. exists x. auto.
Qed.

(** X12. [filterAndScoreSlots] returns the kept slots, each with its start,
    end, duration and conflict flag unchanged, ranked by the new tier;
    every returned slot has a duration within the bounds of the
    profile. *)
Theorem rescoring_keeps_the_windows slots task cfg w scored w' :
  SchedulingService.filterAndScoreSlots slots task cfg w = (Ok scored, w') ->
  Permutation (map window scored)
              (map window (filter (SchedulingService.keepSlot task cfg) slots))
  /\ StronglySorted rankedBefore scored
  /\ forall s, In s scored ->
               min_duration cfg <= duration s <= max_duration cfg.
Proof.
  intros Hrun.
  destruct (filterAndScoreSlots_provenance _ _ _ _ _ _ Hrun)
    as [rescored [-> Hprov]].
  assert (Hwin : map window rescored
                 = map window (filter (SchedulingService.keepSlot task cfg) slots)).
  { apply Forall2_map_eq. eapply Forall2_impl; [| exact Hprov].
    simpl. intros x y [Hw _]. exact Hw. }
  split; [rewrite <- Hwin; apply Permutation_map, sortSlots_perm |].
  split; [apply sortSlots_ranked |].
  intros s Hin. apply (proj1 (sortSlots_In _ _)) in Hin.
  destruct (Forall2_right_In _ _ _ _ Hprov Hin) as [x [Hx [Hw _]]].
  apply filter_In in Hx. destruct Hx as [_ Hkeep].
  unfold window in Hw. inversion Hw as [[Hs He Hd Hc]]. rewrite Hd.
  unfold SchedulingService.keepSlot in Hkeep.
  destruct (duration x <? min_duration cfg) eqn:E1; [discriminate |].
  destruct (duration x >? max_duration cfg) eqn:E2; [discriminate |].
  apply Z.ltb_ge in E1. rewrite Z.gtb_ltb in E2. apply Z.ltb_ge in E2. lia.
Qed.

Lemma filter_all {X} (f : X -> bool) l :
  (forall x, In x l -> f x = true) -> filter f l = l.
Proof.
  induction l as [| x l IH]; simpl; intros Hall; [reflexivity |].
  rewrite (Hall x (or_introl eq_refl)). f_equal. apply IH. auto.
Qed.

(** X13. For a High-priority task, no slot whose duration is within the
    bounds of the profile is dropped, whatever its hour. *)
Theorem high_priority_keeps_every_hour slots task cfg w scored w' :
  priority task = "High" ->
  (forall x, In x slots -> min_duration cfg <= duration x <= max_duration cfg) ->
  SchedulingService.filterAndScoreSlots slots task cfg w = (Ok scored, w') ->
  Permutation (map window scored) (map window slots).
Proof.
  intros Hhigh Hdur Hrun.
  destruct (filterAndScoreSlots_provenance _ _ _ _ _ _ Hrun)
    as [rescored [-> Hprov]].
  rewrite filter_all in Hprov.
  - assert (Hwin : map window rescored = map window slots).
    { apply Forall2_map_eq. eapply Forall2_impl; [| exact Hprov].
      simpl. intros x y [Hw _]. exact Hw. }
    rewrite <- Hwin. apply Permutation_map, sortSlots_perm.
  - intros x Hx. unfold SchedulingService.keepSlot. specialize (Hdur x Hx).
    replace (duration x <? min_duration cfg) with false
      by (symmetry; apply Z.ltb_ge; lia).
    replace (duration x >? max_duration cfg) with false
      by (symmetry; rewrite Z.gtb_ltb; apply Z.ltb_ge; lia).
    rewrite Hhigh. reflexivity.
Qed.

Lemma calculateSlotQuality_preferred slot task cfg w q w' :
  includes (preferred_hours cfg) (getHours (start slot)) = true ->
  SchedulingService.calculateSlotQuality slot task cfg w = (Ok q, w') ->
  q = excellent.
Proof.
  intros Hinc. unfold SchedulingService.calculateSlotQuality, bind, newDate, ret.
  cbv zeta. rewrite Hinc.
  destruct ((focus_type task =? "Deep Work")%string && (duration slot >=? 120));
    destruct ((priority task =? "High")%string);
    destruct (created_at task), (last_edited_time task); simpl;
    repeat (match goal with
            | |- context [if ?c then _ else _] => destruct c
            end; simpl);
    intros E; inversion E; reflexivity.
Qed.

(** X14. For a task that is neither High priority nor flexible, every
    candidate starts at a preferred hour of the profile and is therefore
    of tier [excellent]. *)
Theorem rigid_task_gets_preferred_hours_only slots task cfg w scored w' s :
  priority task <> "High" ->
  flexible task = false ->
  SchedulingService.filterAndScoreSlots slots task cfg w = (Ok scored, w') ->
  In s scored ->
  includes (preferred_hours cfg) (getHours (start s)) = true
  /\ quality s = excellent.
Proof.
  intros Hprio Hflex Hrun Hin.
  destruct (filterAndScoreSlots_provenance _ _ _ _ _ _ Hrun)
    as [rescored [-> Hprov]].
  apply (proj1 (sortSlots_In _ _)) in Hin.
  destruct (Forall2_right_In _ _ _ _ Hprov Hin) as [x [Hx [Hw [w0 [w2 Eq]]]]].
  apply filter_In in Hx. destruct Hx as [_ Hkeep].
  assert (Hinc : includes (preferred_hours cfg) (getHours (start x)) = true).
  { unfold SchedulingService.keepSlot in Hkeep.
    destruct (duration x <? min_duration cfg); [discriminate |].
    destruct (duration x >? max_duration cfg); [discriminate |].
    cbv zeta in Hkeep. apply String.eqb_neq in Hprio. rewrite Hprio, Hflex in Hkeep.
    rewrite orb_false_r in Hkeep. exact Hkeep. }
  unfold window in Hw. inversion Hw as [[Hs He Hd Hc]]. rewrite Hs.
  split; [exact Hinc |].
  apply (calculateSlotQuality_preferred _ _ _ _ _ _ Hinc Eq).
Qed.
End Filtering.

(** ** Preferred hours, urgency and selection *)

Section Preferences.
Context `{Host}.

(** What [timeMapping[time]] is, name by name. *)
Lemma timeMapping_cases time :
  (In time ["morning"; "afternoon"; "evening"]
   /\ inheritedKey time = false
   /\ exists hs, SchedulingService.timeMapping time = Own hs
                 /\ hs <> [] /\ forall h, In h hs -> 9 <= h <= 19)
  \/ (~ In time ["morning"; "afternoon"; "evening"]
      /\ inheritedKey time = true
      /\ SchedulingService.timeMapping time = Inherited)
  \/ (~ In time ["morning"; "afternoon"; "evening"]
      /\ inheritedKey time = false
      /\ SchedulingService.timeMapping time = Missing).
Proof.
  unfold SchedulingService.timeMapping.
  destruct (String.eqb_spec time "morning") as [-> | N1].
  { left. split; [simpl; auto |]. split; [reflexivity |].
    eexists. split; [reflexivity |]. split; [discriminate |].
    simpl. intuition lia. }
  destruct (String.eqb_spec time "afternoon") as [-> | N2].
  { left. split; [simpl; auto |]. split; [reflexivity |].
    eexists. split; [reflexivity |]. split; [discriminate |].
    simpl. intuition lia. }
  destruct (String.eqb_spec time "evening") as [-> | N3].
  { left. split; [simpl; auto |]. split; [reflexivity |].
    eexists. split; [reflexivity |]. split; [discriminate |].
    simpl. intuition lia. }
  assert (Hno : ~ In time ["morning"; "afternoon"; "evening"])
    by (simpl; intuition congruence).
  destruct (inheritedKey time); [right; left | right; right]; auto.
Qed.

(** The [forEach] throws exactly when it meets an inherited member. *)
Lemma collectHours_throws names :
  forall acc,
    (exists msg, SchedulingService.collectHours names acc = inl msg) <->
    (exists time, In time names /\ inheritedKey time = true).
Proof.
  induction names as [| name rest IH]; intros acc; simpl.
  - split; [intros [msg E]; discriminate | intros [time [[] _]]].
  - destruct (timeMapping_cases name)
      as [[_ [Hkey [hs [-> _]]]] | [[_ [Hkey ->]] | [_ [Hkey ->]]]].
    + rewrite IH. split; intros [time [Hin Ht]]; exists time.
      * split; [right; exact Hin | exact Ht].
      * destruct Hin as [<- | Hin]; [congruence | split; [exact Hin | exact Ht]].
    + split; [| intros _; eexists; reflexivity].
      intros _. exists name. split; [left; reflexivity | exact Hkey].
    + rewrite IH. split; intros [time [Hin Ht]]; exists time.
      * split; [right; exact Hin | exact Ht].
      * destruct Hin as [<- | Hin]; [congruence | split; [exact Hin | exact Ht]].
Qed.

(** What the [forEach] adds to [hours] when it does not throw. *)
Lemma collectHours_adds names :
  forall acc hours,
    SchedulingService.collectHours names acc = inr hours ->
    exists added,
      hours = acc ++ added
      /\ (forall h, In h added -> 9 <= h <= 19)
      /\ ((forall time, In time names ->
                        ~ In time ["morning"; "afternoon"; "evening"]) ->
          added = []).
Proof.
  induction names as [| name rest IH]; intros acc hours; simpl.
  - intros E. inversion E; subst. exists []. rewrite app_nil_r.
    split; [reflexivity |]. split; [intros h [] | reflexivity].
  - destruct (timeMapping_cases name)
      as [[Hday [_ [hs [-> [_ Hhs]]]]] | [[_ [_ ->]] | [_ [_ ->]]]].
    + intros E. destruct (IH _ _ E) as [added [-> [Hrange Hnone]]].
      exists (hs ++ added). rewrite app_assoc. split; [reflexivity |]. split.
      * intros h Hin. apply in_app_or in Hin. destruct Hin; auto.
      * intros Hno. exfalso. apply (Hno name); [left; reflexivity | exact Hday].
    + discriminate.
    + intros E. destruct (IH _ _ E) as [added [-> [Hrange Hnone]]].
      exists added. split; [reflexivity |]. split; [exact Hrange |].
      intros Hno. apply Hnone. intros time Hin. apply Hno. right. exact Hin.
Qed.

(** X16. [convertPreferredTimesToHours] throws exactly when a preferred
    time names a member inherited from [Object.prototype]. When it
    returns, the list is not empty and holds only hours from 9 to 19; for
    the domain Work, or when no name is morning, afternoon or evening,
    it is the hours 9 to 16 whatever was asked. *)
Theorem preferred_hours_are_day_hours preferredTimes domain :
  ((exists msg,
       SchedulingService.convertPreferredTimesToHours preferredTimes domain
       = inl msg)
   <-> exists time, In time preferredTimes /\ inheritedKey time = true)
  /\ (forall hours,
         SchedulingService.convertPreferredTimesToHours preferredTimes domain
         = inr hours ->
         hours <> []
         /\ (forall h, In h hours -> 9 <= h <= 19)
         /\ (domain = Some "Work" -> hours = [9; 10; 11; 12; 13; 14; 15; 16])
         /\ ((forall time, In time preferredTimes ->
                           ~ In time ["morning"; "afternoon"; "evening"]) ->
             hours = [9; 10; 11; 12; 13; 14; 15; 16])).
Proof.
  unfold SchedulingService.convertPreferredTimesToHours. split.
  - rewrite <- (collectHours_throws preferredTimes []).
    destruct (SchedulingService.collectHours preferredTimes []) as [msg | hs].
    + split; intros _; exists msg; reflexivity.
    + split; intros [msg E]; discriminate.
  - intros hours.
    destruct (SchedulingService.collectHours preferredTimes []) as [msg | hs] eqn:E;
      [discriminate |].
    destruct (collectHours_adds _ _ _ E) as [added [-> [Hrange Hnone]]].
    simpl app. intros Hret. inversion Hret as [Hhours]. clear Hret.
    split; [| split; [| split]].
    + destruct added as [| h0 rest]; simpl; [discriminate |].
      destruct domain as [d |]; [destruct ((d =? "Work")%string) |];
        simpl; discriminate.
    + intros h.
      destruct (Z.of_nat (List.length added) =? 0) eqn:E0; simpl.
      * simpl. intuition lia.
      * destruct (match domain with Some d => (d =? "Work")%string | None => false end).
        -- simpl. intuition lia.
        -- destruct (Z.of_nat (List.length added) >? 0); [apply Hrange |].
           simpl. intuition lia.
    + intros ->. simpl. rewrite orb_true_r. reflexivity.
    + intros Hno. rewrite (Hnone Hno). reflexivity.
Qed.

Ltac eval_threshold :=
  match goal with
  | |- context [(0.8 <? ?x)%float] =>
    let v := eval vm_compute in (0.8 <? x)%float in
    replace (0.8 <? x)%float with v by (vm_compute; reflexivity)
  end.

(** X17. Which tasks take the urgent branch of the selection: every
    High-priority task, a Medium-priority task due within 7 days, and a
    Low-priority task due within 3 days. *)
Theorem urgency_threshold task w :
  In (priority task) ["High"; "Medium"; "Low"] ->
  let daysUntilDue := Z.quot (due_date task - clock (ticks w)) msPerDay in
  exists u,
    SchedulingService.calculateUrgency task w = (Ok u, tick w)
    /\ ((0.8 <? u)%float = true <->
        priority task = "High"
        \/ (priority task = "Medium" /\ daysUntilDue <= 7)
        \/ (priority task = "Low" /\ daysUntilDue <= 3)).
Proof.
  intros Hp. cbv zeta.
  unfold SchedulingService.calculateUrgency, bind, newDate, ret.
  eexists. split; [reflexivity |].
  set (d := Z.quot (due_date task - clock (ticks w)) msPerDay).
  destruct Hp as [<- | [<- | [<- | []]]];
    destruct (d <=? 0) eqn:E0; try destruct (d <=? 1) eqn:E1;
      try destruct (d <=? 3) eqn:E3; try destruct (d <=? 7) eqn:E7;
        eval_threshold;
        repeat match goal with
               | E : (_ <=? _) = true |- _ => apply Z.leb_le in E
               | E : (_ <=? _) = false |- _ => apply Z.leb_gt in E
               end;
        (split;
         [ intros Hu; try discriminate Hu;
           first [ left; reflexivity
                 | right; left; split; [reflexivity | lia]
                 | right; right; split; [reflexivity | lia] ]
         | intros [Hh | [[Hm Hd] | [Hl Hd]]];
           try reflexivity; try discriminate; lia ]).
Qed.

Ltac eval_leb :=
  match goal with
  | |- (?x <=? ?y)%float = true => vm_compute; reflexivity
  end.

(** X18. For a fixed priority, fewer days until due never give a lower
    urgency: the score is monotone in [daysUntilDue]. *)
Theorem urgency_is_monotone_in_days task1 task2 w :
  In (priority task1) ["High"; "Medium"; "Low"] ->
  priority task2 = priority task1 ->
  let daysUntilDue1 := Z.quot (due_date task1 - clock (ticks w)) msPerDay in
  let daysUntilDue2 := Z.quot (due_date task2 - clock (ticks w)) msPerDay in
  daysUntilDue1 <= daysUntilDue2 ->
  exists u1 u2,
    SchedulingService.calculateUrgency task1 w = (Ok u1, tick w)
    /\ SchedulingService.calculateUrgency task2 w = (Ok u2, tick w)
    /\ (u2 <=? u1)%float = true.
Proof.
  intros Hp Hsame. cbv zeta. intros Hd.
  unfold SchedulingService.calculateUrgency, bind, newDate, ret.
  eexists; eexists. split; [reflexivity |]. split; [reflexivity |].
  rewrite Hsame.
  set (d1 := Z.quot (due_date task1 - clock (ticks w)) msPerDay) in *.
  set (d2 := Z.quot (due_date task2 - clock (ticks w)) msPerDay) in *.
  clearbody d1 d2.
  destruct Hp as [<- | [<- | [<- | []]]];
    destruct (d1 <=? 0) eqn:A0; try destruct (d1 <=? 1) eqn:A1;
      try destruct (d1 <=? 3) eqn:A3; try destruct (d1 <=? 7) eqn:A7;
        destruct (d2 <=? 0) eqn:B0; try destruct (d2 <=? 1) eqn:B1;
          try destruct (d2 <=? 3) eqn:B3; try destruct (d2 <=? 7) eqn:B7;
            repeat match goal with
                   | E : (_ <=? _) = true |- _ => apply Z.leb_le in E
                   | E : (_ <=? _) = false |- _ => apply Z.leb_gt in E
                   end;
            first [ exfalso; lia | vm_compute; reflexivity ].
Qed.

(** X19. The slot chosen by [selectBestSlot] is one of the candidates, and in
    the urgent branch it is of tier [excellent] or [good] whenever some
    candidate is. *)
Theorem selection_picks_a_candidate slots task u s :
  SchedulingService.selectBestSlot slots task u = Some s ->
  In s slots
  /\ ((0.8 <? u)%float = true ->
      (exists g, In g slots /\ (quality g = excellent \/ quality g = good)) ->
      quality s = excellent \/ quality s = good).
Proof.
  unfold SchedulingService.selectBestSlot.
  destruct slots as [| slot0 rest]; [discriminate |].
  destruct (0.8 <? u)%float.
  - destruct (filter _ (slot0 :: rest)) as [| g gs] eqn:E; intros Hs;
      inversion Hs; subst.
    + split; [left; reflexivity |]. intros _ [g [Hin Hq]].
      assert (Hf : In g (@nil TimeSlot)); [| contradiction].
      rewrite <- E. apply filter_In. split; [exact Hin |].
      destruct Hq as [-> | ->]; reflexivity.
    + assert (Hf : In s (s :: gs)) by (left; reflexivity).
      rewrite <- E in Hf. apply filter_In in Hf. destruct Hf as [Hin Hq].
      split; [exact Hin |]. intros _ _.
      destruct (quality s); simpl in Hq; try discriminate; auto.
  - intros Hs. inversion Hs; subst. split; [left; reflexivity |].
    intros Hu. discriminate.
Qed.
End Preferences.

(** ** Conflicts, validation and the Notion database *)

Section Checks.
Context `{Host}.

(** X10. The events reported by [checkConflicts] are events of the calendar's
    answer that are not all-day events; a conflict is flagged exactly
    when that list is not empty, so a calendar holding only all-day
    events never blocks a window. *)
Theorem all_day_events_never_conflict startTime endTime bufferMinutes busy w :
  events_list (ticks w) (startTime - bufferMinutes * 60000)
              (endTime + bufferMinutes * 60000) = inr busy ->
  exists hasConflicts conflictingEvents,
    CalendarService.checkConflicts startTime endTime bufferMinutes w
    = (Ok (hasConflicts, conflictingEvents), tick w)
    /\ (hasConflicts = true <-> conflictingEvents <> [])
    /\ (forall ev, In ev conflictingEvents -> In ev busy /\ allDay ev = false)
    /\ ((forall ev, In ev busy -> allDay ev = true) ->
        hasConflicts = false /\ conflictingEvents = []).
Proof.
  intros E. eexists; eexists.
  split; [apply (checkConflicts_run _ _ _ _ _ E) |].
  set (cs := filter _ busy).
  split; [| split].
  - rewrite Z.ltb_lt. destruct cs; simpl; split; intros; try lia; congruence.
  - intros ev Hin. subst cs. apply filter_In in Hin. destruct Hin as [Hin Hc].
    split; [exact Hin |]. apply isConflicting_spec in Hc. tauto.
  - intros Hall.
    assert (Hnil : cs = []).
    { subst cs. apply filter_none. apply Forall_forall. intros ev Hin.
      unfold CalendarService.isConflicting. rewrite (Hall ev Hin). reflexivity. }
    rewrite Hnil. split; reflexivity.
Qed.



(** X26. [validateDatabase] answers true exactly when the database could be
    retrieved and has the properties Planned, Estimates and Scheduling
    Message, whatever else it has and in whatever order. *)
Theorem validateDatabase_requires_three_properties response :
  NotionService.validateDatabase response = true <->
  exists existing,
    response = inr existing
    /\ In "Planned" existing
    /\ In "Estimates" existing
    /\ In "Scheduling Message" existing.
Proof.
  unfold NotionService.validateDatabase.
  destruct response as [msg | existing];
    [split; [discriminate | intros [ex [E _]]; discriminate] |].
  assert (Hin : forall prop,
             existsb (String.eqb prop) existing = true <-> In prop existing).
  { intros prop. rewrite existsb_exists. split.
    - intros [x [Hx E]]. apply String.eqb_eq in E. subst x. exact Hx.
    - intros Hx. exists prop. split; [exact Hx | apply String.eqb_refl]. }
  unfold NotionService.requiredProperties. cbn [filter].
  pose proof (Hin "Planned") as H1. pose proof (Hin "Estimates") as H2.
  pose proof (Hin "Scheduling Message") as H3.
  destruct (existsb (String.eqb "Planned") existing),
           (existsb (String.eqb "Estimates") existing),
           (existsb (String.eqb "Scheduling Message") existing); simpl;
    (split;
     [ intros E; try discriminate E; exists existing;
       (split; [reflexivity |]); (split; [apply H1; reflexivity |]);
       (split; [apply H2; reflexivity | apply H3; reflexivity])
     | intros [ex [E [I1 [I2 I3]]]]; inversion E; subst ex;
       try reflexivity;
       try (apply H1 in I1; discriminate);
       try (apply H2 in I2; discriminate);
       try (apply H3 in I3; discriminate) ]).
Qed.
End Checks.

(** ** The outcomes of [scheduleTask] *)

Section Outcomes.
Context `{Host}.

Lemma findAvailableSlots_shape startDate endDate dur ph w slots w' s :
  CalendarService.findAvailableSlots startDate endDate dur ph w = (Ok slots, w') ->
  In s slots ->
  end_ s - start s = dur * 60000 /\ duration s = dur /\ conflicts s = false.
Proof.
  unfold CalendarService.findAvailableSlots. intros Hrun Hin.
  apply bind_Ok in Hrun. destruct Hrun as [raw [w1 [Hraw Hret]]].
  inversion Hret; subst. apply (proj1 (sortSlots_In _ _)) in Hin.
  destruct (dayLoop_from_days _ _ _ _ _ _ _ _ _ Hraw s Hin)
    as [[] | [k [w2 [ds [w3 [_ [_ [Hd Hs]]]]]]]].
  apply findSlotsForDay_Ok in Hd. cbv zeta in Hd.
  destruct Hd as [-> | [_ [base [_ Hall]]]]; [contradiction |].
  rewrite Forall_forall in Hall.
  destruct (Hall s Hs) as [E [D [C _]]]. auto.
Qed.

Lemma findOptimalTimeSlots_shape task cfg w slots w' s :
  SchedulingService.findOptimalTimeSlots task cfg w = (Ok slots, w') ->
  In s slots ->
  let dur := Z.max (estimated_duration task) (min_duration cfg) in
  end_ s - start s = dur * 60000
  /\ duration s = dur
  /\ dur <= max_duration cfg
  /\ conflicts s = false
  /\ quality s <> poor.
Proof.
  cbv zeta. intros Hrun Hin.
  apply findOptimalTimeSlots_Ok in Hrun.
  destruct Hrun as [preferredHours [raw [w1 [_ [Hraw Hscore]]]]].
  pose proof (filterAndScoreSlots_not_poor _ _ _ _ _ _ Hscore) as Hnp.
  rewrite Forall_forall in Hnp. specialize (Hnp s Hin).
  destruct (filterAndScoreSlots_provenance _ _ _ _ _ _ Hscore)
    as [rescored [-> Hprov]].
  apply (proj1 (sortSlots_In _ _)) in Hin.
  destruct (Forall2_right_In _ _ _ _ Hprov Hin) as [x [Hx [Hw _]]].
  apply filter_In in Hx. destruct Hx as [Hx Hkeep].
  destruct (findAvailableSlots_shape _ _ _ _ _ _ _ x Hraw Hx) as [E [D C]].
  unfold window in Hw. inversion Hw as [[Hs He Hd Hc]].
  rewrite Hs, He, Hd, Hc.
  unfold SchedulingService.keepSlot in Hkeep.
  destruct (duration x <? min_duration cfg); [discriminate |].
  destruct (duration x >? max_duration cfg) eqn:E2; [discriminate |].
  rewrite Z.gtb_ltb in E2. apply Z.ltb_ge in E2.
  repeat split; try assumption; lia.
Qed.

Lemma accepted_has_profile task :
  valid (SchedulingService.validateTaskData task) = true ->
  exists cfg, FOCUS_TYPE_CONFIGS (focus_type task) = Some cfg.
Proof.
  unfold SchedulingService.validateTaskData.
  destruct ((task_id task =? "")%string); [discriminate |].
  destruct (estimated_duration task <=? 0); [discriminate |].
  destruct (_ || negb _); [discriminate |].
  destruct (FOCUS_TYPE_CONFIGS (focus_type task)) as [cfg |].
  - intros _. exists cfg. reflexivity.
  - rewrite orb_true_r. discriminate.
Qed.

(** The ways a run of [scheduleTask] can go, with the world it leaves. *)
Lemma scheduleTask_cases task w r w' :
  SchedulingService.scheduleTask task w = (Ok r, w') ->
  (valid (SchedulingService.validateTaskData task) = false
   /\ w' = w
   /\ r = SchedulingService.failure error
            (SchedulingService.orElse
               (validation_message (SchedulingService.validateTaskData task))
               "Task validation failed") None)
  \/ (valid (SchedulingService.validateTaskData task) = true
      /\ exists cfg,
          FOCUS_TYPE_CONFIGS (focus_type task) = Some cfg
          /\ ((exists e,
                  SchedulingService.findOptimalTimeSlots task cfg (tick w)
                  = (Throw e, w')
                  /\ r = SchedulingService.failure error
                           (String.append "Scheduling error: " e) None)
              \/ (SchedulingService.findOptimalTimeSlots task cfg (tick w)
                  = (Ok [], w')
                  /\ r = SchedulingService.failure no_slots
                           "No available time slots found for this task" None)
              \/ (exists u slots w2 best,
                     SchedulingService.calculateUrgency task w = (Ok u, tick w)
                     /\ SchedulingService.findOptimalTimeSlots task cfg (tick w)
                        = (Ok slots, w2)
                     /\ SchedulingService.selectBestSlot slots task u = Some best
                     /\ ((start best < clock (ticks w2) + 30 * 60 * 1000
                          /\ w' = tick w2
                          /\ r = SchedulingService.failure error
                                   (tooSoonMessage (start best)) None)
                         \/ (clock (ticks w2) + 30 * 60 * 1000 <= start best
                             /\ w' = mkWorld (S (S (ticks w2)))
                                       (notion_log w2
                                        ++ [(task_id task,
                                             NotionService.formatPropertiesForNotion
                                               (bookingUpdate best))])
                             /\ ((pages_update (S (ticks w2)) (task_id task)
                                    (NotionService.formatPropertiesForNotion
                                       (bookingUpdate best)) = false
                                  /\ r = SchedulingService.failure error
                                           "Failed to update Notion task with scheduled time"
                                           None)
                                 \/ (pages_update (S (ticks w2)) (task_id task)
                                       (NotionService.formatPropertiesForNotion
                                          (bookingUpdate best)) = true
                                     /\ r = booked best))))))).
Proof.
  unfold SchedulingService.scheduleTask, try_catch. cbv zeta.
  destruct (valid (SchedulingService.validateTaskData task)) eqn:Hv; cbn [negb].
  2: { intros E. inversion E. left. auto. }
  destruct (accepted_has_profile task Hv) as [cfg Hcfg]. rewrite Hcfg.
  intros Hrun. right. split; [reflexivity |]. exists cfg. split; [reflexivity |].
  destruct (calculateUrgency_run task w) as [u Eu].
  rewrite (bind_run _ _ _ _ _ Eu) in Hrun.
  destruct (findOptimalTimeSlots_ends task cfg (tick w))
    as [[slots [w2 Ef]] | [e [w2 Ef]]].
  - rewrite (bind_run _ _ _ _ _ Ef) in Hrun.
    destruct slots as [| slot0 rest].
    + simpl in Hrun. inversion Hrun; subst. right. left. auto.
    + replace (Z.of_nat (List.length (slot0 :: rest)) =? 0) with false in Hrun
        by (symmetry; apply Z.eqb_neq; simpl List.length; lia).
      destruct (selectBestSlot_some (slot0 :: rest) task u ltac:(discriminate))
        as [best [Eb _]].
      rewrite Eb in Hrun.
      rewrite (bind_run _ _ _ _ _ (validateScheduledTime_run _ _)) in Hrun.
      right. right. exists u, (slot0 :: rest), w2, best.
      split; [exact Eu |]. split; [exact Ef |]. split; [exact Eb |].
      destruct (start best <? clock (ticks w2) + 30 * 60 * 1000) eqn:Esoon;
        cbn [valid negb validation_message] in Hrun.
      * apply Z.ltb_lt in Esoon. inversion Hrun; subst. left.
        split; [exact Esoon |]. split; reflexivity.
      * apply Z.ltb_ge in Esoon.
        rewrite (bind_run _ _ _ _ _ (updateTask_run _ _ _)) in Hrun.
        right. split; [exact Esoon |].
        change (mkNotionTaskUpdate (Some (toISOString (start best)))
                  (Some (toISOString (end_ best))) (Some "Scheduled")
                  (Some (String.append "Scheduled for "
                           (SchedulingService.formatTimeSlot best))))
          with (bookingUpdate best) in Hrun.
        destruct (pages_update (ticks (tick w2)) (task_id task)
                    (NotionService.formatPropertiesForNotion (bookingUpdate best)))
          eqn:Eup; cbn [negb] in Hrun; inversion Hrun; subst;
          (split; [reflexivity |]).
        -- right. split; [exact Eup | reflexivity].
        -- left. split; [exact Eup | reflexivity].
  - rewrite (bind_throw _ _ _ _ _ Ef) in Hrun. inversion Hrun; subst.
    left. exists e. auto.
Qed.

Lemma validateTaskData_cases task :
  SchedulingService.validateTaskData task = mkValidation true None
  \/ (valid (SchedulingService.validateTaskData task) = false
      /\ exists msg,
          validation_message (SchedulingService.validateTaskData task) = Some msg
          /\ In msg ["Task ID is required";
                     "Valid estimated duration is required";
                     "Valid priority is required";
                     "Valid focus type is required"]).
Proof.
  unfold SchedulingService.validateTaskData.
  destruct ((task_id task =? "")%string);
    [right; split; [reflexivity | eexists; split; [reflexivity | simpl; auto]] |].
  destruct (estimated_duration task <=? 0);
    [right; split; [reflexivity | eexists; split; [reflexivity | simpl; auto]] |].
  destruct (_ || negb _);
    [right; split; [reflexivity | eexists; split; [reflexivity | simpl; auto]] |].
  destruct (_ || _);
    [right; split; [reflexivity | eexists; split; [reflexivity | simpl; auto 6]] |].
  left. reflexivity.
Qed.

(** X15. Every candidate of [findOptimalTimeSlots] has the effective duration
    max(estimated duration, profile minimum), which does not exceed the
    profile maximum; it ends that many minutes after it starts, carries
    no conflict flag and is not of tier [poor]; the candidates are
    ranked by tier, then start. *)
Theorem candidates_have_the_effective_duration task cfg w slots w' :
  SchedulingService.findOptimalTimeSlots task cfg w = (Ok slots, w') ->
  let dur := Z.max (estimated_duration task) (min_duration cfg) in
  StronglySorted rankedBefore slots
  /\ forall s, In s slots ->
               end_ s - start s = dur * msPerMinute
               /\ duration s = dur
               /\ dur <= max_duration cfg
               /\ conflicts s = false
               /\ quality s <> poor.
Proof.
  intros Hrun. cbv zeta. split.
  - apply findOptimalTimeSlots_Ok in Hrun.
    destruct Hrun as [preferredHours [raw [w1 [_ [_ Hscore]]]]].
    destruct (filterAndScoreSlots_provenance _ _ _ _ _ _ Hscore)
      as [rescored [-> _]].
    apply sortSlots_ranked.
  - intros s Hin. apply (findOptimalTimeSlots_shape _ _ _ _ _ s Hrun Hin).
Qed.

(** X21. A task that fails validation is answered with an [error] outcome
    carrying the validation message, before the clock, the calendar or
    Notion is touched. *)
Theorem invalid_task_touches_nothing task w :
  valid (SchedulingService.validateTaskData task) = false ->
  exists msg,
    SchedulingService.scheduleTask task w
    = (Ok (SchedulingService.failure error msg None), w)
    /\ validation_message (SchedulingService.validateTaskData task) = Some msg
    /\ In msg ["Task ID is required";
               "Valid estimated duration is required";
               "Valid priority is required";
               "Valid focus type is required"].
Proof.
  intros Hv.
  destruct (validateTaskData_cases task) as [E | [_ [msg [Emsg Hin]]]];
    [rewrite E in Hv; discriminate |].
  exists msg. split; [| split; [exact Emsg | exact Hin]].
  unfold SchedulingService.scheduleTask, try_catch. cbv zeta.
  rewrite Hv, Emsg. cbn [negb]. unfold ret. repeat f_equal.
  simpl in Hin.
  destruct Hin as [<- | [<- | [<- | [<- | []]]]]; reflexivity.
Qed.

(** X22. When the search for slots ends with the exception of a rejected
    calendar request, [scheduleTask] returns an [error] outcome with
    that message after "Scheduling error: ", and sends nothing to
    Notion. *)
Theorem calendar_failure_is_reported task cfg w e w2 :
  valid (SchedulingService.validateTaskData task) = true ->
  FOCUS_TYPE_CONFIGS (focus_type task) = Some cfg ->
  SchedulingService.findOptimalTimeSlots task cfg (tick w) = (Throw e, w2) ->
  SchedulingService.scheduleTask task w
  = (Ok (SchedulingService.failure error
           (String.append "Scheduling error: " e) None), w2)
  /\ notion_log w2 = notion_log w.
Proof.
  intros Hv Hcfg Hfind. split.
  - unfold SchedulingService.scheduleTask, try_catch. cbv zeta.
    rewrite Hv, Hcfg. cbn [negb].
    destruct (calculateUrgency_run task w) as [u Eu].
    rewrite (bind_run _ _ _ _ _ Eu), (bind_throw _ _ _ _ _ Hfind). reflexivity.
  - pose proof (quiet_findOptimalTimeSlots task cfg (tick w)) as Q.
    rewrite Hfind in Q. exact Q.
Qed.

Lemma selection_member slots task u best :
  SchedulingService.selectBestSlot slots task u = Some best -> In best slots.
Proof.
  intros Hbest. destruct slots as [| slot0 rest]; [discriminate |].
  destruct (selectBestSlot_some (slot0 :: rest) task u ltac:(discriminate))
    as [s [E Hin]].
  rewrite Hbest in E. inversion E. subst. exact Hin.
Qed.

(** X23. A [scheduled] outcome books a candidate slot: its length is the
    effective duration, the estimated duration is within the profile
    maximum, the slot starts at least 30 minutes after the clock reading
    that precedes the update, and exactly one update, for this task and
    this slot, has been sent to Notion and accepted. *)
Theorem scheduled_outcome_books_a_valid_slot task w r w' :
  SchedulingService.scheduleTask task w = (Ok r, w') ->
  status r = scheduled ->
  exists cfg best n,
    FOCUS_TYPE_CONFIGS (focus_type task) = Some cfg
    /\ r = booked best
    /\ end_ best - start best
       = Z.max (estimated_duration task) (min_duration cfg) * msPerMinute
    /\ estimated_duration task <= max_duration cfg
    /\ conflicts best = false
    /\ clock n + 30 * msPerMinute <= start best
    /\ ticks w' = S (S n)
    /\ pages_update (S n) (task_id task)
         (NotionService.formatPropertiesForNotion (bookingUpdate best)) = true
    /\ notion_log w'
       = notion_log w
         ++ [(task_id task,
              NotionService.formatPropertiesForNotion (bookingUpdate best))].
Proof.
  intros Hrun Hst.
  destruct (scheduleTask_cases _ _ _ _ Hrun)
    as [[_ [_ ->]] | [_ [cfg [Hcfg [[e [_ ->]] | [[_ ->] | Hsel]]]]]];
    try discriminate Hst.
  destruct Hsel as [u [slots [w2 [best [_ [Hfind [Hbest Hend]]]]]]].
  destruct Hend as [[_ [_ ->]] | [Hlate [-> [[_ ->] | [Hup ->]]]]];
    try discriminate Hst.
  exists cfg, best, (ticks w2).
  pose proof (selection_member slots task u best Hbest) as Hin.
  destruct (findOptimalTimeSlots_shape _ _ _ _ _ best Hfind Hin)
    as [E [D [M [C _]]]].
  pose proof (quiet_findOptimalTimeSlots task cfg (tick w)) as Q.
  rewrite Hfind in Q. simpl in Q.
  unfold msPerMinute. repeat split; try assumption; try lia.
  simpl. rewrite Q. reflexivity.
Qed.

(** X24. [scheduleTask] sends at most one update to Notion, and sends one
    exactly when its outcome is [scheduled] or the error of a rejected
    update. *)
Theorem at_most_one_notion_update task w r w' :
  SchedulingService.scheduleTask task w = (Ok r, w') ->
  (notion_log w' = notion_log w
   /\ status r <> scheduled
   /\ message r <> "Failed to update Notion task with scheduled time")
  \/ (exists properties,
         notion_log w' = notion_log w ++ [(task_id task, properties)]
         /\ (status r = scheduled
             \/ (status r = error
                 /\ message r
                    = "Failed to update Notion task with scheduled time"))).
Proof.
  intros Hrun.
  destruct (scheduleTask_cases _ _ _ _ Hrun)
    as [[Hv [-> ->]] | [_ [cfg [Hcfg [[e [Hfind ->]] | [[Hfind ->] | Hsel]]]]]].
  - left. split; [reflexivity |]. split; [discriminate |].
    destruct (validateTaskData_cases task) as [E | [_ [msg [Emsg Hin]]]];
      [rewrite E in Hv; discriminate |].
    rewrite Emsg. simpl in Hin.
    destruct Hin as [<- | [<- | [<- | [<- | []]]]]; simpl; discriminate.
  - left. pose proof (quiet_findOptimalTimeSlots task cfg (tick w)) as Q.
    rewrite Hfind in Q. split; [exact Q |]. split; simpl; discriminate.
  - left. pose proof (quiet_findOptimalTimeSlots task cfg (tick w)) as Q.
    rewrite Hfind in Q. split; [exact Q |]. split; simpl; discriminate.
  - destruct Hsel as [u [slots [w2 [best [_ [Hfind [_ Hend]]]]]]].
    pose proof (quiet_findOptimalTimeSlots task cfg (tick w)) as Q.
    rewrite Hfind in Q. simpl in Q.
    destruct Hend as [[_ [-> ->]] | [_ [-> [[_ ->] | [_ ->]]]]].
    + left. split; [exact Q |]. split; [discriminate |].
      unfold tooSoonMessage. simpl. discriminate.
    + right. eexists. split; [simpl; rewrite Q; reflexivity |].
      right. split; reflexivity.
    + right. eexists. split; [simpl; rewrite Q; reflexivity |].
      left. reflexivity.
Qed.

(** X25. A task accepted by [validateTaskData] has a profile, so no outcome of
    [scheduleTask] carries the "Unknown focus type" message. *)
Theorem unknown_focus_type_is_never_reported task w r w' :
  SchedulingService.scheduleTask task w = (Ok r, w') ->
  message r <> String.append "Unknown focus type: " (focus_type task).
Proof.
  intros Hrun.
  destruct (scheduleTask_cases _ _ _ _ Hrun)
    as [[Hv [_ ->]] | [_ [cfg [Hcfg [[e [_ ->]] | [[_ ->] | Hsel]]]]]].
  - destruct (validateTaskData_cases task) as [E | [_ [msg [Emsg Hin]]]];
      [rewrite E in Hv; discriminate |].
    rewrite Emsg. simpl in Hin.
    destruct Hin as [<- | [<- | [<- | [<- | []]]]]; simpl; discriminate.
  - simpl. discriminate.
  - simpl. discriminate.
  - destruct Hsel as [u [slots [w2 [best [_ [_ [_ Hend]]]]]]].
    destruct Hend as [[_ [_ ->]] | [_ [_ [[_ ->] | [_ ->]]]]].
    + unfold tooSoonMessage. simpl. discriminate.
    + simpl. discriminate.
    + simpl. discriminate.
Qed.
End Outcomes.

(** ** Concrete runs of the further properties *)

Section MoreRuns.
Import Scenario.

Lemma slots_inside_work_window_witness :
  let host := quietHost (at_ 0 14 40) 9 17 in
  let s := mkTimeSlot (at_ 1 9 0) (at_ 1 11 0) 120 excellent false in
  @setHours host (at_ 1 14 40) (@WORK_START_HOUR host) 0 0 0 <= start s
  /\ end_ s <= @setHours host (at_ 1 14 40) (@WORK_END_HOUR host) 0 0 0
  /\ 120 * msPerMinute
     <= (@WORK_END_HOUR host - @WORK_START_HOUR host) * msPerHour.
Proof.
  cbv zeta.
  apply (@slots_inside_work_window (quietHost (at_ 0 14 40) 9 17)
           (at_ 1 14 40) 120 [9; 10; 11; 12] w0
           (slotsOf (@CalendarService.findSlotsForDay
                       (quietHost (at_ 0 14 40) 9 17)
                       (at_ 1 14 40) 120 [9; 10; 11; 12]))
           (worldOf (@CalendarService.findSlotsForDay
                       (quietHost (at_ 0 14 40) 9 17)
                       (at_ 1 14 40) 120 [9; 10; 11; 12]))).
  - vm_compute. reflexivity.
  - vm_compute. left. reflexivity.
Defined.

Lemma slots_start_in_the_future_witness :
  at_ 0 14 40 < at_ 0 15 40.
Proof.
  apply (@slots_start_in_the_future (quietHost (at_ 0 14 40) 9 17)
           (at_ 0 14 40) 60 [9; 10; 11; 12] w0
           [mkTimeSlot (at_ 0 15 40) (at_ 0 16 40) 60 acceptable false]
           (mkWorld 3 [])
           (mkTimeSlot (at_ 0 15 40) (at_ 0 16 40) 60 acceptable false)).
  - simpl. lia.
  - vm_compute. reflexivity.
  - left. reflexivity.
Defined.

Lemma slots_in_start_order_witness :
  StronglySorted (fun a b => start a < start b)
    (slotsOf (@CalendarService.findSlotsForDay (quietHost (at_ 0 14 40) 9 17)
                (at_ 1 14 40) 120 [9; 10; 11; 12])).
Proof.
  apply (@slots_in_start_order (quietHost (at_ 0 14 40) 9 17)
           (at_ 1 14 40) 120 [9; 10; 11; 12] w0 _
           (worldOf (@CalendarService.findSlotsForDay
                       (quietHost (at_ 0 14 40) 9 17)
                       (at_ 1 14 40) 120 [9; 10; 11; 12]))).
  vm_compute. reflexivity.
Defined.

Lemma day_slots_are_the_free_positions_witness :
  let host := busyHost (at_ 0 8 0) meeting in
  let s := mkTimeSlot (at_ 0 11 30) (at_ 0 12 30) 60 excellent false in
  In s (slotsOf (@CalendarService.findSlotsForDay host (at_ 0 8 0) 60
                   [9; 10; 11; 12]))
  <-> @offered host (fun _ _ => [meeting]) (at_ 0 9 0) (at_ 0 17 0) 60
               [9; 10; 11; 12] s.
Proof.
  cbv zeta.
  apply (@day_slots_are_the_free_positions (busyHost (at_ 0 8 0) meeting)
           (fun _ _ => [meeting]) (fun _ _ _ => eq_refl)
           (at_ 0 8 0) 60 [9; 10; 11; 12] w0 _
           (worldOf (@CalendarService.findSlotsForDay
                       (busyHost (at_ 0 8 0) meeting) (at_ 0 8 0) 60
                       [9; 10; 11; 12]))).
  - simpl. lia.
  - vm_compute. reflexivity.
Defined.

Lemma search_stays_within_horizon_witness :
  let host := quietHost (at_ 0 14 40) 9 17 in
  let s := mkTimeSlot (at_ 2 9 0) (at_ 2 10 0) 60 excellent false in
  exists k,
    0 <= k
    /\ @addDays (at_ 0 14 40) k <= at_ 2 14 40
    /\ @setHours host (addDays (at_ 0 14 40) k) (@WORK_START_HOUR host) 0 0 0
       <= start s
    /\ end_ s
       <= @setHours host (addDays (at_ 0 14 40) k) (@WORK_END_HOUR host) 0 0 0.
Proof.
  cbv zeta.
  apply (@search_stays_within_horizon (quietHost (at_ 0 14 40) 9 17)
           (at_ 0 14 40) (at_ 2 14 40) 60 [9; 10; 11; 12] w0
           (slotsOf (@CalendarService.findAvailableSlots
                       (quietHost (at_ 0 14 40) 9 17)
                       (at_ 0 14 40) (at_ 2 14 40) 60 [9; 10; 11; 12]))
           (worldOf (@CalendarService.findAvailableSlots
                       (quietHost (at_ 0 14 40) 9 17)
                       (at_ 0 14 40) (at_ 2 14 40) 60 [9; 10; 11; 12]))).
  - vm_compute. reflexivity.
  - apply (nth_error_In _ 8). vm_compute. reflexivity.
Defined.

Lemma search_result_is_ranked_witness :
  StronglySorted rankedBefore
    (slotsOf (@CalendarService.findAvailableSlots (quietHost (at_ 0 14 40) 9 17)
                (at_ 0 14 40) (at_ 2 14 40) 60 [9; 10; 11; 12])).
Proof.
  apply (@search_result_is_ranked (quietHost (at_ 0 14 40) 9 17)
           (at_ 0 14 40) (at_ 2 14 40) 60 [9; 10; 11; 12] w0 _
           (worldOf (@CalendarService.findAvailableSlots
                       (quietHost (at_ 0 14 40) 9 17)
                       (at_ 0 14 40) (at_ 2 14 40) 60 [9; 10; 11; 12]))).
  vm_compute. reflexivity.
Defined.

Lemma search_terminates_witness :
  exists slots w',
    @CalendarService.findAvailableSlots (quietHost (at_ 0 14 40) 9 17)
      (at_ 0 14 40) (at_ 1 14 40) 60 [9; 10; 11; 12] w0
    = (Ok slots, w').
Proof.
  apply (proj2 (@search_terminates (quietHost (at_ 0 14 40) 9 17)
                  (at_ 0 14 40) (at_ 1 14 40) 60 [9; 10; 11; 12] w0)).
  - intros n a b. exists []. reflexivity.
  - unfold ordinaryTimes. simpl.
    unfold at_, day0, msPerDay, msPerHour, msPerMinute. repeat split; lia.
  - unfold at_, day0, msPerDay, msPerHour, msPerMinute. lia.
  - unfold at_, day0, msPerDay, msPerHour, msPerMinute. lia.
  - lia.
Defined.

Lemma next_slot_is_best_witness :
  let host := quietHost (at_ 0 14 40) 9 17 in
  let s := mkTimeSlot (at_ 1 9 0) (at_ 1 10 0) 60 excellent false in
  exists slots,
    @CalendarService.findAvailableSlots host (at_ 0 14 40) (at_ 2 14 40) 60
      [9; 10; 11; 12] (tick (tick w0))
    = (Ok slots,
       worldOf (@CalendarService.getNextAvailableSlot host 60 [9; 10; 11; 12] 2))
    /\ In s slots
    /\ forall s', In s' slots -> rankedBefore s s'.
Proof.
  cbv zeta.
  apply (@next_slot_is_best (quietHost (at_ 0 14 40) 9 17) 60 [9; 10; 11; 12] 2
           w0 (Some (mkTimeSlot (at_ 1 9 0) (at_ 1 10 0) 60 excellent false))).
  vm_compute. reflexivity.
Defined.
Lemma generator_tier_facts_witness :
  @CalendarService.calculateSlotQuality (quietHost (at_ 0 14 40) 9 17)
    (at_ 0 15 0) [15] 30 = acceptable.
Proof.
  apply (proj1 (proj2 (@generator_tier_facts (quietHost (at_ 0 14 40) 9 17)
                         (at_ 0 15 0) [15] 30))).
  - lia.
  - vm_compute. discriminate.
Defined.

Lemma scorer_tier_facts_witness :
  exists q w',
    @SchedulingService.calculateSlotQuality (quietHost (at_ 0 14 40) 9 17)
      (mkTimeSlot (at_ 1 10 0) (at_ 1 11 0) 60 acceptable false)
      (deepWork 60 "Low" (at_ 5 0 0)) deepWorkConfig w0 = (Ok q, w')
    /\ q = excellent.
Proof.
  destruct (@scorer_tier_facts (quietHost (at_ 0 14 40) 9 17)
              (mkTimeSlot (at_ 1 10 0) (at_ 1 11 0) 60 acceptable false)
              (deepWork 60 "Low" (at_ 5 0 0)) deepWorkConfig w0)
    as [q [w' [E [Hinc _]]]].
  exists q, w'. split; [exact E |]. apply Hinc. vm_compute. reflexivity.
Defined.

Lemma rescoring_keeps_the_windows_witness :
  let host := quietHost (at_ 0 14 40) 9 17 in
  let task := deepWork 60 "High" (at_ 0 14 40) in
  let raw := [mkTimeSlot (at_ 0 15 40) (at_ 0 16 40) 60 acceptable false;
              mkTimeSlot (at_ 1 9 0) (at_ 1 10 0) 60 excellent false] in
  let scored := [mkTimeSlot (at_ 1 9 0) (at_ 1 10 0) 60 excellent false;
                 mkTimeSlot (at_ 0 15 40) (at_ 0 16 40) 60 good false] in
  Permutation (map window scored)
    (map window (filter (@SchedulingService.keepSlot host task deepWorkConfig) raw))
  /\ StronglySorted rankedBefore scored
  /\ forall s, In s scored ->
               min_duration deepWorkConfig <= duration s
               <= max_duration deepWorkConfig.
Proof.
  cbv zeta.
  apply (@rescoring_keeps_the_windows (quietHost (at_ 0 14 40) 9 17) _
           (deepWork 60 "High" (at_ 0 14 40)) deepWorkConfig w0 _ w0).
  vm_compute. reflexivity.
Defined.

Lemma high_priority_keeps_every_hour_witness :
  let raw := [mkTimeSlot (at_ 0 15 40) (at_ 0 16 40) 60 acceptable false;
              mkTimeSlot (at_ 1 9 0) (at_ 1 10 0) 60 excellent false] in
  let scored := [mkTimeSlot (at_ 1 9 0) (at_ 1 10 0) 60 excellent false;
                 mkTimeSlot (at_ 0 15 40) (at_ 0 16 40) 60 good false] in
  Permutation (map window scored) (map window raw).
Proof.
  cbv zeta.
  apply (@high_priority_keeps_every_hour (quietHost (at_ 0 14 40) 9 17) _
           (deepWork 60 "High" (at_ 0 14 40)) deepWorkConfig w0 _ w0).
  - reflexivity.
  - intros x [<- | [<- | []]]; simpl; lia.
  - vm_compute. reflexivity.
Defined.

Lemma rigid_task_gets_preferred_hours_only_witness :
  let host := quietHost (at_ 0 14 40) 9 17 in
  let s := mkTimeSlot (at_ 1 10 0) (at_ 1 11 0) 60 excellent false in
  includes (preferred_hours callsConfig) (@getHours host (start s)) = true
  /\ quality s = excellent.
Proof.
  cbv zeta.
  apply (@rigid_task_gets_preferred_hours_only (quietHost (at_ 0 14 40) 9 17)
           [mkTimeSlot (at_ 1 9 0) (at_ 1 10 0) 60 excellent false;
            mkTimeSlot (at_ 1 10 0) (at_ 1 11 0) 60 excellent false]
           (rigidCalls 60 (at_ 5 0 0)) callsConfig w0
           [mkTimeSlot (at_ 1 10 0) (at_ 1 11 0) 60 excellent false] w0).
  - discriminate.
  - reflexivity.
  - vm_compute. reflexivity.
  - left. reflexivity.
Defined.

Lemma preferred_hours_are_day_hours_witness :
  SchedulingService.convertPreferredTimesToHours ["evening"] (Some "Work")
  = inr [9; 10; 11; 12; 13; 14; 15; 16]
  /\ exists msg,
      SchedulingService.convertPreferredTimesToHours ["morning"; "constructor"] None
      = inl msg.
Proof.
  split.
  - destruct (SchedulingService.convertPreferredTimesToHours
                ["evening"] (Some "Work")) as [msg | hours] eqn:E;
      [vm_compute in E; discriminate E |].
    f_equal.
    apply (proj1 (proj2 (proj2 (proj2 (preferred_hours_are_day_hours
                                         ["evening"] (Some "Work"))
                                      hours E)))).
    reflexivity.
  - apply (proj1 (preferred_hours_are_day_hours ["morning"; "constructor"] None)).
    exists "constructor". split; [right; left; reflexivity | reflexivity].
Defined.

Lemma urgency_threshold_witness :
  exists u,
    @SchedulingService.calculateUrgency (quietHost (at_ 0 14 40) 9 17)
      (deepWork 60 "Low" (at_ 5 0 0)) w0 = (Ok u, tick w0)
    /\ (0.8 <? u)%float = false.
Proof.
  destruct (@urgency_threshold (quietHost (at_ 0 14 40) 9 17)
              (deepWork 60 "Low" (at_ 5 0 0)) w0
              (or_intror (or_intror (or_introl eq_refl))))
    as [u [E Hiff]].
  exists u. split; [exact E |]. apply not_true_is_false. intros Hu.
  apply Hiff in Hu. vm_compute in Hu.
  destruct Hu as [Hh | [[Hm _] | [_ Hd]]];
    [discriminate Hh | discriminate Hm | apply Hd; reflexivity].
Defined.

Lemma urgency_is_monotone_in_days_witness :
  exists u1 u2,
    @SchedulingService.calculateUrgency (quietHost (at_ 0 14 40) 9 17)
      (deepWork 60 "Low" (at_ 2 0 0)) w0 = (Ok u1, tick w0)
    /\ @SchedulingService.calculateUrgency (quietHost (at_ 0 14 40) 9 17)
         (deepWork 60 "Low" (at_ 9 0 0)) w0 = (Ok u2, tick w0)
    /\ (u2 <=? u1)%float = true.
Proof.
  apply (@urgency_is_monotone_in_days (quietHost (at_ 0 14 40) 9 17)
           (deepWork 60 "Low" (at_ 2 0 0)) (deepWork 60 "Low" (at_ 9 0 0)) w0).
  - right. right. left. reflexivity.
  - reflexivity.
  - vm_compute. discriminate.
Defined.

Lemma selection_picks_a_candidate_witness :
  let today := mkTimeSlot (at_ 0 15 40) (at_ 0 16 40) 60 acceptable false in
  let tomorrow := mkTimeSlot (at_ 1 16 0) (at_ 1 17 0) 60 good false in
  In tomorrow [today; tomorrow]
  /\ ((0.8 <? 1.0)%float = true ->
      (exists g, In g [today; tomorrow]
                 /\ (quality g = excellent \/ quality g = good)) ->
      quality tomorrow = excellent \/ quality tomorrow = good).
Proof.
  cbv zeta.
  apply (selection_picks_a_candidate _ (deepWork 60 "High" (at_ 0 14 40)) 1.0%float).
  vm_compute. reflexivity.
Defined.

Lemma all_day_events_never_conflict_witness :
  exists hasConflicts conflictingEvents,
    @CalendarService.checkConflicts (busyHost (at_ 0 8 0) holiday)
      (at_ 0 11 0) (at_ 0 12 0) 5 w0
    = (Ok (hasConflicts, conflictingEvents), tick w0)
    /\ hasConflicts = false
    /\ conflictingEvents = [].
Proof.
  destruct (@all_day_events_never_conflict (busyHost (at_ 0 8 0) holiday)
              (at_ 0 11 0) (at_ 0 12 0) 5 [holiday] w0 eq_refl)
    as [b [cs [E [_ [_ Hall]]]]].
  exists b, cs. split; [exact E |]. apply Hall.
  intros ev [<- | []]. reflexivity.
Defined.


Lemma validateDatabase_requires_three_properties_witness :
  NotionService.validateDatabase
    (inr ["Name"; "Scheduling Message"; "Planned"; "Estimates"]) = true.
Proof.
  apply (proj2 (validateDatabase_requires_three_properties _)).
  eexists. split; [reflexivity |]. simpl. auto 8.
Defined.

Lemma candidates_have_the_effective_duration_witness :
  StronglySorted rankedBefore
    (slotsOf (@SchedulingService.findOptimalTimeSlots
                (quietHost (at_ 0 14 40) 9 17)
                (deepWork 30 "High" (at_ 0 14 40)) deepWorkConfig)).
Proof.
  destruct (@candidates_have_the_effective_duration
              (quietHost (at_ 0 14 40) 9 17)
              (deepWork 30 "High" (at_ 0 14 40)) deepWorkConfig w0
              (slotsOf (@SchedulingService.findOptimalTimeSlots
                          (quietHost (at_ 0 14 40) 9 17)
                          (deepWork 30 "High" (at_ 0 14 40)) deepWorkConfig))
              (worldOf (@SchedulingService.findOptimalTimeSlots
                          (quietHost (at_ 0 14 40) 9 17)
                          (deepWork 30 "High" (at_ 0 14 40)) deepWorkConfig))
              ltac:(vm_compute; reflexivity)) as [Hs _].
  exact Hs.
Defined.

Lemma invalid_task_touches_nothing_witness :
  exists msg,
    @SchedulingService.scheduleTask (quietHost (at_ 0 14 40) 9 17)
      (deepWork 0 "High" (at_ 0 14 40)) w0
    = (Ok (SchedulingService.failure error msg None), w0)
    /\ msg = "Valid estimated duration is required".
Proof.
  destruct (@invalid_task_touches_nothing (quietHost (at_ 0 14 40) 9 17)
              (deepWork 0 "High" (at_ 0 14 40)) w0 eq_refl)
    as [msg [E [Emsg _]]].
  exists msg. split; [exact E |]. vm_compute in Emsg. inversion Emsg. reflexivity.
Defined.

Lemma calendar_failure_is_reported_witness :
  let host := downHost (at_ 0 14 40) in
  let task := deepWork 60 "High" (at_ 0 14 40) in
  @SchedulingService.scheduleTask host task w0
  = (Ok (SchedulingService.failure error "Scheduling error: quota exceeded" None),
     mkWorld 5 [])
  /\ notion_log (mkWorld 5 []) = notion_log w0.
Proof.
  cbv zeta.
  apply (@calendar_failure_is_reported (downHost (at_ 0 14 40))
           (deepWork 60 "High" (at_ 0 14 40)) deepWorkConfig w0
           "quota exceeded" (mkWorld 5 [])).
  - reflexivity.
  - reflexivity.
  - vm_compute. reflexivity.
Defined.

Lemma scheduled_outcome_books_a_valid_slot_witness :
  let host := quietHost (at_ 0 14 40) 9 17 in
  let task := deepWork 60 "High" (at_ 0 14 40) in
  let w' := snd (@SchedulingService.scheduleTask host task w0) in
  exists cfg best n,
    FOCUS_TYPE_CONFIGS (focus_type task) = Some cfg
    /\ @booked host (mkTimeSlot (at_ 1 9 0) (at_ 1 10 0) 60 excellent false)
       = @booked host best
    /\ end_ best - start best
       = Z.max (estimated_duration task) (min_duration cfg) * msPerMinute
    /\ estimated_duration task <= max_duration cfg
    /\ conflicts best = false
    /\ @clock host n + 30 * msPerMinute <= start best
    /\ ticks w' = S (S n)
    /\ @pages_update host (S n) (task_id task)
         (NotionService.formatPropertiesForNotion (@bookingUpdate host best))
       = true
    /\ notion_log w'
       = notion_log w0
         ++ [(task_id task,
              NotionService.formatPropertiesForNotion (@bookingUpdate host best))].
Proof.
  cbv zeta.
  apply (@scheduled_outcome_books_a_valid_slot (quietHost (at_ 0 14 40) 9 17)
           (deepWork 60 "High" (at_ 0 14 40)) w0).
  - vm_compute. reflexivity.
  - reflexivity.
Defined.

Lemma at_most_one_notion_update_witness :
  let host := readOnlyHost (at_ 0 14 40) in
  let task := deepWork 60 "High" (at_ 0 14 40) in
  let r := SchedulingService.failure error
             "Failed to update Notion task with scheduled time" None in
  let w' := snd (@SchedulingService.scheduleTask host task w0) in
  (notion_log w' = notion_log w0
   /\ status r <> scheduled
   /\ message r <> "Failed to update Notion task with scheduled time")
  \/ (exists properties,
         notion_log w' = notion_log w0 ++ [(task_id task, properties)]
         /\ (status r = scheduled
             \/ (status r = error
                 /\ message r
                    = "Failed to update Notion task with scheduled time"))).
Proof.
  cbv zeta.
  apply (@at_most_one_notion_update (readOnlyHost (at_ 0 14 40))
           (deepWork 60 "High" (at_ 0 14 40)) w0).
  vm_compute. reflexivity.
Defined.

Lemma unknown_focus_type_is_never_reported_witness :
  "Valid focus type is required"
  <> String.append "Unknown focus type: " "Gardening".
Proof.
  apply (@unknown_focus_type_is_never_reported (quietHost (at_ 0 14 40) 9 17)
           (mkTaskData "task-4" "Weed the beds" 60 "Low" "Gardening" None
                       ["morning"] (at_ 5 0 0) 15 15 true None None)
           w0
           (SchedulingService.failure error "Valid focus type is required" None)
           w0).
  vm_compute. reflexivity.
Defined.
End MoreRuns.

(** ** The [/schedule] route *)

Section Route.
Context `{Host}.

Lemma success_iff_scheduled task w r w' :
  SchedulingService.scheduleTask task w = (Ok r, w') ->
  (success r = true <-> status r = scheduled)
  /\ (status r = scheduled -> scheduled_time r <> None).
Proof.
  intros Hrun.
  destruct (scheduleTask_cases _ _ _ _ Hrun)
    as [[_ [_ ->]] | [_ [cfg [_ [[e [_ ->]] | [[_ ->] | Hsel]]]]]];
    try (simpl; split; [split; discriminate | discriminate]).
  destruct Hsel as [u [slots [w2 [best [_ [_ [_ Hend]]]]]]].
  destruct Hend as [[_ [_ ->]] | [_ [_ [[_ ->] | [_ ->]]]]];
    simpl; split; try (split; discriminate); try discriminate;
      split; reflexivity.
Qed.

(** X27. The route always answers. Without a service it answers 503, and an
    invalid payload gets 400 with the validation details, in both cases
    before anything is touched. Otherwise it answers 200 exactly when
    the task was scheduled, with the booked time in the body, and 400
    for every other outcome of [scheduleTask]; it never answers 500. *)
Theorem schedule_route_status_codes serviceAvailable validation w :
  exists resp w',
    Webhook.schedule serviceAvailable validation w = (Ok resp, w')
    /\ Webhook.statusCode resp <> 500
    /\ (serviceAvailable = false -> Webhook.statusCode resp = 503 /\ w' = w)
    /\ (forall details,
           serviceAvailable = true -> validation = inl details ->
           Webhook.statusCode resp = 400
           /\ Webhook.res_details resp = Some details
           /\ w' = w)
    /\ (forall task,
           serviceAvailable = true -> validation = inr task ->
           exists r,
             SchedulingService.scheduleTask task w = (Ok r, w')
             /\ Webhook.res_status resp = Some (status r)
             /\ Webhook.res_message resp = Some (message r)
             /\ (Webhook.statusCode resp = 200 \/ Webhook.statusCode resp = 400)
             /\ (Webhook.statusCode resp = 200 <-> status r = scheduled)
             /\ (Webhook.statusCode resp = 200 ->
                 Webhook.res_scheduled_time resp = scheduled_time r
                 /\ scheduled_time r <> None)).
Proof.
  unfold Webhook.schedule, try_catch.
  destruct serviceAvailable; cbn [negb].
  2: { eexists; eexists. split; [reflexivity |]. simpl.
       split; [discriminate |]. split; [auto |].
       split; intros; discriminate. }
  destruct validation as [details | task].
  { eexists; eexists. split; [reflexivity |]. simpl.
    split; [discriminate |]. split; [discriminate |].
    split; [intros d _ E; inversion E; auto | intros t _ E; discriminate]. }
  destruct (scheduleTask_outcome task w) as [r [w' [Hrun _]]].
  rewrite (bind_run _ _ _ _ _ Hrun).
  destruct (success_iff_scheduled _ _ _ _ Hrun) as [Hiff Htime].
  destruct (success r) eqn:Es; simpl;
    eexists; eexists; (split; [reflexivity |]); simpl;
      (split; [discriminate |]); (split; [discriminate |]);
      (split; [intros d _ E; discriminate |]);
      intros t _ E; inversion E; subst t; exists r;
        (split; [exact Hrun |]); (split; [reflexivity |]);
        (split; [reflexivity |]).
  - split; [left; reflexivity |].
    assert (Hst : status r = scheduled) by (apply Hiff; reflexivity).
    split; [split; auto |].
    intros _. split; [reflexivity | apply Htime, Hst].
  - split; [right; reflexivity |].
    split; [split; [discriminate |] | discriminate].
    intros Hst. apply Hiff in Hst. discriminate.
Qed.
End Route.

Section RouteRuns.
Import Scenario.

Lemma schedule_route_status_codes_witness :
  exists resp w',
    @Webhook.schedule (downHost (at_ 0 14 40)) true
      (inr (deepWork 60 "High" (at_ 0 14 40))) w0 = (Ok resp, w')
    /\ Webhook.statusCode resp = 400
    /\ Webhook.res_status resp = Some error.
Proof.
  destruct (@schedule_route_status_codes (downHost (at_ 0 14 40)) true
              (inr (deepWork 60 "High" (at_ 0 14 40))) w0)
    as [resp [w' [E [_ [_ [_ Htask]]]]]].
  exists resp, w'. split; [exact E |].
  destruct (Htask _ eq_refl eq_refl) as [r [Hrun [Hst [_ [Hcode [Hiff _]]]]]].
  assert (Hr : status r = error).
  { assert (Hc : @SchedulingService.scheduleTask (downHost (at_ 0 14 40))
                   (deepWork 60 "High" (at_ 0 14 40)) w0
                 = (Ok (SchedulingService.failure error
                          "Scheduling error: quota exceeded" None),
                    mkWorld 5 [])) by (vm_compute; reflexivity).
    rewrite Hc in Hrun. inversion Hrun. reflexivity. }
  rewrite Hst, Hr. split; [| reflexivity].
  destruct Hcode as [H200 | H400]; [| exact H400].
  apply Hiff in H200. rewrite Hr in H200. discriminate.
Defined.
End RouteRuns.
